(** * tc-build: the staged LLVM build orchestrator

    A shallow embedding of [tc_build/llvm_build_stages.py] (class
    [LLVMStages] and the [build_stage] decorator) and of the stage dispatch
    at the end of [build-llvm.py], together with the properties of the
    orchestrator that the specification states.

    Python objects that are shared and mutated (the host tools, the target
    and project lists of the default final builder, the dictionary of common
    cmake defines, the retained instrumented builder) live in the
    orchestrator state; builders refer to them, they do not copy them. *)

From Stdlib Require Import Ascii String List ZArith Lia Bool DecimalString.
From stdpp Require Import gmap strings list.

Local Open Scope string_scope.
Local Open Scope list_scope.
Import ListNotations.

(** ** Python strings and lists *)

Module Py.

  (** [s.startswith(p)] *)
Fixpoint starts_with (p s : string) : bool :=
    match p, s with
    | EmptyString, _ => true
    | String _ _, EmptyString => false
    | String a p', String b s' => Ascii.eqb a b && starts_with p' s'
    end.

  (** [sub in s] for strings. *)
Fixpoint contains (sub s : string) : bool :=
    starts_with sub s ||
    match s with
    | EmptyString => false
    | String _ s' => contains sub s'
    end.

  (** [s.replace(old, new)] for a non-empty [old]: occurrences are replaced
      from left to right and do not overlap. [skip] counts the characters of
      an occurrence that are still to be dropped. *)
Fixpoint replace_from (old new s : string) (skip : nat) : string :=
    match s with
    | EmptyString => EmptyString
    | String c s' =>
        match skip with
        | S k => replace_from old new s' k
        | O =>
            if starts_with old s
            then new ++ replace_from old new s' (String.length old - 1)
            else String c (replace_from old new s' 0)
        end
    end.

Definition replace (old new s : string) : string := replace_from old new s 0.

  (** [s.split(sep)] for a one-character separator. *)
Fixpoint split_from (sep : ascii) (s cur : string) : list string :=
    match s with
    | EmptyString => [cur]
    | String c s' =>
        if Ascii.eqb c sep then cur :: split_from sep s' EmptyString
        else split_from sep s' (cur ++ String c EmptyString)
    end.

Definition split (sep : ascii) (s : string) : list string :=
    split_from sep s EmptyString.

  (** [sep.join(l)] *)
Definition join (sep : string) (l : list string) : string := String.concat sep l.

  (** [x in l] for a list of strings. *)
Definition mem (x : string) (l : list string) : bool := existsb (String.eqb x) l.

  (** [l.remove(x)]: the first occurrence goes; the callers test [x in l]
      first, so the [ValueError] of an absent [x] is never met. *)
Fixpoint remove (x : string) (l : list string) : list string :=
    match l with
    | [] => []
    | y :: l' => if String.eqb x y then l' else y :: remove x l'
    end.

  (** [str(n)] for a non-negative integer. *)
Definition str (n : N) : string := NilZero.string_of_uint (N.to_uint n).

  (** [a < b] on tuples of integers: lexicographic, a proper prefix is smaller. *)
Fixpoint tuple_lt (a b : list N) : bool :=
    match a, b with
    | _, [] => false
    | [], _ :: _ => true
    | x :: a', y :: b' =>
        if N.eqb x y then tuple_lt a' b' else N.ltb x y
    end.

  (** [pathlib]: [a / b]. *)
Definition path_join (a b : string) : string := a ++ "/" ++ b.

End Py.

(** ** The data model *)

(** [--stage], [--lto] and [--build-type] are restricted by argparse
    [choices]; their values are the constructors below. *)
Inductive StageName :=
| stage_bootstrap | stage_instrumentation | stage_profiling
| stage_csinstrumentation | stage_csprofiling | stage_final.

Inductive LtoType := lto_thin | lto_full.

Inductive BuildType := Release | Debug | RelWithDebInfo | MinSizeRel.

Definition StageName_eqb (a b : StageName) : bool :=
  match a, b with
  | stage_bootstrap, stage_bootstrap | stage_instrumentation, stage_instrumentation
  | stage_profiling, stage_profiling | stage_csinstrumentation, stage_csinstrumentation
  | stage_csprofiling, stage_csprofiling | stage_final, stage_final => true
  | _, _ => false
  end.

(** ['thin'.capitalize()] and ['full'.capitalize()] *)
Definition lto_capitalize (l : LtoType) : string :=
  match l with lto_thin => "Thin" | lto_full => "Full" end.

Definition build_type_str (b : BuildType) : string :=
  match b with
  | Release => "Release" | Debug => "Debug"
  | RelWithDebInfo => "RelWithDebInfo" | MinSizeRel => "MinSizeRel"
  end.

(** Python truthiness of the values the orchestrator tests. *)
Definition truthy_list {A} (o : option (list A)) : bool :=
  match o with Some (_ :: _) => true | _ => false end.

Definition truthy_str (o : option string) : bool :=
  match o with Some (String _ _) => true | _ => false end.

Definition truthy_opt {A} (o : option A) : bool :=
  match o with Some _ => true | None => false end.

(** The parsed command line ([argparse.Namespace]). An option that was not
    given is [None]. *)
Module Args.
Record t := {
    assertions : bool;
    bolt : bool;
    build_folder : option string;
    build_stage1_only : bool;
    build_targets : list string;
    build_type : option BuildType;
    check_targets : option (list string);
    cspgo : bool;
    defines : option (list string);
    full_toolchain : bool;
    install_folder : option string;
    install_targets : option (list string);
    linux_folder : option string;
    llvm_folder : option string;
    lto : option LtoType;
    no_ccache : bool;
    no_update : bool;
    pgo : option (list string);
    projects : option (list string);
    quiet_cmake : bool;
    ref : string;
    shallow_clone : bool;
    show_build_commands : bool;
    stage : option StageName;
    targets : option (list string);
    vendor_string : option string
  }.
End Args.

(** The classes of [tc_build.llvm] that the orchestrator instantiates. *)
Inductive BuilderClass :=
| LLVMBootstrapBuilder
| LLVMBuilder
| LLVMSlimBuilder
| LLVMInstrumentedBuilder
| LLVMSlimInstrumentedBuilder
| LLVMCSPGOInstrumentedBuilder
| LLVMSlimCSPGOInstrumentedBuilder.

(** [HostTools] and [StageTools] objects. *)
Inductive ToolsOrigin :=
| HostTools
| StageTools (bin : string).

Module Tools.
Record t := {
    origin : ToolsOrigin;
    clang_tblgen : option string;
    llvm_tblgen : option string;
    llvm_bolt : option string;
    merge_fdata : option string;
    perf2bolt : option string
  }.

Definition new (o : ToolsOrigin) : t :=
    {| origin := o; clang_tblgen := None; llvm_tblgen := None;
       llvm_bolt := None; merge_fdata := None; perf2bolt := None |}.

Definition set_clang_tblgen v b : t :=
    {| origin := origin b; clang_tblgen := v; llvm_tblgen := llvm_tblgen b; llvm_bolt :=
    llvm_bolt b; merge_fdata := merge_fdata b; perf2bolt := perf2bolt b |}.
Definition set_llvm_tblgen v b : t :=
    {| origin := origin b; clang_tblgen := clang_tblgen b; llvm_tblgen := v; llvm_bolt :=
    llvm_bolt b; merge_fdata := merge_fdata b; perf2bolt := perf2bolt b |}.
Definition set_llvm_bolt v b : t :=
    {| origin := origin b; clang_tblgen := clang_tblgen b; llvm_tblgen := llvm_tblgen b;
    llvm_bolt := v; merge_fdata := merge_fdata b; perf2bolt := perf2bolt b |}.
Definition set_merge_fdata v b : t :=
    {| origin := origin b; clang_tblgen := clang_tblgen b; llvm_tblgen := llvm_tblgen b;
    llvm_bolt := llvm_bolt b; merge_fdata := v; perf2bolt := perf2bolt b |}.
Definition set_perf2bolt v b : t :=
    {| origin := origin b; clang_tblgen := clang_tblgen b; llvm_tblgen := llvm_tblgen b;
    llvm_bolt := llvm_bolt b; merge_fdata := merge_fdata b; perf2bolt := v |}.
End Tools.

(** What a builder's [tools] attribute refers to: nothing yet, the one
    [HostTools] object of the orchestrator, or a [StageTools] object of the
    builder's own. *)
Inductive ToolsRef :=
| tools_none
| tools_host
| tools_own (t : Tools.t).

(** What a builder's [targets] or [projects] attribute refers to: a list of
    its own, or the list object of the default final builder. *)
Inductive ListRef :=
| list_own (l : list string)
| list_of_final.

Module LinuxSourceManager.
Record t := {
    location : string;
    patches : list string;
    tarball : option (string * string * string)
  }.
End LinuxSourceManager.

Module KernelBuilder.
Record t := {
    build : option string;
    source : option string;
    toolchain_prefix : option string;
    matrix : gmap string (list string)
  }.

Definition new : t :=
    {| build := None; source := None; toolchain_prefix := None; matrix := ∅ |}.
End KernelBuilder.

Module Builder.
Record t := {
    oid : nat;
    cls : BuilderClass;
    show_commands : bool;
    quiet_cmake : bool;
    source : option string;
    build : option string;
    install : option string;
    cmake_defines : gmap string string;
    tools : ToolsRef;
    targets : ListRef;
    projects : ListRef;
    build_targets : list string;
    check_targets : option (list string);
    install_targets : option (list string);
    ccache : bool;
    bolt : bool;
    bolt_builder : option KernelBuilder.t
  }.

Definition set_show_commands v b : t :=
    {| oid := oid b; cls := cls b; show_commands := v; quiet_cmake := quiet_cmake b; source :=
    source b; build := build b; install := install b; cmake_defines := cmake_defines b; tools :=
    tools b; targets := targets b; projects := projects b; build_targets := build_targets b;
    check_targets := check_targets b; install_targets := install_targets b; ccache := ccache b;
    bolt := bolt b; bolt_builder := bolt_builder b |}.
Definition set_quiet_cmake v b : t :=
    {| oid := oid b; cls := cls b; show_commands := show_commands b; quiet_cmake := v; source :=
    source b; build := build b; install := install b; cmake_defines := cmake_defines b; tools :=
    tools b; targets := targets b; projects := projects b; build_targets := build_targets b;
    check_targets := check_targets b; install_targets := install_targets b; ccache := ccache b;
    bolt := bolt b; bolt_builder := bolt_builder b |}.
Definition set_source v b : t :=
    {| oid := oid b; cls := cls b; show_commands := show_commands b; quiet_cmake := quiet_cmake
    b; source := v; build := build b; install := install b; cmake_defines := cmake_defines b;
    tools := tools b; targets := targets b; projects := projects b; build_targets :=
    build_targets b; check_targets := check_targets b; install_targets := install_targets b;
    ccache := ccache b; bolt := bolt b; bolt_builder := bolt_builder b |}.
Definition set_build v b : t :=
    {| oid := oid b; cls := cls b; show_commands := show_commands b; quiet_cmake := quiet_cmake
    b; source := source b; build := v; install := install b; cmake_defines := cmake_defines b;
    tools := tools b; targets := targets b; projects := projects b; build_targets :=
    build_targets b; check_targets := check_targets b; install_targets := install_targets b;
    ccache := ccache b; bolt := bolt b; bolt_builder := bolt_builder b |}.
Definition set_install v b : t :=
    {| oid := oid b; cls := cls b; show_commands := show_commands b; quiet_cmake := quiet_cmake
    b; source := source b; build := build b; install := v; cmake_defines := cmake_defines b;
    tools := tools b; targets := targets b; projects := projects b; build_targets :=
    build_targets b; check_targets := check_targets b; install_targets := install_targets b;
    ccache := ccache b; bolt := bolt b; bolt_builder := bolt_builder b |}.
Definition set_cmake_defines v b : t :=
    {| oid := oid b; cls := cls b; show_commands := show_commands b; quiet_cmake := quiet_cmake
    b; source := source b; build := build b; install := install b; cmake_defines := v; tools :=
    tools b; targets := targets b; projects := projects b; build_targets := build_targets b;
    check_targets := check_targets b; install_targets := install_targets b; ccache := ccache b;
    bolt := bolt b; bolt_builder := bolt_builder b |}.
Definition set_tools v b : t :=
    {| oid := oid b; cls := cls b; show_commands := show_commands b; quiet_cmake := quiet_cmake
    b; source := source b; build := build b; install := install b; cmake_defines :=
    cmake_defines b; tools := v; targets := targets b; projects := projects b; build_targets :=
    build_targets b; check_targets := check_targets b; install_targets := install_targets b;
    ccache := ccache b; bolt := bolt b; bolt_builder := bolt_builder b |}.
Definition set_targets v b : t :=
    {| oid := oid b; cls := cls b; show_commands := show_commands b; quiet_cmake := quiet_cmake
    b; source := source b; build := build b; install := install b; cmake_defines :=
    cmake_defines b; tools := tools b; targets := v; projects := projects b; build_targets :=
    build_targets b; check_targets := check_targets b; install_targets := install_targets b;
    ccache := ccache b; bolt := bolt b; bolt_builder := bolt_builder b |}.
Definition set_projects v b : t :=
    {| oid := oid b; cls := cls b; show_commands := show_commands b; quiet_cmake := quiet_cmake
    b; source := source b; build := build b; install := install b; cmake_defines :=
    cmake_defines b; tools := tools b; targets := targets b; projects := v; build_targets :=
    build_targets b; check_targets := check_targets b; install_targets := install_targets b;
    ccache := ccache b; bolt := bolt b; bolt_builder := bolt_builder b |}.
Definition set_build_targets v b : t :=
    {| oid := oid b; cls := cls b; show_commands := show_commands b; quiet_cmake := quiet_cmake
    b; source := source b; build := build b; install := install b; cmake_defines :=
    cmake_defines b; tools := tools b; targets := targets b; projects := projects b;
    build_targets := v; check_targets := check_targets b; install_targets := install_targets b;
    ccache := ccache b; bolt := bolt b; bolt_builder := bolt_builder b |}.
Definition set_check_targets v b : t :=
    {| oid := oid b; cls := cls b; show_commands := show_commands b; quiet_cmake := quiet_cmake
    b; source := source b; build := build b; install := install b; cmake_defines :=
    cmake_defines b; tools := tools b; targets := targets b; projects := projects b;
    build_targets := build_targets b; check_targets := v; install_targets := install_targets b;
    ccache := ccache b; bolt := bolt b; bolt_builder := bolt_builder b |}.
Definition set_install_targets v b : t :=
    {| oid := oid b; cls := cls b; show_commands := show_commands b; quiet_cmake := quiet_cmake
    b; source := source b; build := build b; install := install b; cmake_defines :=
    cmake_defines b; tools := tools b; targets := targets b; projects := projects b;
    build_targets := build_targets b; check_targets := check_targets b; install_targets := v;
    ccache := ccache b; bolt := bolt b; bolt_builder := bolt_builder b |}.
Definition set_ccache v b : t :=
    {| oid := oid b; cls := cls b; show_commands := show_commands b; quiet_cmake := quiet_cmake
    b; source := source b; build := build b; install := install b; cmake_defines :=
    cmake_defines b; tools := tools b; targets := targets b; projects := projects b;
    build_targets := build_targets b; check_targets := check_targets b; install_targets :=
    install_targets b; ccache := v; bolt := bolt b; bolt_builder := bolt_builder b |}.
Definition set_bolt v b : t :=
    {| oid := oid b; cls := cls b; show_commands := show_commands b; quiet_cmake := quiet_cmake
    b; source := source b; build := build b; install := install b; cmake_defines :=
    cmake_defines b; tools := tools b; targets := targets b; projects := projects b;
    build_targets := build_targets b; check_targets := check_targets b; install_targets :=
    install_targets b; ccache := ccache b; bolt := v; bolt_builder := bolt_builder b |}.
Definition set_bolt_builder v b : t :=
    {| oid := oid b; cls := cls b; show_commands := show_commands b; quiet_cmake := quiet_cmake
    b; source := source b; build := build b; install := install b; cmake_defines :=
    cmake_defines b; tools := tools b; targets := targets b; projects := projects b;
    build_targets := build_targets b; check_targets := check_targets b; install_targets :=
    install_targets b; ccache := ccache b; bolt := bolt b; bolt_builder := v |}.
End Builder.

(** ** The external collaborators

    The classes of [tc_build.llvm], [tc_build.kernel] and [tc_build.tools],
    the file system and the host are not part of the orchestrator. What it
    asks of them is a parameter of the model. *)
Record Environment := {
  (** [Path.exists()] and [Path.resolve()] *)
  path_exists : string -> bool;
  path_resolve : string -> string;
  (** [src_folder.glob('*.patch')] *)
  glob_patches : string -> list string;
  (** [LinuxSourceManager.get_version()] of the tree at a location *)
  lsm_get_version : string -> list N;
  (** [KernelBuilder.MINIMUM_SUPPORTED_VERSION] *)
  MINIMUM_SUPPORTED_VERSION : list N;
  (** [LLVMSourceManager(llvm_folder).default_targets()] and [default_projects()] *)
  default_targets : string -> list string;
  default_projects : string -> list string;
  (** whether [validate_targets()] accepts the targets; it raises otherwise *)
  targets_are_valid : list string -> bool;
  (** [LLVMBuilder.can_use_perf()] and [platform.machine()] *)
  can_use_perf : bool;
  platform_machine : string;
  (** [LLVMBuilder.host_target()] and [host_target_is_enabled()], the latter
      a function of the builder's target list *)
  host_target : string;
  host_target_is_enabled : list string -> bool;
  (** the attributes of a fresh builder that the orchestrator does not set *)
  new_cmake_defines : BuilderClass -> gmap string string;
  new_targets : BuilderClass -> list string;
  new_projects : BuilderClass -> list string;
  (** [profiles_output_path] (by build folder) and [final_name] of an
      instrumented builder *)
  profiles_output_path : string -> string;
  final_name : BuilderClass -> string;
  (** [hasattr(LLVMKernelBuilder(), 'configure')] *)
  kernel_builder_has_configure : bool
}.

(** ** Calls to the collaborators

    A run is observed through the calls it makes, in order. *)

(** The six stage operations. *)
Inductive StageOp :=
| op_bootstrap
| op_instrumentation (cspgo : bool)
| op_profiling (cspgo : bool)
| op_final_step.

(** A builder as a collaborator sees it when one of its methods is called:
    the object with what its references point to at that moment. *)
Record BuilderView := {
  view_builder : Builder.t;
  view_tools : option Tools.t;
  view_targets : list string;
  view_projects : list string
}.

Inductive Event :=
| print_header (s : string)
| print_info (s : string)
| print_warning (s : string)
| print_duration
| sleep (seconds : nat)
| lsm_prepare (l : LinuxSourceManager.t)
| llvm_download (folder ref : string) (shallow : bool)
| llvm_update (folder ref : string)
| show_compiler_linker
| enter (op : StageOp)
| check_dependencies (b : BuilderView)
| configure (b : BuilderView)
| build (b : BuilderView)
| show_install_info (b : BuilderView)
| kernel_configure (k : KernelBuilder.t)
| kernel_build (k : KernelBuilder.t)
| generate_profdata (b : BuilderView).

(** ** Programs: state, calls made, and how control leaves *)

Inductive Exn :=
| RuntimeError (msg : string)
| ValueError (msg : string)
| TypeError (msg : string).

Inductive Outcome (A : Type) :=
| Normal (a : A)
| SystemExit (code : Z)
| Raise (e : Exn).
Arguments Normal {A} a.
Arguments SystemExit {A} code.
Arguments Raise {A} e.

Definition Prog (S A : Type) : Type := S -> S * list Event * Outcome A.

Definition ret {S A} (a : A) : Prog S A := fun s => (s, [], Normal a).

Definition bind {S A B} (m : Prog S A) (k : A -> Prog S B) : Prog S B :=
  fun s =>
    match m s with
    | (s1, e1, Normal a) =>
        match k a s1 with
        | (s2, e2, o) => (s2, e1 ++ e2, o)
        end
    | (s1, e1, SystemExit c) => (s1, e1, SystemExit c)
    | (s1, e1, Raise x) => (s1, e1, Raise x)
    end.

Definition get {S} : Prog S S := fun s => (s, [], Normal s).
Definition modify {S} (f : S -> S) : Prog S unit := fun s => (f s, [], Normal tt).
Definition emit {S} (e : Event) : Prog S unit := fun s => (s, [e], Normal tt).
Definition raise {S A} (x : Exn) : Prog S A := fun s => (s, [], Raise x).
Definition sys_exit {S A} (c : Z) : Prog S A := fun s => (s, [], SystemExit c).
Definition when {S} (b : bool) (m : Prog S unit) : Prog S unit :=
  if b then m else ret tt.

Declare Scope prog_scope.
Delimit Scope prog_scope with prog.
Notation "x <- m ;; k" := (bind m (fun x => k))
  (at level 100, m at next level, right associativity) : prog_scope.
Notation "m ;; k" := (bind m (fun _ => k))
  (at level 100, right associativity) : prog_scope.
Local Open Scope prog_scope.

Definition state_of {S A} (r : S * list Event * Outcome A) : S := fst (fst r).
Definition events_of {S A} (r : S * list Event * Outcome A) : list Event := snd (fst r).
Definition outcome_of {S A} (r : S * list Event * Outcome A) : Outcome A := snd r.

(** ** The orchestrator object *)

Module Stages.
Record t := {
  args : Args.t;
  lsm : option LinuxSourceManager.t;
  instrumented : option Builder.t;
  build_folder : string;
  bootstrap_dir : string;
  instrumentation_dir : string;
  cspgo_instrumentation_dir : string;
  profiling_dir : string;
  cspgo_profiling_dir : string;
  final_dir : string;
  llvm_folder : string;
  (** the one [HostTools] object *)
  host_tools : Tools.t;
  def_llvm_builder_cls : BuilderClass;
  (** the default final builder, and the list objects its [targets] and
      [projects] attributes refer to *)
  final : Builder.t;
  final_targets : list string;
  final_projects : list string;
  common_cmake_defines : gmap string string;
  (** the identity the next object gets *)
  fresh : nat
}.

Definition set_instrumented v b : t :=
    {| args := args b; lsm := lsm b; instrumented := v; build_folder := build_folder b;
    bootstrap_dir := bootstrap_dir b; instrumentation_dir := instrumentation_dir b;
    cspgo_instrumentation_dir := cspgo_instrumentation_dir b; profiling_dir := profiling_dir b;
    cspgo_profiling_dir := cspgo_profiling_dir b; final_dir := final_dir b; llvm_folder :=
    llvm_folder b; host_tools := host_tools b; def_llvm_builder_cls := def_llvm_builder_cls b;
    final := final b; final_targets := final_targets b; final_projects := final_projects b;
    common_cmake_defines := common_cmake_defines b; fresh := fresh b |}.
Definition set_host_tools v b : t :=
    {| args := args b; lsm := lsm b; instrumented := instrumented b; build_folder :=
    build_folder b; bootstrap_dir := bootstrap_dir b; instrumentation_dir := instrumentation_dir
    b; cspgo_instrumentation_dir := cspgo_instrumentation_dir b; profiling_dir := profiling_dir
    b; cspgo_profiling_dir := cspgo_profiling_dir b; final_dir := final_dir b; llvm_folder :=
    llvm_folder b; host_tools := v; def_llvm_builder_cls := def_llvm_builder_cls b; final :=
    final b; final_targets := final_targets b; final_projects := final_projects b;
    common_cmake_defines := common_cmake_defines b; fresh := fresh b |}.
Definition set_final v b : t :=
    {| args := args b; lsm := lsm b; instrumented := instrumented b; build_folder :=
    build_folder b; bootstrap_dir := bootstrap_dir b; instrumentation_dir := instrumentation_dir
    b; cspgo_instrumentation_dir := cspgo_instrumentation_dir b; profiling_dir := profiling_dir
    b; cspgo_profiling_dir := cspgo_profiling_dir b; final_dir := final_dir b; llvm_folder :=
    llvm_folder b; host_tools := host_tools b; def_llvm_builder_cls := def_llvm_builder_cls b;
    final := v; final_targets := final_targets b; final_projects := final_projects b;
    common_cmake_defines := common_cmake_defines b; fresh := fresh b |}.
Definition set_final_projects v b : t :=
    {| args := args b; lsm := lsm b; instrumented := instrumented b; build_folder :=
    build_folder b; bootstrap_dir := bootstrap_dir b; instrumentation_dir := instrumentation_dir
    b; cspgo_instrumentation_dir := cspgo_instrumentation_dir b; profiling_dir := profiling_dir
    b; cspgo_profiling_dir := cspgo_profiling_dir b; final_dir := final_dir b; llvm_folder :=
    llvm_folder b; host_tools := host_tools b; def_llvm_builder_cls := def_llvm_builder_cls b;
    final := final b; final_targets := final_targets b; final_projects := v;
    common_cmake_defines := common_cmake_defines b; fresh := fresh b |}.
Definition set_common_cmake_defines v b : t :=
    {| args := args b; lsm := lsm b; instrumented := instrumented b; build_folder :=
    build_folder b; bootstrap_dir := bootstrap_dir b; instrumentation_dir := instrumentation_dir
    b; cspgo_instrumentation_dir := cspgo_instrumentation_dir b; profiling_dir := profiling_dir
    b; cspgo_profiling_dir := cspgo_profiling_dir b; final_dir := final_dir b; llvm_folder :=
    llvm_folder b; host_tools := host_tools b; def_llvm_builder_cls := def_llvm_builder_cls b;
    final := final b; final_targets := final_targets b; final_projects := final_projects b;
    common_cmake_defines := v; fresh := fresh b |}.
Definition set_fresh v b : t :=
    {| args := args b; lsm := lsm b; instrumented := instrumented b; build_folder :=
    build_folder b; bootstrap_dir := bootstrap_dir b; instrumentation_dir := instrumentation_dir
    b; cspgo_instrumentation_dir := cspgo_instrumentation_dir b; profiling_dir := profiling_dir
    b; cspgo_profiling_dir := cspgo_profiling_dir b; final_dir := final_dir b; llvm_folder :=
    llvm_folder b; host_tools := host_tools b; def_llvm_builder_cls := def_llvm_builder_cls b;
    final := final b; final_targets := final_targets b; final_projects := final_projects b;
    common_cmake_defines := common_cmake_defines b; fresh := v |}.
End Stages.

Definition deref_targets (self : Stages.t) (r : ListRef) : list string :=
  match r with list_own l => l | list_of_final => Stages.final_targets self end.

Definition deref_projects (self : Stages.t) (r : ListRef) : list string :=
  match r with list_own l => l | list_of_final => Stages.final_projects self end.

Definition deref_tools (self : Stages.t) (r : ToolsRef) : option Tools.t :=
  match r with
  | tools_none => None
  | tools_host => Some (Stages.host_tools self)
  | tools_own t => Some t
  end.

Definition view (self : Stages.t) (b : Builder.t) : BuilderView :=
  {| view_builder := b;
     view_tools := deref_tools self (Builder.tools b);
     view_targets := deref_targets self (Builder.targets b);
     view_projects := deref_projects self (Builder.projects b) |}.

Section Orchestrator.

Variable env : Environment.

(** A fresh instance of a builder class. *)
Definition new_builder (c : BuilderClass) (i : nat) : Builder.t :=
  {| Builder.oid := i;
     Builder.cls := c;
     Builder.show_commands := false;
     Builder.quiet_cmake := false;
     Builder.source := None;
     Builder.build := None;
     Builder.install := None;
     Builder.cmake_defines := new_cmake_defines env c;
     Builder.tools := tools_none;
     Builder.targets := list_own (new_targets env c);
     Builder.projects := list_own (new_projects env c);
     Builder.build_targets := ["all"];
     Builder.check_targets := None;
     Builder.install_targets := None;
     Builder.ccache := false;
     Builder.bolt := false;
     Builder.bolt_builder := None |}.

(** [dict.update]: the entries of [d] win. *)
Definition dict_update (m d : gmap string string) : gmap string string := d ∪ m.

(** [define.split('=', 1)]: [None] when there is no ['='], the case in which
    [dict(...)] raises. *)
Fixpoint split_define_from (s key : string) : option (string * string) :=
  match s with
  | EmptyString => None
  | String c s' =>
      if Ascii.eqb c "="%char then Some (key, s')
      else split_define_from s' (key ++ String c EmptyString)
  end.

Definition split_define (s : string) : option (string * string) :=
  split_define_from s EmptyString.

(** [dict(define.split('=', 1) for define in defines)] *)
Fixpoint dict_of_defines (l : list string) (d : gmap string string)
  : option (gmap string string) :=
  match l with
  | [] => Some d
  | x :: l' =>
      match split_define x with
      | Some (k, v) => dict_of_defines l' (<[k := v]> d)
      | None => None
      end
  end.

(** The unconditional cmake defines of [__init__]. *)
Definition initial_common_defines (a : Args.t) : option (gmap string string) :=
  let c : gmap string string := ∅ in
  let c := if Args.assertions a then <["LLVM_ENABLE_ASSERTIONS" := "ON"]> c else c in
  let c :=
    match Args.vendor_string a with
    | Some (String _ _ as v) => <["LLD_VENDOR" := v]> (<["CLANG_VENDOR" := v]> c)
    | _ => c
    end in
  match Args.defines a with
  | Some ((_ :: _) as l) =>
      match dict_of_defines l ∅ with
      | Some d => Some (dict_update c d)
      | None => None
      end
  | _ => Some c
  end.

Definition linux_missing (folder : string) : Exn :=
  RuntimeError ("Provided Linux folder ('" ++ folder ++ "') does not exist?").

Definition linux_no_makefile (folder : string) : Exn :=
  RuntimeError ("Provided Linux folder ('" ++ folder
                ++ "') does not appear to be a Linux kernel tree?").

Definition version_str (v : list N) : string := Py.join "." (map Py.str v).

Definition linux_too_old (found : list N) : Exn :=
  RuntimeError ("Supplied kernel source version ('" ++ version_str found
                ++ "') is older than the minimum required version ('"
                ++ version_str (MINIMUM_SUPPORTED_VERSION env)
                ++ "'), provide a newer version!").

Definition llvm_missing (folder : string) : Exn :=
  RuntimeError ("Provided LLVM folder ('" ++ folder ++ "') does not exist?").

(** [args.bolt or (args.pgo and [x for x in args.pgo if 'kernel' in x])] *)
Definition needs_linux_source (a : Args.t) : bool :=
  Args.bolt a ||
  match Args.pgo a with
  | Some ((_ :: _) as l) =>
      match List.filter (Py.contains "kernel") l with [] => false | _ :: _ => true end
  | _ => false
  end.

(** The first part of [__init__]: validate and prepare the Linux source. *)
Definition prepare_linux_source (a : Args.t) (src_folder : string) (kernel_version : list N)
  : Prog unit (option LinuxSourceManager.t) :=
  if needs_linux_source a then
    match Args.linux_folder a with
    | Some (String _ _ as given) =>
        let linux_folder := path_resolve env given in
        if negb (path_exists env linux_folder) then raise (linux_missing given)
        else if negb (path_exists env (Py.path_join linux_folder "Makefile"))
        then raise (linux_no_makefile given)
        else
          let linux_version := lsm_get_version env linux_folder in
          if Py.tuple_lt linux_version (MINIMUM_SUPPORTED_VERSION env)
          then raise (linux_too_old linux_version)
          else ret (Some {| LinuxSourceManager.location := linux_folder;
                            LinuxSourceManager.patches := [];
                            LinuxSourceManager.tarball := None |})
    | _ =>
        let ver_str :=
          Py.join "." (map Py.str (List.filter (fun x => negb (N.eqb x 0)) kernel_version)) in
        let location := Py.path_join src_folder ("linux-" ++ ver_str) in
        let l := {| LinuxSourceManager.location := location;
                    LinuxSourceManager.patches := glob_patches env src_folder;
                    LinuxSourceManager.tarball :=
                      Some ("https://cdn.kernel.org/pub/linux/kernel/v6.x",
                            (location ++ ".tar.xz")%string, "sha256sums.asc") |} in
        emit (print_header "Preparing Linux source for profiling runs") ;;
        emit (lsm_prepare l) ;;
        ret (Some l)
    end
  else ret None.

(** The warnings of [__init__] about BOLT in instrumentation mode. *)
Definition bolt_warnings (a : Args.t) (llvm_folder : string) : Prog unit unit :=
  if Args.bolt a && negb (can_use_perf env) then
    let has_4f158995b9cddae :=
      path_exists env (Py.path_join llvm_folder "bolt/lib/Passes/ValidateMemRefs.cpp") in
    let w1 := truthy_list (Args.pgo a) && negb (Args.assertions a)
              && negb has_4f158995b9cddae in
    let w2 := negb (String.eqb (platform_machine env) "x86_64") in
    when w1 (
      emit (print_warning "Using BOLT in instrumentation mode with PGO and no assertions might result in a binary that crashes:") ;;
      emit (print_warning "https://github.com/llvm/llvm-project/issues/55004") ;;
      emit (print_warning "Consider adding '--assertions' if there are any failures during the BOLT stage.")) ;;
    when w2 (
      emit (print_warning "Using BOLT in instrumentation mode may not work on non-x86_64 machines:") ;;
      emit (print_warning "https://github.com/llvm/llvm-project/issues/55005") ;;
      emit (print_warning "Consider dropping '--bolt' if there are any failures during the BOLT stage.")) ;;
    when (w1 || w2) (
      emit (print_warning "Continuing in 5 seconds, hit Ctrl-C to cancel...") ;;
      emit (sleep 5))
  else ret tt.

(** [LLVMStages.__init__] *)
Definition init (a : Args.t) (src_folder build_folder : string) (kernel_version : list N)
  : Prog unit Stages.t :=
  lsm <- prepare_linux_source a src_folder kernel_version ;;
  llvm_folder <-
    match Args.llvm_folder a with
    | Some (String _ _ as given) =>
        let f := path_resolve env given in
        if negb (path_exists env f) then raise (llvm_missing given) else ret f
    | _ => ret (Py.path_join src_folder "llvm-project")
    end ;;
  emit (llvm_download llvm_folder (Args.ref a) (Args.shallow_clone a)) ;;
  when (negb (truthy_str (Args.llvm_folder a) || Args.no_update a))
       (emit (llvm_update llvm_folder (Args.ref a))) ;;
  emit (print_header "Checking CC and LD") ;;
  emit show_compiler_linker ;;
  let def_llvm_builder_cls :=
    if Args.full_toolchain a then LLVMBuilder else LLVMSlimBuilder in
  let final := Builder.set_source (Some llvm_folder) (new_builder def_llvm_builder_cls 0) in
  final_targets <-
    match Args.targets a with
    | Some ((_ :: _) as l) =>
        if targets_are_valid env l then ret l
        else raise (RuntimeError "invalid targets")
    | _ => ret (if Args.full_toolchain a then ["all"] else default_targets env llvm_folder)
    end ;;
  let final_projects :=
    match Args.projects a with
    | Some ((_ :: _) as l) => l
    | _ => if Args.full_toolchain a then ["all"] else default_projects env llvm_folder
    end in
  let final :=
    Builder.set_projects list_of_final (Builder.set_targets list_of_final final) in
  bolt_warnings a llvm_folder ;;
  match initial_common_defines a with
  | None => raise (ValueError "dictionary update sequence element has length 1; 2 is required")
  | Some common =>
      ret {| Stages.args := a;
             Stages.lsm := lsm;
             Stages.instrumented := None;
             Stages.build_folder := build_folder;
             Stages.bootstrap_dir := Py.path_join build_folder "bootstrap";
             Stages.instrumentation_dir := Py.path_join build_folder "instrumentation";
             Stages.cspgo_instrumentation_dir :=
               Py.path_join build_folder "cspgo_instrumentation";
             Stages.profiling_dir := Py.path_join build_folder "profiling";
             Stages.cspgo_profiling_dir := Py.path_join build_folder "cspgo_profiling";
             Stages.final_dir := Py.path_join build_folder "final";
             Stages.llvm_folder := llvm_folder;
             Stages.host_tools := Tools.new HostTools;
             Stages.def_llvm_builder_cls := def_llvm_builder_cls;
             Stages.final := final;
             Stages.final_targets := final_targets;
             Stages.final_projects := final_projects;
             Stages.common_cmake_defines := common;
             Stages.fresh := 1 |}
  end.

(** *** Builders and what they refer to *)

(** [LLVMStages.configure_llvm_builder] *)
Definition configure_llvm_builder (self : Stages.t) (instance : Builder.t)
    (builddir : string) (tools : option string) : Builder.t :=
  let a := Stages.args self in
  let instance := Builder.set_show_commands (Args.show_build_commands a) instance in
  let instance := Builder.set_quiet_cmake (Args.quiet_cmake a) instance in
  let instance := Builder.set_source (Some (Stages.llvm_folder self)) instance in
  let instance := Builder.set_build (Some builddir) instance in
  let instance :=
    Builder.set_cmake_defines
      (dict_update (Builder.cmake_defines instance) (Stages.common_cmake_defines self))
      instance in
  match tools with
  | Some t =>
      let instance :=
        Builder.set_tools (tools_own (Tools.new (StageTools (Py.path_join t "bin"))))
                          instance in
      let instance := Builder.set_targets list_of_final instance in
      Builder.set_projects list_of_final instance
  | None => Builder.set_tools tools_host instance
  end.

(** [cls()]: a fresh object with the next identity. *)
Definition construct (c : BuilderClass) : Prog Stages.t Builder.t :=
  self <- get ;;
  modify (Stages.set_fresh (S (Stages.fresh self))) ;;
  ret (new_builder c (Stages.fresh self)).

(** A method call on a builder, as the collaborator sees it. *)
Definition call (method : BuilderView -> Event) (b : Builder.t) : Prog Stages.t unit :=
  self <- get ;;
  emit (method (view self b)).

(** [b.projects.append(x)]: the list object the attribute refers to grows. *)
Definition projects_append (x : string) (b : Builder.t) : Prog Stages.t Builder.t :=
  match Builder.projects b with
  | list_own l => ret (Builder.set_projects (list_own (l ++ [x])) b)
  | list_of_final =>
      modify (fun s => Stages.set_final_projects (Stages.final_projects s ++ [x]) s) ;;
      ret b
  end.

(** [b.tools.attr = v]: the tools object the attribute refers to changes. *)
Definition tools_assign (f : Tools.t -> Tools.t) (b : Builder.t) : Prog Stages.t Builder.t :=
  match Builder.tools b with
  | tools_own t => ret (Builder.set_tools (tools_own (f t)) b)
  | tools_host =>
      modify (fun s => Stages.set_host_tools (f (Stages.host_tools s)) s) ;;
      ret b
  | tools_none => raise (TypeError "'NoneType' object has no such attribute")
  end.

(** *** The decorator *)

(** [build_stage(title)(func)] *)
Definition build_stage (title : string) (func : Prog Stages.t unit) : Prog Stages.t unit :=
  emit (print_header title) ;;
  func ;;
  self <- get ;;
  if truthy_opt (Args.stage (Stages.args self)) then
    emit (print_info (title ++ " done.")) ;;
    sys_exit 0
  else ret tt.

(** The call of a stage operation, recorded before its decorated body runs. *)
Definition stage_call (op : StageOp) (m : Prog Stages.t unit) : Prog Stages.t unit :=
  emit (enter op) ;; m.

(** *** bootstrap *)

Definition bootstrap_body : Prog Stages.t unit :=
  self <- get ;;
  let a := Stages.args self in
  bootstrap <- construct LLVMBootstrapBuilder ;;
  let bootstrap := Builder.set_build_targets ["distribution"] bootstrap in
  let bootstrap := Builder.set_ccache (negb (Args.no_ccache a)) bootstrap in
  let bootstrap :=
    configure_llvm_builder self bootstrap (Stages.bootstrap_dir self) None in
  bootstrap <- (if Args.bolt a then projects_append "bolt" bootstrap else ret bootstrap) ;;
  bootstrap <- (if truthy_list (Args.pgo a) then projects_append "compiler-rt" bootstrap
                else ret bootstrap) ;;
  call check_dependencies bootstrap ;;
  call configure bootstrap ;;
  call build bootstrap.

Definition bootstrap : Prog Stages.t unit :=
  stage_call op_bootstrap (build_stage "Building LLVM (bootstrap)" bootstrap_body).

(** *** update_defines *)

Definition default_empty (define : string) (c : gmap string string) : gmap string string :=
  match c !! define with
  | None => <[define := ""]> c
  | Some _ => c
  end.

Definition update_defines_map (a : Args.t) (c : gmap string string) : gmap string string :=
  let c_flag_defines := ["CMAKE_C_FLAGS"; "CMAKE_CXX_FLAGS"] in
  let c := fold_left (fun c define => default_empty define c) c_flag_defines c in
  match Args.build_type a with
  | Some t => <["CMAKE_BUILD_TYPE" := build_type_str t]> c
  | None => c
  end.

Definition update_defines : Prog Stages.t unit :=
  modify (fun self =>
    Stages.set_common_cmake_defines
      (update_defines_map (Stages.args self) (Stages.common_cmake_defines self)) self).

(** *** instrumentation *)

(** [x in args.pgo]; a [TypeError] when [args.pgo] is [None]. *)
Definition in_pgo (x : string) (a : Args.t) : Prog Stages.t bool :=
  match Args.pgo a with
  | Some l => ret (Py.mem x l)
  | None => raise (TypeError "argument of type 'NoneType' is not iterable")
  end.

(** [choices[cspgo][self.args.full_toolchain]] *)
Definition instrumented_cls (cspgo full_toolchain : bool) : BuilderClass :=
  match cspgo, full_toolchain with
  | false, false => LLVMSlimInstrumentedBuilder
  | false, true => LLVMInstrumentedBuilder
  | true, false => LLVMSlimCSPGOInstrumentedBuilder
  | true, true => LLVMCSPGOInstrumentedBuilder
  end.

Definition setup_instrumentation (cspgo : bool) : Prog Stages.t Builder.t :=
  self <- get ;;
  let a := Stages.args self in
  instrumented <- construct (instrumented_cls cspgo (Args.full_toolchain a)) ;;
  let instrumented :=
    Builder.set_build_targets [if Args.full_toolchain a then "all" else "distribution"]
                              instrumented in
  llvm <- in_pgo "llvm" a ;;
  let instrumented :=
    Builder.set_check_targets (if llvm then Args.check_targets a else Some []) instrumented in
  let instrumentation_dir :=
    if cspgo then Stages.cspgo_instrumentation_dir self
    else Stages.instrumentation_dir self in
  ret (configure_llvm_builder self instrumented instrumentation_dir
                              (Some (Stages.bootstrap_dir self))).

Definition instrumentation_body (cspgo : bool) : Prog Stages.t unit :=
  instrumented <- setup_instrumentation cspgo ;;
  modify (Stages.set_instrumented (Some instrumented)) ;;
  call configure instrumented ;;
  call build instrumented.

Definition instrumentation (cspgo : bool) : Prog Stages.t unit :=
  stage_call (op_instrumentation cspgo)
    (build_stage "Building LLVM (instrumented)" (instrumentation_body cspgo)).

(** *** profiling *)

(** [[s.replace('kernel-', '') for s in self.args.pgo if 'kernel-' in s]] *)
Definition kernel_pgo_targets (pgo : list string) : list string :=
  map (Py.replace "kernel-" "") (List.filter (Py.contains "kernel-") pgo).

(** The loop that reconciles full and slim requests:

    [for pgo_target in pgo_targets: ... pgo_targets.remove(config_target)]

    The list is changed while it is iterated: the iterator holds an index
    [i], reads [pgo_targets[i]] from the list as it is now, and stops when
    [i] is past its end. Each turn consumes one unit of [fuel]. The result
    is the list left and the configuration targets warned about. *)
Fixpoint reconcile_loop (fuel i : nat) (pgo_targets : list string)
  : list string * list string :=
  match fuel with
  | O => (pgo_targets, [])
  | S fuel' =>
      match nth_error pgo_targets i with
      | None => (pgo_targets, [])
      | Some pgo_target =>
          if negb (Py.contains "slim" pgo_target)
          then reconcile_loop fuel' (S i) pgo_targets
          else
            let config_target := hd EmptyString (Py.split "-" pgo_target) in
            if Py.mem config_target pgo_targets then
              let r := reconcile_loop fuel' (S i) (Py.remove config_target pgo_targets) in
              (fst r, config_target :: snd r)
            else reconcile_loop fuel' (S i) pgo_targets
      end
  end.

(** The index grows by one each turn and the list never grows, so its
    length is fuel enough. *)
Definition reconcile (pgo_targets : list string) : list string * list string :=
  reconcile_loop (length pgo_targets) 0 pgo_targets.

Definition full_slim_warning (config_target : string) : Event :=
  print_warning ("Both full and slim were specified for " ++ config_target
                 ++ ", ignoring full...").

(** The body of [for item in pgo_targets], up to the assignment to the
    matrix: the key and the value assigned. *)
Definition matrix_entry (self : Stages.t) (instrumented : Builder.t) (item : string)
  : string * list string :=
  let pgo_target := Py.split "-" item in
  let config_target := hd EmptyString pgo_target in
  let llvm_targets :=
    if Nat.eqb (length pgo_target) 2 then
      if host_target_is_enabled env (deref_targets self (Builder.targets instrumented))
      then [host_target env]
      else firstn 1 (Stages.final_targets self)
    else if Py.mem "all" (Stages.final_targets self)
    then default_targets env (Stages.llvm_folder self)
    else Stages.final_targets self in
  (config_target, llvm_targets).

Definition kernel_matrix (self : Stages.t) (instrumented : Builder.t)
    (pgo_targets : list string) : gmap string (list string) :=
  fold_left (fun m item =>
               let e := matrix_entry self instrumented item in
               <[fst e := snd e]> m)
            pgo_targets ∅.

(** The builders of the profiling workloads. *)
Inductive PgoBuilder :=
| pgo_llvm (b : Builder.t)
| pgo_kernel (k : KernelBuilder.t).

(** One turn of [for pgo_builder in pgo_builders]. *)
Definition run_pgo_builder (p : PgoBuilder) : Prog Stages.t unit :=
  match p with
  | pgo_llvm b =>
      emit (print_info "Building LLVM for profiling...") ;;
      call configure b ;;
      call build b
  | pgo_kernel k =>
      when (kernel_builder_has_configure env) (
        emit (print_info "Building LLVM for profiling...") ;;
        emit (kernel_configure k)) ;;
      emit (kernel_build k)
  end.

Fixpoint for_each {A} (f : A -> Prog Stages.t unit) (l : list A) : Prog Stages.t unit :=
  match l with
  | [] => ret tt
  | x :: l' => f x ;; for_each f l'
  end.

Definition lsm_location (self : Stages.t) : option string :=
  match Stages.lsm self with
  | Some l => Some (LinuxSourceManager.location l)
  | None => None
  end.

Definition profiling_body (cspgo : bool) : Prog Stages.t unit :=
  self <- get ;;
  let a := Stages.args self in
  instrumented <-
    match Stages.instrumented self with
    | Some i => ret i
    | None => setup_instrumentation cspgo
    end ;;
  let profiling_dir :=
    if cspgo then Stages.cspgo_profiling_dir self else Stages.profiling_dir self in
  let instrumentation_dir :=
    if cspgo then Stages.cspgo_instrumentation_dir self
    else Stages.instrumentation_dir self in
  llvm <- in_pgo "llvm" a ;;
  llvm_builders <-
    (if llvm then
       llvm_builder <- construct (Stages.def_llvm_builder_cls self) ;;
       let llvm_builder :=
         configure_llvm_builder self llvm_builder profiling_dir (Some instrumentation_dir) in
       llvm_builder <-
         (if negb (Args.full_toolchain a)
             && negb (match Builder.tools llvm_builder with tools_none => true | _ => false end)
          then
            b <- tools_assign
                   (Tools.set_clang_tblgen
                      (Some (Py.path_join (Stages.bootstrap_dir self) "bin/clang-tblgen")))
                   llvm_builder ;;
            tools_assign
              (Tools.set_llvm_tblgen
                 (Some (Py.path_join (Stages.bootstrap_dir self) "bin/llvm-tblgen")))
              b
          else ret llvm_builder) ;;
       ret [pgo_llvm llvm_builder]
     else ret []) ;;
  let r := reconcile (kernel_pgo_targets (default [] (Args.pgo a))) in
  let pgo_targets := fst r in
  for_each (fun c => emit (full_slim_warning c)) (snd r) ;;
  self' <- get ;;
  kernel_builders <-
    match pgo_targets with
    | [] => ret []
    | _ :: _ =>
        ret [pgo_kernel
               {| KernelBuilder.build :=
                    Some (Py.path_join (Stages.build_folder self') "linux");
                  KernelBuilder.source := lsm_location self';
                  KernelBuilder.toolchain_prefix := Some instrumentation_dir;
                  KernelBuilder.matrix := kernel_matrix self' instrumented pgo_targets |}]
    end ;;
  for_each run_pgo_builder (llvm_builders ++ kernel_builders) ;;
  call generate_profdata instrumented.

Definition profiling (cspgo : bool) : Prog Stages.t unit :=
  stage_call (op_profiling cspgo)
    (build_stage "Generating PGO profiles" (profiling_body cspgo)).

(** *** final_step *)

(** The single triple of the BOLT workload. *)
Definition bolt_llvm_targets (self : Stages.t) (final : Builder.t) : list string :=
  if host_target_is_enabled env (deref_targets self (Builder.targets final))
  then [host_target env]
  else firstn 1 (deref_targets self (Builder.targets final)).

Definition final_step_body : Prog Stages.t unit :=
  self <- get ;;
  let a := Stages.args self in
  let final := Stages.final self in
  let final := Builder.set_build_targets (Args.build_targets a) final in
  let final := Builder.set_check_targets (Args.check_targets a) final in
  let final :=
    Builder.set_install
      (match Args.install_folder a with
       | Some (String _ _ as f) => Some (path_resolve env f)
       | _ => None
       end) final in
  let final := Builder.set_install_targets (Args.install_targets a) final in
  let final :=
    configure_llvm_builder self final (Stages.final_dir self)
                           (Some (Stages.bootstrap_dir self)) in
  final <-
    match Args.lto a with
    | Some l =>
        ret (Builder.set_cmake_defines
               (<["LLVM_ENABLE_LTO" := lto_capitalize l]> (Builder.cmake_defines final))
               final)
    | None => ret final
    end ;;
  final <-
    (if truthy_list (Args.pgo a) then
       match Stages.instrumented self with
       | Some i =>
           match Builder.build i with
           | Some folder =>
               ret (Builder.set_cmake_defines
                      (<["LLVM_PROFDATA_FILE" :=
                           Py.path_join (profiles_output_path env folder)
                                        (final_name env (Builder.cls i))]>
                         (Builder.cmake_defines final)) final)
           | None => ret final
           end
       | None => ret final
       end
     else ret final) ;;
  final <-
    (if Args.build_stage1_only a then
       call check_dependencies final ;;
       let final := Builder.set_ccache (negb (Args.no_ccache a)) final in
       let final := Builder.set_tools tools_host final in
       if Args.bolt a then
         final <-
           (if negb (Py.mem "all" (deref_projects self (Builder.projects final))
                     || Py.mem "bolt" (Stages.final_projects self))
            then projects_append "bolt" final
            else ret final) ;;
         final <- tools_assign
                    (Tools.set_llvm_bolt
                       (Some (Py.path_join (Stages.final_dir self) "bin/llvm-bolt")))
                    final ;;
         final <- tools_assign
                    (Tools.set_merge_fdata
                       (Some (Py.path_join (Stages.final_dir self) "bin/merge-fdata")))
                    final ;;
         tools_assign
           (Tools.set_perf2bolt
              (Some (Py.path_join (Stages.final_dir self) "bin/perf2bolt")))
           final
       else ret final
     else ret final) ;;
  final <-
    (if Args.bolt a then
       let final := Builder.set_bolt true final in
       ret (Builder.set_bolt_builder
              (Some {| KernelBuilder.build :=
                         Some (Py.path_join (Stages.build_folder self) "linux");
                       KernelBuilder.source := lsm_location self;
                       KernelBuilder.toolchain_prefix := None;
                       KernelBuilder.matrix :=
                         <["defconfig" := bolt_llvm_targets self final]>
                           (KernelBuilder.matrix KernelBuilder.new) |})
              final)
     else ret final) ;;
  modify (Stages.set_final final) ;;
  call configure final ;;
  call build final ;;
  call show_install_info final.

Definition final_step : Prog Stages.t unit :=
  stage_call op_final_step (build_stage "Building LLVM (final)" final_step_body).

(** ** The stage dispatch of [build-llvm.py] *)

Definition DEFAULT_KERNEL_FOR_PGO : list N := [6; 11; 0]%N.

Definition stage_is (a : Args.t) (s : StageName) : bool :=
  match Args.stage a with
  | Some s' => StageName_eqb s' s
  | None => false
  end.

(** [not args.stage or args.stage == s] *)
Definition runs (a : Args.t) (s : StageName) : bool :=
  negb (truthy_opt (Args.stage a)) || stage_is a s.

Definition dispatch : Prog Stages.t unit :=
  stages <- get ;;
  let a := Stages.args stages in
  let use_bootstrap := negb (Args.build_stage1_only a) in
  when (use_bootstrap && runs a stage_bootstrap) bootstrap ;;
  update_defines ;;
  when (truthy_list (Args.pgo a)) (
    when (runs a stage_instrumentation) (instrumentation false) ;;
    when (runs a stage_profiling) (profiling false) ;;
    when (Args.cspgo a) (
      when (runs a stage_csinstrumentation) (instrumentation true) ;;
      when (runs a stage_csprofiling) (profiling true))) ;;
  when (runs a stage_final) (
    stages <- get ;;
    when (truthy_list (Args.pgo a) && negb (truthy_opt (Stages.instrumented stages))) (
      i <- setup_instrumentation (Args.cspgo a) ;;
      modify (Stages.set_instrumented (Some i))) ;;
    final_step) ;;
  emit print_duration.

(** The script from the construction of the orchestrator on: the
    orchestrator as it is left (if it was constructed), the calls made, and
    how the process ends. *)
Definition main (a : Args.t) (tc_build_folder : string)
  : option Stages.t * list Event * Outcome unit :=
  let src_folder := Py.path_join tc_build_folder "src" in
  let build_folder :=
    match Args.build_folder a with
    | Some (String _ _ as f) => path_resolve env f
    | _ => Py.path_join tc_build_folder "build/llvm"
    end in
  match init a src_folder build_folder DEFAULT_KERNEL_FOR_PGO tt with
  | (_, e1, Normal stages) =>
      match dispatch stages with
      | (stages', e2, o) => (Some stages', e1 ++ e2, o)
      end
  | (_, e1, SystemExit c) => (None, e1, SystemExit c)
  | (_, e1, Raise x) => (None, e1, Raise x)
  end.

End Orchestrator.

(** ** A concrete host and configuration, for examples *)

Module Sample.

Definition env : Environment := {|
  path_exists := fun p => negb (String.eqb p "/missing");
  path_resolve := fun p => p;
  glob_patches := fun _ => [];
  lsm_get_version := fun _ => [6; 11; 0]%N;
  MINIMUM_SUPPORTED_VERSION := [5; 10; 0]%N;
  default_targets := fun _ => ["AArch64"; "ARM"; "X86"];
  default_projects := fun _ => ["clang"; "lld"];
  targets_are_valid := fun _ => true;
  can_use_perf := true;
  platform_machine := "x86_64";
  host_target := "X86";
  host_target_is_enabled := fun l => Py.mem "all" l || Py.mem "X86" l;
  new_cmake_defines := fun _ => ∅;
  new_targets := fun _ => [];
  new_projects := fun _ => [];
  profiles_output_path := fun b => Py.path_join b "profiles";
  final_name := fun _ => "profdata.prof";
  kernel_builder_has_configure := false
|}.

(** [build-llvm.py] with no option other than those given. *)
Definition args (pgo : option (list string)) (cspgo build_stage1_only bolt : bool)
    (stage : option StageName) : Args.t := {|
  Args.assertions := false;
  Args.bolt := bolt;
  Args.build_folder := None;
  Args.build_stage1_only := build_stage1_only;
  Args.build_targets := ["all"];
  Args.build_type := None;
  Args.check_targets := None;
  Args.cspgo := cspgo;
  Args.defines := None;
  Args.full_toolchain := false;
  Args.install_folder := None;
  Args.install_targets := None;
  Args.linux_folder := None;
  Args.llvm_folder := None;
  Args.lto := None;
  Args.no_ccache := false;
  Args.no_update := false;
  Args.pgo := pgo;
  Args.projects := None;
  Args.quiet_cmake := false;
  Args.ref := "main";
  Args.shallow_clone := false;
  Args.show_build_commands := false;
  Args.stage := stage;
  Args.targets := None;
  Args.vendor_string := Some "ClangBuiltLinux"
|}.

Definition root : string := "/tc-build".

(** The same with [-D defines] and [--build-type]. *)
Definition with_defines (defines : list string) (build_type : option BuildType)
    (a : Args.t) : Args.t := {|
  Args.assertions := Args.assertions a;
  Args.bolt := Args.bolt a;
  Args.build_folder := Args.build_folder a;
  Args.build_stage1_only := Args.build_stage1_only a;
  Args.build_targets := Args.build_targets a;
  Args.build_type := build_type;
  Args.check_targets := Args.check_targets a;
  Args.cspgo := Args.cspgo a;
  Args.defines := Some defines;
  Args.full_toolchain := Args.full_toolchain a;
  Args.install_folder := Args.install_folder a;
  Args.install_targets := Args.install_targets a;
  Args.linux_folder := Args.linux_folder a;
  Args.llvm_folder := Args.llvm_folder a;
  Args.lto := Args.lto a;
  Args.no_ccache := Args.no_ccache a;
  Args.no_update := Args.no_update a;
  Args.pgo := Args.pgo a;
  Args.projects := Args.projects a;
  Args.quiet_cmake := Args.quiet_cmake a;
  Args.ref := Args.ref a;
  Args.shallow_clone := Args.shallow_clone a;
  Args.show_build_commands := Args.show_build_commands a;
  Args.stage := Args.stage a;
  Args.targets := Args.targets a;
  Args.vendor_string := Args.vendor_string a
|}.

(** The same with [--linux-folder] and [--llvm-folder]. *)
Definition with_folders (linux_folder llvm_folder : option string) (a : Args.t)
  : Args.t := {|
  Args.assertions := Args.assertions a;
  Args.bolt := Args.bolt a;
  Args.build_folder := Args.build_folder a;
  Args.build_stage1_only := Args.build_stage1_only a;
  Args.build_targets := Args.build_targets a;
  Args.build_type := Args.build_type a;
  Args.check_targets := Args.check_targets a;
  Args.cspgo := Args.cspgo a;
  Args.defines := Args.defines a;
  Args.full_toolchain := Args.full_toolchain a;
  Args.install_folder := Args.install_folder a;
  Args.install_targets := Args.install_targets a;
  Args.linux_folder := linux_folder;
  Args.llvm_folder := llvm_folder;
  Args.lto := Args.lto a;
  Args.no_ccache := Args.no_ccache a;
  Args.no_update := Args.no_update a;
  Args.pgo := Args.pgo a;
  Args.projects := Args.projects a;
  Args.quiet_cmake := Args.quiet_cmake a;
  Args.ref := Args.ref a;
  Args.shallow_clone := Args.shallow_clone a;
  Args.show_build_commands := Args.show_build_commands a;
  Args.stage := Args.stage a;
  Args.targets := Args.targets a;
  Args.vendor_string := Args.vendor_string a
|}.

(** The same with [--targets]. *)
Definition with_targets (targets : option (list string)) (a : Args.t) : Args.t := {|
  Args.assertions := Args.assertions a;
  Args.bolt := Args.bolt a;
  Args.build_folder := Args.build_folder a;
  Args.build_stage1_only := Args.build_stage1_only a;
  Args.build_targets := Args.build_targets a;
  Args.build_type := Args.build_type a;
  Args.check_targets := Args.check_targets a;
  Args.cspgo := Args.cspgo a;
  Args.defines := Args.defines a;
  Args.full_toolchain := Args.full_toolchain a;
  Args.install_folder := Args.install_folder a;
  Args.install_targets := Args.install_targets a;
  Args.linux_folder := Args.linux_folder a;
  Args.llvm_folder := Args.llvm_folder a;
  Args.lto := Args.lto a;
  Args.no_ccache := Args.no_ccache a;
  Args.no_update := Args.no_update a;
  Args.pgo := Args.pgo a;
  Args.projects := Args.projects a;
  Args.quiet_cmake := Args.quiet_cmake a;
  Args.ref := Args.ref a;
  Args.shallow_clone := Args.shallow_clone a;
  Args.show_build_commands := Args.show_build_commands a;
  Args.stage := Args.stage a;
  Args.targets := targets;
  Args.vendor_string := Args.vendor_string a
|}.

End Sample.

(** What a run did, read off its calls. *)
Definition entered (evs : list Event) : list StageOp :=
  omap (fun e => match e with enter op => Some op | _ => None end) evs.

Definition warnings (evs : list Event) : list string :=
  omap (fun e => match e with print_warning s => Some s | _ => None end) evs.

Definition kernel_matrices (evs : list Event) : list (list (string * list string)) :=
  omap (fun e => match e with
                 | kernel_build k => Some (map_to_list (KernelBuilder.matrix k))
                 | _ => None
                 end) evs.

Definition run_events (r : option Stages.t * list Event * Outcome unit) : list Event :=
  snd (fst r).

Definition run_outcome (r : option Stages.t * list Event * Outcome unit) : Outcome unit :=
  snd r.

Definition run_stages (r : option Stages.t * list Event * Outcome unit) : option Stages.t :=
  fst (fst r).

(** ** Full and slim kernel workloads (the loop of [profiling]) *)

Definition pgo_choices : list string :=
  ["kernel-defconfig"; "kernel-allmodconfig"; "kernel-allyesconfig";
   "kernel-defconfig-slim"; "kernel-allmodconfig-slim"; "kernel-allyesconfig-slim";
   "llvm"].

Definition kernel_configs : list string := ["defconfig"; "allmodconfig"; "allyesconfig"].

Definition full_choice (X : string) : string := "kernel-" ++ X.
Definition slim_choice (X : string) : string := "kernel-" ++ X ++ "-slim".

(** ** Reading a run *)

(** The kernel workloads a run with the given PGO workloads builds. *)
Definition kernel_workloads_of (pgo : list string) : list (list (string * list string)) :=
  kernel_matrices
    (run_events (main Sample.env (Sample.args (Some pgo) false false false None)
                      Sample.root)).

(** The postcondition of a program at a state: a predicate on the state it
    leaves, the calls it makes and the way it ends. *)
Inductive wp {S A} (m : Prog S A) (s : S)
    (Q : S -> list Event -> Outcome A -> Prop) : Prop :=
| wp_intro : Q (state_of (m s)) (events_of (m s)) (outcome_of (m s)) -> wp m s Q.

(** ** The stages of a run *)

Definition title (op : StageOp) : string :=
  match op with
  | op_bootstrap => "Building LLVM (bootstrap)"
  | op_instrumentation _ => "Building LLVM (instrumented)"
  | op_profiling _ => "Generating PGO profiles"
  | op_final_step => "Building LLVM (final)"
  end.

(** The completion notice of single-stage mode. *)
Definition done_notice (op : StageOp) : Event := print_info (title op ++ " done.").

(** How a stage operation that runs to its end returns. *)
Definition done_outcome (a : Args.t) : Outcome unit :=
  if truthy_opt (Args.stage a) then SystemExit 0 else Normal tt.

Definition is_enter (e : Event) : bool :=
  match e with enter _ => true | _ => false end.

Definition is_build (e : Event) : bool :=
  match e with build _ => true | _ => false end.

Definition ends_with (evs : list Event) (e : Event) : Prop :=
  exists pre, evs = pre ++ [e].

(** The stage operation a [--stage] name selects. *)
Definition op_of (s : StageName) : StageOp :=
  match s with
  | stage_bootstrap => op_bootstrap
  | stage_instrumentation => op_instrumentation false
  | stage_profiling => op_profiling false
  | stage_csinstrumentation => op_instrumentation true
  | stage_csprofiling => op_profiling true
  | stage_final => op_final_step
  end.

(** Whether the configuration lets the dispatch reach a stage at all. *)
Definition enabled (a : Args.t) (s : StageName) : bool :=
  match s with
  | stage_bootstrap => negb (Args.build_stage1_only a)
  | stage_instrumentation | stage_profiling => truthy_list (Args.pgo a)
  | stage_csinstrumentation | stage_csprofiling =>
      truthy_list (Args.pgo a) && Args.cspgo a
  | stage_final => true
  end.

Definition stage_order : list StageName :=
  [stage_bootstrap; stage_instrumentation; stage_profiling;
   stage_csinstrumentation; stage_csprofiling; stage_final].

(** The stage operations of a run, in order. *)
Definition plan (a : Args.t) : list StageOp :=
  map op_of (List.filter (fun s => enabled a s && runs a s) stage_order).

(** What a stage operation does to the flow of control: it is entered, prints
    its header, enters no other stage operation, and if it runs to its end it
    returns, or in single-stage mode prints its notice and exits with
    status 0. The arguments are left as they are. *)
Definition control (op : StageOp) (a : Args.t)
    (s' : Stages.t) (e : list Event) (o : Outcome unit) : Prop :=
  (exists e',
      e = enter op :: print_header (title op) :: e'
      /\ forallb (fun x => negb (is_enter x)) e' = true
      /\ match op with
         | op_instrumentation _ => existsb is_build e' = true
         | _ => True
         end
      /\ (truthy_opt (Args.stage a) = true -> ends_with e' (done_notice op)))
  /\ o = done_outcome a
  /\ Stages.args s' = a.

(** The calls of one stage operation: its entry, its header, and calls that
    enter no stage; an instrumentation stage has built its builder. *)
Definition segment (op : StageOp) (e : list Event) : Prop :=
  exists e',
    e = enter op :: print_header (title op) :: e'
    /\ forallb (fun x => negb (is_enter x)) e' = true
    /\ match op with
       | op_instrumentation _ => existsb is_build e' = true
       | _ => True
       end.

(** The calls of a sequence of stage operations, one after the other. *)
Fixpoint segmented (ops : list StageOp) (e : list Event) : Prop :=
  match ops with
  | [] => e = []
  | op :: ops' => exists e1 e2, e = e1 ++ e2 /\ segment op e1 /\ segmented ops' e2
  end.

(** The shape of the dispatch: the planned stage operations run in order; in
    single-stage mode the process exits with status 0 at the end of the one
    that runs, otherwise it prints the duration and returns. *)
Definition dispatched (a : Args.t) (s' : Stages.t) (e : list Event) (o : Outcome unit)
  : Prop :=
  Stages.args s' = a
  /\ exists body,
       segmented (plan a) body
       /\ match Args.stage a, plan a with
          | Some _, op :: _ =>
              o = SystemExit 0 /\ e = body /\ plan a = [op]
              /\ ends_with body (done_notice op)
          | _, _ => o = Normal tt /\ e = body ++ [print_duration]
          end.

(** The calls of a dispatch that ran to its end: the stages, then the
    duration. *)
Definition tail_of (ops : list StageOp) (e : list Event) : Prop :=
  exists body, segmented ops body /\ e = body ++ [print_duration].

(** A call that is part of a stage: the entry of a stage operation or a
    method of a builder. *)
Definition is_stage_work (e : Event) : bool :=
  match e with
  | enter _ | check_dependencies _ | configure _ | build _ | show_install_info _
  | kernel_configure _ | kernel_build _ | generate_profdata _ => true
  | _ => false
  end.

Definition no_stage_work (evs : list Event) : bool :=
  forallb (fun e => negb (is_stage_work e)) evs.

(** The orchestrator as [__init__] leaves it. *)
Definition constructed (a : Args.t) (st : Stages.t) : Prop :=
  Stages.args st = a
  /\ Stages.instrumented st = None
  /\ Builder.oid (Stages.final st) = 0
  /\ Stages.fresh st = 1
  /\ Builder.targets (Stages.final st) = list_of_final
  /\ Builder.projects (Stages.final st) = list_of_final
  /\ Tools.origin (Stages.host_tools st) = HostTools
  /\ Stages.def_llvm_builder_cls st
     = (if Args.full_toolchain a then LLVMBuilder else LLVMSlimBuilder)
  /\ Builder.cls (Stages.final st) = Stages.def_llvm_builder_cls st
  /\ initial_common_defines a = Some (Stages.common_cmake_defines st).

(** The path arguments of [LLVMStages(...)] in [build-llvm.py]. *)
Definition src_folder_of (root : string) : string := Py.path_join root "src".

Definition build_folder_of (env : Environment) (a : Args.t) (root : string) : string :=
  match Args.build_folder a with
  | Some (String _ _ as f) => path_resolve env f
  | _ => Py.path_join root "build/llvm"
  end.

(** ** Context-sensitive instrumentation after plain instrumentation *)

(** The stage being run may configure or build. *)
Definition may_build (cur : option StageOp) (plain_built : bool) : bool :=
  match cur with
  | Some (op_instrumentation true) => plain_built
  | _ => true
  end.

Definition is_plain_instrumentation (cur : option StageOp) : bool :=
  match cur with
  | Some (op_instrumentation false) => true
  | _ => false
  end.

(** A scan of the calls of a run. [cur] is the stage operation entered
    last, [plain_built] whether the plain instrumentation stage has built
    its builder. The scan fails at a [configure] or [build] of the
    context-sensitive instrumentation stage that comes before that. *)
Fixpoint cs_guarded (cur : option StageOp) (plain_built : bool) (evs : list Event) : bool :=
  match evs with
  | [] => true
  | enter op :: r => cs_guarded (Some op) plain_built r
  | configure _ :: r => may_build cur plain_built && cs_guarded cur plain_built r
  | build _ :: r =>
      may_build cur plain_built
      && cs_guarded cur (plain_built || is_plain_instrumentation cur) r
  | _ :: r => cs_guarded cur plain_built r
  end.

Definition cs_instrumentation_after_plain (evs : list Event) : bool :=
  cs_guarded None false evs.

(** The same on a sequence of stage operations. *)
Fixpoint ops_guarded (plain_built : bool) (ops : list StageOp) : bool :=
  match ops with
  | [] => true
  | op :: r =>
      may_build (Some op) plain_built
      && ops_guarded (plain_built || is_plain_instrumentation (Some op)) r
  end.

(** ** Properties of every call of a run *)

(** A postcondition made of a property of every call and, when the program
    returns, a property of the value and state it returns with. *)
Definition post {A} (phi : Event -> Prop) (R : A -> Stages.t -> Prop)
    (s' : Stages.t) (e : list Event) (o : Outcome A) : Prop :=
  Forall phi e /\ forall x, o = Normal x -> R x s'.

(** The builder a method call is made on. *)
Definition method_view (e : Event) : option BuilderView :=
  match e with
  | check_dependencies v | configure v | build v | show_install_info v
  | generate_profdata v => Some v
  | _ => None
  end.


(** The builder's tools are the host's. *)
Definition has_host_tools (v : BuilderView) : bool :=
  match view_tools v with
  | Some t => match Tools.origin t with HostTools => true | StageTools _ => false end
  | None => false
  end.



(** The orchestrator as [__init__] returns it, if it does. *)
Definition constructed_by (env : Environment) (a : Args.t) (root : string)
  : option Stages.t :=
  match init env a (src_folder_of root) (build_folder_of env a root)
             DEFAULT_KERNEL_FOR_PGO tt with
  | (_, _, Normal st) => Some st
  | _ => None
  end.

(** C5: a configure, build or install call on the default final builder,
    the object of identity 0, finds it with the host's tools. *)
Definition final_call (e : Event) : option BuilderView :=
  match e with
  | configure v | build v | show_install_info v => Some v
  | _ => None
  end.

Definition final_on_host (e : Event) : Prop :=
  forall v, final_call e = Some v -> Builder.oid (view_builder v) = 0 ->
            has_host_tools v = true.

(** The default final builder is object 0 and every other builder is a
    later object; the host tools are the host's. *)
Definition identity_inv (a : Args.t) (s : Stages.t) : Prop :=
  Stages.args s = a
  /\ Builder.oid (Stages.final s) = 0
  /\ 1 <= Stages.fresh s
  /\ Tools.origin (Stages.host_tools s) = HostTools
  /\ match Stages.instrumented s with
     | Some i => 1 <= Builder.oid i
     | None => True
     end.

(** ** The common cmake defines *)

(** The keys [final_step] sets on the final builder after the common defines
    were merged into it. *)
Definition stage_local_keys : list string := ["LLVM_ENABLE_LTO"; "LLVM_PROFDATA_FILE"].

(** The builder's configuration has every entry of the map [C], apart from
    the stage-local keys. *)
Definition carries (C : gmap string string) (b : Builder.t) : Prop :=
  forall k x, C !! k = Some x -> ~ In k stage_local_keys ->
              Builder.cmake_defines b !! k = Some x.

Definition is_bootstrap_cls (c : BuilderClass) : bool :=
  match c with LLVMBootstrapBuilder => true | _ => false end.

(** C2: a method call on the bootstrap builder finds the map [C0] in its
    configuration, a call on any other builder the map [C1]. *)
Definition carries_common (C0 C1 : gmap string string) (e : Event) : Prop :=
  forall v, method_view e = Some v ->
            carries (if is_bootstrap_cls (Builder.cls (view_builder v)) then C0 else C1)
                    (view_builder v).

(** The orchestrator's common map is [C]; the builders it keeps are not
    bootstrap builders, and a retained instrumented builder has [C]. *)
Definition defines_inv (a : Args.t) (C : gmap string string) (s : Stages.t) : Prop :=
  Stages.args s = a
  /\ Stages.common_cmake_defines s = C
  /\ is_bootstrap_cls (Stages.def_llvm_builder_cls s) = false
  /\ is_bootstrap_cls (Builder.cls (Stages.final s)) = false
  /\ match Stages.instrumented s with
     | Some i => is_bootstrap_cls (Builder.cls i) = false /\ carries C i
     | None => True
     end.

(** A program that leaves the orchestrator's common map as it is, however
    it ends. *)
Definition keeps_common {A} (m : Prog Stages.t A) : Prop :=
  forall s, Stages.common_cmake_defines (state_of (m s)) = Stages.common_cmake_defines s.

(** The value of a key in the configuration of each builder configured, in
    the order of the [configure] calls. *)
Definition configured_with (k : string) (evs : list Event)
  : list (BuilderClass * option string) :=
  omap (fun e => match e with
                 | configure v =>
                     Some (Builder.cls (view_builder v),
                           Builder.cmake_defines (view_builder v) !! k)
                 | _ => None
                 end) evs.

(** The common map as constructed, with no instrumented builder yet. *)
Definition defines_inv0 (a : Args.t) (C : gmap string string) (s : Stages.t) : Prop :=
  defines_inv a C s /\ Stages.instrumented s = None.

(** The orchestrator's value of a common key, if the orchestrator exists. *)
Definition common_value (k : string) (o : option Stages.t) : option (option string) :=
  match o with
  | Some st => Some (Stages.common_cmake_defines st !! k)
  | None => None
  end.

(** The builder's configuration has every entry of the map [C]. *)
Definition carries_all (C : gmap string string) (b : Builder.t) : Prop :=
  forall k x, C !! k = Some x -> Builder.cmake_defines b !! k = Some x.

(** C2, builder by builder: a method call on the bootstrap builder finds
    the whole map [C0] in its configuration; a call on the final builder,
    the object of identity 0, the map [C1] apart from the keys [final_step]
    sets on it; a call on any other builder the whole map [C1]. *)
Definition configured_from (C0 C1 : gmap string string) (e : Event) : Prop :=
  forall v, method_view e = Some v ->
            if is_bootstrap_cls (Builder.cls (view_builder v))
            then carries_all C0 (view_builder v)
            else if Nat.eqb (Builder.oid (view_builder v)) 0
                 then carries C1 (view_builder v)
                 else carries_all C1 (view_builder v).

(** The orchestrator's common map is [C]; the final builder is object 0 and
    every other builder a later object; the builders it keeps are not
    bootstrap builders, and a retained instrumented builder has all of
    [C]. *)
Definition configured_inv (a : Args.t) (C : gmap string string) (s : Stages.t) : Prop :=
  Stages.args s = a
  /\ Stages.common_cmake_defines s = C
  /\ is_bootstrap_cls (Stages.def_llvm_builder_cls s) = false
  /\ is_bootstrap_cls (Builder.cls (Stages.final s)) = false
  /\ Builder.oid (Stages.final s) = 0
  /\ 1 <= Stages.fresh s
  /\ match Stages.instrumented s with
     | Some i => is_bootstrap_cls (Builder.cls i) = false
                 /\ 1 <= Builder.oid i
                 /\ carries_all C i
     | None => True
     end.

Definition configured_inv0 (a : Args.t) (C : gmap string string) (s : Stages.t) : Prop :=
  configured_inv a C s /\ Stages.instrumented s = None.

(** ** The instrumented builder of [profiling] *)

(** The builders whose [generate_profdata()] was called. *)
Definition profdata_builders (evs : list Event) : list Builder.t :=
  omap (fun e => match e with
                 | generate_profdata v => Some (view_builder v)
                 | _ => None
                 end) evs.

(** The LLVM builders configured or built. *)
Definition workload_builders (evs : list Event) : list Builder.t :=
  omap (fun e => match e with
                 | configure v | build v => Some (view_builder v)
                 | _ => None
                 end) evs.

(** The kernel builders built. *)
Definition kernel_builders (evs : list Event) : list KernelBuilder.t :=
  omap (fun e => match e with
                 | kernel_build k => Some k
                 | _ => None
                 end) evs.

(** The folder of the instrumented stage. *)
Definition instrumentation_dir_of (cspgo : bool) (s : Stages.t) : string :=
  if cspgo then Stages.cspgo_instrumentation_dir s else Stages.instrumentation_dir s.

(** A builder as [setup_instrumentation(cspgo)] makes it for the
    orchestrator [s]: the next object, of the instrumented class the
    arguments select, to be built in the folder of the instrumented stage
    with the tools of the bootstrap stage. *)
Definition fresh_instrumented (cspgo : bool) (s : Stages.t) (b : Builder.t) : Prop :=
  Builder.oid b = Stages.fresh s
  /\ Builder.cls b = instrumented_cls cspgo (Args.full_toolchain (Stages.args s))
  /\ Builder.build b = Some (instrumentation_dir_of cspgo s)
  /\ Builder.tools b
     = tools_own (Tools.new (StageTools (Py.path_join (Stages.bootstrap_dir s) "bin"))).

(** The objects [profiling] constructs for the LLVM workload. *)
Definition llvm_workloads (l : list string) : nat :=
  if Py.mem "llvm" l then 1 else 0.

(** The sample orchestrator of a configuration: [LLVMStages(args, ...)] on
    the sample host. Where [__init__] raises there is no orchestrator, and
    an empty one stands for it. *)
Definition sample_stages (a : Args.t) : Stages.t :=
  match constructed_by Sample.env a Sample.root with
  | Some st => st
  | None =>
      {| Stages.args := a;
         Stages.lsm := None;
         Stages.instrumented := None;
         Stages.build_folder := "";
         Stages.bootstrap_dir := "";
         Stages.instrumentation_dir := "";
         Stages.cspgo_instrumentation_dir := "";
         Stages.profiling_dir := "";
         Stages.cspgo_profiling_dir := "";
         Stages.final_dir := "";
         Stages.llvm_folder := "";
         Stages.host_tools := Tools.new HostTools;
         Stages.def_llvm_builder_cls := LLVMSlimBuilder;
         Stages.final := new_builder Sample.env LLVMSlimBuilder 0;
         Stages.final_targets := [];
         Stages.final_projects := [];
         Stages.common_cmake_defines := ∅;
         Stages.fresh := 1 |}
  end.

(** The sample orchestrator after its [instrumentation(cspgo)]. *)
Definition sample_instrumented (cspgo : bool) (a : Args.t) : Stages.t :=
  state_of (instrumentation Sample.env cspgo (sample_stages a)).

(** ** The target triple of a slim or BOLT kernel workload *)

(** The representative triple, as the specification words it: the host
    triple when the host target is enabled in the builder's target list, and
    otherwise the first target of the resolved target list. *)
Definition representative (env : Environment) (builder_targets resolved : list string)
  : option string :=
  if host_target_is_enabled env builder_targets then Some (host_target env)
  else head resolved.

(** The matrices of the BOLT kernel builders of the builders configured. *)
Definition bolt_matrices (evs : list Event) : list (gmap string (list string)) :=
  omap (fun e => match e with
                 | configure v =>
                     match Builder.bolt_builder (view_builder v) with
                     | Some k => Some (KernelBuilder.matrix k)
                     | None => None
                     end
                 | _ => None
                 end) evs.

(** The kernel workloads [profiling] is left with. *)
Definition kernel_workloads (pgo : list string) : list string :=
  fst (reconcile (kernel_pgo_targets pgo)).

(** A retained instrumented builder refers to the target list of the final
    builder, as [configure_llvm_builder] leaves it. *)
Definition retained_targets (s : Stages.t) : Prop :=
  match Stages.instrumented s with
  | Some i => Builder.targets i = list_of_final
  | None => True
  end.

(** ** The checks of an alternate Linux source folder *)

(** The folder is rejected, as the specification words it: it does not
    exist, it has no Makefile, or its version is older than the minimum the
    kernel builder supports. *)
Definition linux_folder_rejected (env : Environment) (given : string) : bool :=
  let folder := path_resolve env given in
  negb (path_exists env folder)
  || negb (path_exists env (Py.path_join folder "Makefile"))
  || Py.tuple_lt (lsm_get_version env folder) (MINIMUM_SUPPORTED_VERSION env).

(** The errors about the Linux source, told by their messages. *)
Definition is_linux_error (x : Exn) : bool :=
  match x with
  | RuntimeError msg =>
      Py.starts_with "Provided Linux folder" msg
      || Py.starts_with "Supplied kernel source version" msg
  | _ => false
  end.

(** ** [--cspgo] without PGO workloads *)

(** The configuration without [--cspgo]. *)
Definition without_cspgo (a : Args.t) : Args.t := {|
  Args.assertions := Args.assertions a;
  Args.bolt := Args.bolt a;
  Args.build_folder := Args.build_folder a;
  Args.build_stage1_only := Args.build_stage1_only a;
  Args.build_targets := Args.build_targets a;
  Args.build_type := Args.build_type a;
  Args.check_targets := Args.check_targets a;
  Args.cspgo := false;
  Args.defines := Args.defines a;
  Args.full_toolchain := Args.full_toolchain a;
  Args.install_folder := Args.install_folder a;
  Args.install_targets := Args.install_targets a;
  Args.linux_folder := Args.linux_folder a;
  Args.llvm_folder := Args.llvm_folder a;
  Args.lto := Args.lto a;
  Args.no_ccache := Args.no_ccache a;
  Args.no_update := Args.no_update a;
  Args.pgo := Args.pgo a;
  Args.projects := Args.projects a;
  Args.quiet_cmake := Args.quiet_cmake a;
  Args.ref := Args.ref a;
  Args.shallow_clone := Args.shallow_clone a;
  Args.show_build_commands := Args.show_build_commands a;
  Args.stage := Args.stage a;
  Args.targets := Args.targets a;
  Args.vendor_string := Args.vendor_string a
|}.

(** The orchestrator of the configuration without [--cspgo]: the same in
    everything but the arguments it holds. *)
Definition plain (s : Stages.t) : Stages.t := {|
  Stages.args := without_cspgo (Stages.args s);
  Stages.lsm := Stages.lsm s;
  Stages.instrumented := Stages.instrumented s;
  Stages.build_folder := Stages.build_folder s;
  Stages.bootstrap_dir := Stages.bootstrap_dir s;
  Stages.instrumentation_dir := Stages.instrumentation_dir s;
  Stages.cspgo_instrumentation_dir := Stages.cspgo_instrumentation_dir s;
  Stages.profiling_dir := Stages.profiling_dir s;
  Stages.cspgo_profiling_dir := Stages.cspgo_profiling_dir s;
  Stages.final_dir := Stages.final_dir s;
  Stages.llvm_folder := Stages.llvm_folder s;
  Stages.host_tools := Stages.host_tools s;
  Stages.def_llvm_builder_cls := Stages.def_llvm_builder_cls s;
  Stages.final := Stages.final s;
  Stages.final_targets := Stages.final_targets s;
  Stages.final_projects := Stages.final_projects s;
  Stages.common_cmake_defines := Stages.common_cmake_defines s;
  Stages.fresh := Stages.fresh s
|}.

(** The run [r'] makes the calls of the run [r] and ends as it does, and
    the orchestrators they leave differ in the [--cspgo] they hold only. *)
Definition same_but_cspgo (r r' : option Stages.t * list Event * Outcome unit) : Prop :=
  run_events r' = run_events r
  /\ run_outcome r' = run_outcome r
  /\ run_stages r' = option_map plain (run_stages r).

(** A program run from the orchestrator without [--cspgo] does what it does
    from the orchestrator with it. *)
Definition plain_result {A} (r : Stages.t * list Event * Outcome A)
  : Stages.t * list Event * Outcome A :=
  (plain (state_of r), events_of r, outcome_of r).

Definition sim_at {A} (s : Stages.t) (m' m : Prog Stages.t A) : Prop :=
  m' (plain s) = plain_result (m s).

Definition sim {A} (m' m : Prog Stages.t A) : Prop := forall s, sim_at s m' m.

(** The stage operations of a build without PGO. *)
Definition is_pgo_op (op : StageOp) : bool :=
  match op with
  | op_instrumentation _ | op_profiling _ => true
  | op_bootstrap | op_final_step => false
  end.

(** The construction does not read [--cspgo]. *)
Definition constructed_plain (r : unit * list Event * Outcome Stages.t)
  : unit * list Event * Outcome Stages.t :=
  (fst (fst r), snd (fst r),
   match snd r with
   | Normal st => Normal (plain st)
   | SystemExit c => SystemExit c
   | Raise x => Raise x
   end).


(** ** Collaborators that fail

    The methods of the builders, of the source managers and of the host
    tools run external programs, and raise when one of them fails. Neither
    [build-llvm.py] nor [llvm_build_stages.py] catches an exception, so the
    exception of a call leaves the stage, its decorator and the script.

    The definitions above describe the calls of a run whose collaborators
    all return. The module [Failing] has the same script with collaborators
    that may raise: [fails e] is the exception the call [e] raises, if it
    does. *)

(** The calls that run a collaborator: everything but the script's own
    prints, its sleep and the record of a stage being entered. *)
Definition is_collaborator_call (e : Event) : bool :=
  match e with
  | lsm_prepare _ | llvm_download _ _ _ | llvm_update _ _ | show_compiler_linker
  | check_dependencies _ | configure _ | build _ | show_install_info _
  | kernel_configure _ | kernel_build _ | generate_profdata _ => true
  | _ => false
  end.

Module Failing.

Section Orchestrator.

Variable env : Environment.
Variable fails : Event -> option Exn.

(** A call to a collaborator: it is made, and it returns or raises. *)
Definition perform {S} (e : Event) : Prog S unit :=
  emit e ;;
  match fails e with
  | Some x => raise x
  | None => ret tt
  end.

(** The first part of [__init__]: validate and prepare the Linux source. *)
Definition prepare_linux_source (a : Args.t) (src_folder : string) (kernel_version : list N)
  : Prog unit (option LinuxSourceManager.t) :=
  if needs_linux_source a then
    match Args.linux_folder a with
    | Some (String _ _ as given) =>
        let linux_folder := path_resolve env given in
        if negb (path_exists env linux_folder) then raise (linux_missing given)
        else if negb (path_exists env (Py.path_join linux_folder "Makefile"))
        then raise (linux_no_makefile given)
        else
          let linux_version := lsm_get_version env linux_folder in
          if Py.tuple_lt linux_version (MINIMUM_SUPPORTED_VERSION env)
          then raise (linux_too_old env linux_version)
          else ret (Some {| LinuxSourceManager.location := linux_folder;
                            LinuxSourceManager.patches := [];
                            LinuxSourceManager.tarball := None |})
    | _ =>
        let ver_str :=
          Py.join "." (map Py.str (List.filter (fun x => negb (N.eqb x 0)) kernel_version)) in
        let location := Py.path_join src_folder ("linux-" ++ ver_str) in
        let l := {| LinuxSourceManager.location := location;
                    LinuxSourceManager.patches := glob_patches env src_folder;
                    LinuxSourceManager.tarball :=
                      Some ("https://cdn.kernel.org/pub/linux/kernel/v6.x",
                            (location ++ ".tar.xz")%string, "sha256sums.asc") |} in
        emit (print_header "Preparing Linux source for profiling runs") ;;
        perform (lsm_prepare l) ;;
        ret (Some l)
    end
  else ret None.

(** [LLVMStages.__init__] *)
Definition init (a : Args.t) (src_folder build_folder : string) (kernel_version : list N)
  : Prog unit Stages.t :=
  lsm <- prepare_linux_source a src_folder kernel_version ;;
  llvm_folder <-
    match Args.llvm_folder a with
    | Some (String _ _ as given) =>
        let f := path_resolve env given in
        if negb (path_exists env f) then raise (llvm_missing given) else ret f
    | _ => ret (Py.path_join src_folder "llvm-project")
    end ;;
  perform (llvm_download llvm_folder (Args.ref a) (Args.shallow_clone a)) ;;
  when (negb (truthy_str (Args.llvm_folder a) || Args.no_update a))
       (perform (llvm_update llvm_folder (Args.ref a))) ;;
  emit (print_header "Checking CC and LD") ;;
  perform show_compiler_linker ;;
  let def_llvm_builder_cls :=
    if Args.full_toolchain a then LLVMBuilder else LLVMSlimBuilder in
  let final := Builder.set_source (Some llvm_folder) (new_builder env def_llvm_builder_cls 0) in
  final_targets <-
    match Args.targets a with
    | Some ((_ :: _) as l) =>
        if targets_are_valid env l then ret l
        else raise (RuntimeError "invalid targets")
    | _ => ret (if Args.full_toolchain a then ["all"] else default_targets env llvm_folder)
    end ;;
  let final_projects :=
    match Args.projects a with
    | Some ((_ :: _) as l) => l
    | _ => if Args.full_toolchain a then ["all"] else default_projects env llvm_folder
    end in
  let final :=
    Builder.set_projects list_of_final (Builder.set_targets list_of_final final) in
  bolt_warnings env a llvm_folder ;;
  match initial_common_defines a with
  | None => raise (ValueError "dictionary update sequence element has length 1; 2 is required")
  | Some common =>
      ret {| Stages.args := a;
             Stages.lsm := lsm;
             Stages.instrumented := None;
             Stages.build_folder := build_folder;
             Stages.bootstrap_dir := Py.path_join build_folder "bootstrap";
             Stages.instrumentation_dir := Py.path_join build_folder "instrumentation";
             Stages.cspgo_instrumentation_dir :=
               Py.path_join build_folder "cspgo_instrumentation";
             Stages.profiling_dir := Py.path_join build_folder "profiling";
             Stages.cspgo_profiling_dir := Py.path_join build_folder "cspgo_profiling";
             Stages.final_dir := Py.path_join build_folder "final";
             Stages.llvm_folder := llvm_folder;
             Stages.host_tools := Tools.new HostTools;
             Stages.def_llvm_builder_cls := def_llvm_builder_cls;
             Stages.final := final;
             Stages.final_targets := final_targets;
             Stages.final_projects := final_projects;
             Stages.common_cmake_defines := common;
             Stages.fresh := 1 |}
  end.

(** A method call on a builder, as the collaborator sees it. *)
Definition call (method : BuilderView -> Event) (b : Builder.t) : Prog Stages.t unit :=
  self <- get ;;
  perform (method (view self b)).

(** *** bootstrap *)

Definition bootstrap_body : Prog Stages.t unit :=
  self <- get ;;
  let a := Stages.args self in
  bootstrap <- construct env LLVMBootstrapBuilder ;;
  let bootstrap := Builder.set_build_targets ["distribution"] bootstrap in
  let bootstrap := Builder.set_ccache (negb (Args.no_ccache a)) bootstrap in
  let bootstrap :=
    configure_llvm_builder self bootstrap (Stages.bootstrap_dir self) None in
  bootstrap <- (if Args.bolt a then projects_append "bolt" bootstrap else ret bootstrap) ;;
  bootstrap <- (if truthy_list (Args.pgo a) then projects_append "compiler-rt" bootstrap
                else ret bootstrap) ;;
  call check_dependencies bootstrap ;;
  call configure bootstrap ;;
  call build bootstrap.

Definition bootstrap : Prog Stages.t unit :=
  stage_call op_bootstrap (build_stage "Building LLVM (bootstrap)" bootstrap_body).

Definition instrumentation_body (cspgo : bool) : Prog Stages.t unit :=
  instrumented <- setup_instrumentation env cspgo ;;
  modify (Stages.set_instrumented (Some instrumented)) ;;
  call configure instrumented ;;
  call build instrumented.

Definition instrumentation (cspgo : bool) : Prog Stages.t unit :=
  stage_call (op_instrumentation cspgo)
    (build_stage "Building LLVM (instrumented)" (instrumentation_body cspgo)).

(** One turn of [for pgo_builder in pgo_builders]. *)
Definition run_pgo_builder (p : PgoBuilder) : Prog Stages.t unit :=
  match p with
  | pgo_llvm b =>
      emit (print_info "Building LLVM for profiling...") ;;
      call configure b ;;
      call build b
  | pgo_kernel k =>
      when (kernel_builder_has_configure env) (
        emit (print_info "Building LLVM for profiling...") ;;
        perform (kernel_configure k)) ;;
      perform (kernel_build k)
  end.

Definition profiling_body (cspgo : bool) : Prog Stages.t unit :=
  self <- get ;;
  let a := Stages.args self in
  instrumented <-
    match Stages.instrumented self with
    | Some i => ret i
    | None => setup_instrumentation env cspgo
    end ;;
  let profiling_dir :=
    if cspgo then Stages.cspgo_profiling_dir self else Stages.profiling_dir self in
  let instrumentation_dir :=
    if cspgo then Stages.cspgo_instrumentation_dir self
    else Stages.instrumentation_dir self in
  llvm <- in_pgo "llvm" a ;;
  llvm_builders <-
    (if llvm then
       llvm_builder <- construct env (Stages.def_llvm_builder_cls self) ;;
       let llvm_builder :=
         configure_llvm_builder self llvm_builder profiling_dir (Some instrumentation_dir) in
       llvm_builder <-
         (if negb (Args.full_toolchain a)
             && negb (match Builder.tools llvm_builder with tools_none => true | _ => false end)
          then
            b <- tools_assign
                   (Tools.set_clang_tblgen
                      (Some (Py.path_join (Stages.bootstrap_dir self) "bin/clang-tblgen")))
                   llvm_builder ;;
            tools_assign
              (Tools.set_llvm_tblgen
                 (Some (Py.path_join (Stages.bootstrap_dir self) "bin/llvm-tblgen")))
              b
          else ret llvm_builder) ;;
       ret [pgo_llvm llvm_builder]
     else ret []) ;;
  let r := reconcile (kernel_pgo_targets (default [] (Args.pgo a))) in
  let pgo_targets := fst r in
  for_each (fun c => emit (full_slim_warning c)) (snd r) ;;
  self' <- get ;;
  kernel_builders <-
    match pgo_targets with
    | [] => ret []
    | _ :: _ =>
        ret [pgo_kernel
               {| KernelBuilder.build :=
                    Some (Py.path_join (Stages.build_folder self') "linux");
                  KernelBuilder.source := lsm_location self';
                  KernelBuilder.toolchain_prefix := Some instrumentation_dir;
                  KernelBuilder.matrix := kernel_matrix env self' instrumented pgo_targets |}]
    end ;;
  for_each run_pgo_builder (llvm_builders ++ kernel_builders) ;;
  call generate_profdata instrumented.

Definition profiling (cspgo : bool) : Prog Stages.t unit :=
  stage_call (op_profiling cspgo)
    (build_stage "Generating PGO profiles" (profiling_body cspgo)).

Definition final_step_body : Prog Stages.t unit :=
  self <- get ;;
  let a := Stages.args self in
  let final := Stages.final self in
  let final := Builder.set_build_targets (Args.build_targets a) final in
  let final := Builder.set_check_targets (Args.check_targets a) final in
  let final :=
    Builder.set_install
      (match Args.install_folder a with
       | Some (String _ _ as f) => Some (path_resolve env f)
       | _ => None
       end) final in
  let final := Builder.set_install_targets (Args.install_targets a) final in
  let final :=
    configure_llvm_builder self final (Stages.final_dir self)
                           (Some (Stages.bootstrap_dir self)) in
  final <-
    match Args.lto a with
    | Some l =>
        ret (Builder.set_cmake_defines
               (<["LLVM_ENABLE_LTO" := lto_capitalize l]> (Builder.cmake_defines final))
               final)
    | None => ret final
    end ;;
  final <-
    (if truthy_list (Args.pgo a) then
       match Stages.instrumented self with
       | Some i =>
           match Builder.build i with
           | Some folder =>
               ret (Builder.set_cmake_defines
                      (<["LLVM_PROFDATA_FILE" :=
                           Py.path_join (profiles_output_path env folder)
                                        (final_name env (Builder.cls i))]>
                         (Builder.cmake_defines final)) final)
           | None => ret final
           end
       | None => ret final
       end
     else ret final) ;;
  final <-
    (if Args.build_stage1_only a then
       call check_dependencies final ;;
       let final := Builder.set_ccache (negb (Args.no_ccache a)) final in
       let final := Builder.set_tools tools_host final in
       if Args.bolt a then
         final <-
           (if negb (Py.mem "all" (deref_projects self (Builder.projects final))
                     || Py.mem "bolt" (Stages.final_projects self))
            then projects_append "bolt" final
            else ret final) ;;
         final <- tools_assign
                    (Tools.set_llvm_bolt
                       (Some (Py.path_join (Stages.final_dir self) "bin/llvm-bolt")))
                    final ;;
         final <- tools_assign
                    (Tools.set_merge_fdata
                       (Some (Py.path_join (Stages.final_dir self) "bin/merge-fdata")))
                    final ;;
         tools_assign
           (Tools.set_perf2bolt
              (Some (Py.path_join (Stages.final_dir self) "bin/perf2bolt")))
           final
       else ret final
     else ret final) ;;
  final <-
    (if Args.bolt a then
       let final := Builder.set_bolt true final in
       ret (Builder.set_bolt_builder
              (Some {| KernelBuilder.build :=
                         Some (Py.path_join (Stages.build_folder self) "linux");
                       KernelBuilder.source := lsm_location self;
                       KernelBuilder.toolchain_prefix := None;
                       KernelBuilder.matrix :=
                         <["defconfig" := bolt_llvm_targets env self final]>
                           (KernelBuilder.matrix KernelBuilder.new) |})
              final)
     else ret final) ;;
  modify (Stages.set_final final) ;;
  call configure final ;;
  call build final ;;
  call show_install_info final.

Definition final_step : Prog Stages.t unit :=
  stage_call op_final_step (build_stage "Building LLVM (final)" final_step_body).

Definition dispatch : Prog Stages.t unit :=
  stages <- get ;;
  let a := Stages.args stages in
  let use_bootstrap := negb (Args.build_stage1_only a) in
  when (use_bootstrap && runs a stage_bootstrap) bootstrap ;;
  update_defines ;;
  when (truthy_list (Args.pgo a)) (
    when (runs a stage_instrumentation) (instrumentation false) ;;
    when (runs a stage_profiling) (profiling false) ;;
    when (Args.cspgo a) (
      when (runs a stage_csinstrumentation) (instrumentation true) ;;
      when (runs a stage_csprofiling) (profiling true))) ;;
  when (runs a stage_final) (
    stages <- get ;;
    when (truthy_list (Args.pgo a) && negb (truthy_opt (Stages.instrumented stages))) (
      i <- setup_instrumentation env (Args.cspgo a) ;;
      modify (Stages.set_instrumented (Some i))) ;;
    final_step) ;;
  emit print_duration.

(** The script from the construction of the orchestrator on: the
    orchestrator as it is left (if it was constructed), the calls made, and
    how the process ends. *)
Definition main (a : Args.t) (tc_build_folder : string)
  : option Stages.t * list Event * Outcome unit :=
  let src_folder := Py.path_join tc_build_folder "src" in
  let build_folder :=
    match Args.build_folder a with
    | Some (String _ _ as f) => path_resolve env f
    | _ => Py.path_join tc_build_folder "build/llvm"
    end in
  match init a src_folder build_folder DEFAULT_KERNEL_FOR_PGO tt with
  | (_, e1, Normal stages) =>
      match dispatch stages with
      | (stages', e2, o) => (Some stages', e1 ++ e2, o)
      end
  | (_, e1, SystemExit c) => (None, e1, SystemExit c)
  | (_, e1, Raise x) => (None, e1, Raise x)
  end.

End Orchestrator.

End Failing.

(** ** A run cut at its first failing call *)

(** The exception a call raises, if it is the call of a collaborator that
    fails. *)
Definition failure (fails : Event -> option Exn) (e : Event) : option Exn :=
  if is_collaborator_call e then fails e else None.

(** The calls of a list up to and with the first that fails, and the
    exception it raises. *)
Fixpoint first_failure (fails : Event -> option Exn) (evs : list Event)
  : option (list Event * Exn) :=
  match evs with
  | [] => None
  | e :: evs' =>
      match failure fails e with
      | Some x => Some ([e], x)
      | None =>
          match first_failure fails evs' with
          | Some (pre, x) => Some (e :: pre, x)
          | None => None
          end
      end
  end.

(** [rf] is [r] cut at its first failing call: the same result when no call
    of [r] fails, and otherwise the calls of [r] up to the failing one,
    ended by its exception. *)
Definition cut {S A} (fails : Event -> option Exn) (r rf : S * list Event * Outcome A)
  : Prop :=
  match first_failure fails (events_of r) with
  | None => rf = r
  | Some (pre, x) => events_of rf = pre /\ outcome_of rf = Raise x
  end.

Definition cuts {S A} (fails : Event -> option Exn) (m mf : Prog S A) : Prop :=
  forall s, cut fails (m s) (mf s).

(** The methods of the builders, the calls a stage makes to build. *)
Definition is_builder_method (e : Event) : bool :=
  match e with
  | check_dependencies _ | configure _ | build _ | show_install_info _
  | kernel_configure _ | kernel_build _ | generate_profdata _ => true
  | _ => false
  end.

(** The run ends with the exception of its last call, the method of a
    builder that failed. *)
Definition stopped_by (fails : Event -> option Exn) (evs : list Event) (o : Outcome unit)
  : Prop :=
  exists e x,
    ends_with evs e /\ is_builder_method e = true /\ fails e = Some x /\ o = Raise x.

(** Collaborators that never fail. *)
Definition no_failure : Event -> option Exn := fun _ => None.

(** Collaborators of which the calls selected by [p] fail. *)
Definition fails_when (p : Event -> bool) : Event -> option Exn :=
  fun e => if p e then Some (RuntimeError "the command failed") else None.

(** The stage operations in the order of the dispatch. *)
Definition op_order : list StageOp := map op_of stage_order.

(** How a run that got past the construction ends. *)
Definition ends_well (a : Args.t) (evs : list Event) (o : Outcome unit) : Prop :=
  match Args.stage a, plan a with
  | Some _, op :: _ => o = SystemExit 0 /\ ends_with evs (done_notice op)
  | _, _ => o = Normal tt /\ ends_with evs print_duration
  end.

(** [KEY=VALUE] *)
Definition key_value (k v : string) : string := k ++ "=" ++ v.

(** A string with no ['='] in it. *)
Definition no_equals (s : string) : Prop := ~ In "="%char (list_ascii_of_string s).

(** The keys a user's define does not reach every builder under: the build
    type, which [update_defines] may replace, and the keys [final_step] sets
    on the final builder. *)
Definition overridden_keys : list string :=
  ["CMAKE_BUILD_TYPE"; "LLVM_ENABLE_LTO"; "LLVM_PROFDATA_FILE"].

(** A method call on a builder finds the value [v] under the key [k] of its
    cmake defines. *)
Definition configured_as (k v : string) (e : Event) : Prop :=
  forall bv, method_view e = Some bv ->
             Builder.cmake_defines (view_builder bv) !! k = Some v.

(** What the decorator adds after the stage body: nothing unless the body
    returns in single-stage mode. *)
Definition stage_epilogue (title : string) (s : Stages.t) (o : Outcome unit)
  : list Event * Outcome unit :=
  match o with
  | Normal _ =>
      if truthy_opt (Args.stage (Stages.args s))
      then ([print_info (title ++ " done.")], SystemExit 0)
      else ([], Normal tt)
  | _ => ([], o)
  end.

(** The builder methods called, by name, with the builder as it is seen. *)
Definition method_name (e : Event) : option string :=
  match e with
  | check_dependencies _ => Some "check_dependencies"
  | configure _ => Some "configure"
  | build _ => Some "build"
  | show_install_info _ => Some "show_install_info"
  | generate_profdata _ => Some "generate_profdata"
  | _ => None
  end.

Definition methods_called (evs : list Event) : list string := omap method_name evs.

(** The projects of the bootstrap builder: those of its class, then [bolt]
    and [compiler-rt] as the configuration asks. *)
Definition bootstrap_projects (env : Environment) (a : Args.t) : list string :=
  new_projects env LLVMBootstrapBuilder
  ++ (if Args.bolt a then ["bolt"] else [])
  ++ (if truthy_list (Args.pgo a) then ["compiler-rt"] else []).

(** What a stage shares with the stages after it. *)
Definition shared (s : Stages.t) :=
  (Stages.final_targets s, Stages.final_projects s, Stages.host_tools s,
   Stages.common_cmake_defines s, Stages.instrumented s, Stages.final s).

(** How the bootstrap builder is seen at each of its method calls. *)
Definition bootstrap_call (env : Environment) (s : Stages.t) (e : Event) : Prop :=
  forall v, method_view e = Some v ->
    Builder.cls (view_builder v) = LLVMBootstrapBuilder
    /\ view_tools v = Some (Stages.host_tools s)
    /\ Builder.build (view_builder v) = Some (Stages.bootstrap_dir s)
    /\ Builder.source (view_builder v) = Some (Stages.llvm_folder s)
    /\ Builder.ccache (view_builder v) = negb (Args.no_ccache (Stages.args s))
    /\ Builder.build_targets (view_builder v) = ["distribution"]
    /\ view_targets v = new_targets env LLVMBootstrapBuilder
    /\ view_projects v = bootstrap_projects env (Stages.args s).

(** The BOLT tools of the final stage, set on a tools object. *)
Definition with_bolt_tools (final_dir : string) (t : Tools.t) : Tools.t :=
  Tools.set_perf2bolt (Some (Py.path_join final_dir "bin/perf2bolt"))
    (Tools.set_merge_fdata (Some (Py.path_join final_dir "bin/merge-fdata"))
       (Tools.set_llvm_bolt (Some (Py.path_join final_dir "bin/llvm-bolt")) t)).

(** [final_step] without bootstrap and with BOLT. *)
Definition bolts_stage1 (a : Args.t) : bool :=
  Args.build_stage1_only a && Args.bolt a.

(** The resolved projects after [final_step]. *)
Definition projects_after_final (a : Args.t) (P : list string) : list string :=
  if bolts_stage1 a && negb (Py.mem "all" P || Py.mem "bolt" P)
  then P ++ ["bolt"] else P.

(** How the final builder is seen at its [configure], [build] and
    [show_install_info]. *)
Definition final_stage_call (s : Stages.t) (e : Event) : Prop :=
  forall v, final_call e = Some v ->
    view_projects v = projects_after_final (Stages.args s) (Stages.final_projects s)
    /\ view_targets v = Stages.final_targets s
    /\ view_tools v
       = Some (if Args.build_stage1_only (Stages.args s)
               then (if Args.bolt (Stages.args s)
                     then with_bolt_tools (Stages.final_dir s) (Stages.host_tools s)
                     else Stages.host_tools s)
               else Tools.new (StageTools (Py.path_join (Stages.bootstrap_dir s) "bin"))).

(** [check_dependencies] is called, in a build without bootstrap, on the
    final builder as [configure_llvm_builder] left it: with the tools of the
    bootstrap folder, before the host's tools are put in their place. *)
Definition final_check_call (s : Stages.t) (e : Event) : Prop :=
  forall v, e = check_dependencies v ->
    Args.build_stage1_only (Stages.args s) = true
    /\ view_tools v
       = Some (Tools.new (StageTools (Py.path_join (Stages.bootstrap_dir s) "bin"))).

(** The kernel builder a call builds with: the builder of the kernel
    workloads, or the BOLT builder of an LLVM builder. *)
Definition kernel_builder_of (e : Event) : option KernelBuilder.t :=
  match e with
  | kernel_configure k | kernel_build k => Some k
  | check_dependencies v | configure v | build v | show_install_info v
  | generate_profdata v => Builder.bolt_builder (view_builder v)
  | _ => None
  end.

(** Every kernel builder of the call has the source [src]. *)
Definition kernel_sourced (src : string) (e : Event) : Prop :=
  forall k, kernel_builder_of e = Some k -> KernelBuilder.source k = Some src.

(** The orchestrator keeps the Linux source at [src] if it needs one, and no
    builder it keeps has a BOLT builder yet. *)
Definition source_inv (a : Args.t) (src : string) (s : Stages.t) : Prop :=
  Stages.args s = a
  /\ (needs_linux_source a = true -> lsm_location s = Some src)
  /\ Builder.bolt_builder (Stages.final s) = None
  /\ match Stages.instrumented s with
     | Some i => Builder.bolt_builder i = None
     | None => True
     end.

(** Where the Linux source is: the folder given, or the folder the tarball
    of the default kernel version is extracted to. *)
Definition linux_source_location (env : Environment) (a : Args.t)
    (src_folder : string) (kernel_version : list N) : string :=
  match Args.linux_folder a with
  | Some (String _ _ as given) => path_resolve env given
  | _ =>
      Py.path_join src_folder
        ("linux-" ++ Py.join "." (map Py.str (List.filter (fun x => negb (N.eqb x 0))
                                                          kernel_version)))
  end.

(** What the construction fetches. *)
Definition llvm_downloads (evs : list Event) : list (string * string * bool) :=
  omap (fun e => match e with
                 | llvm_download f r sh => Some (f, r, sh)
                 | _ => None
                 end) evs.

Definition llvm_updates (evs : list Event) : list (string * string) :=
  omap (fun e => match e with
                 | llvm_update f r => Some (f, r)
                 | _ => None
                 end) evs.

Definition lsm_prepares (evs : list Event) : list string :=
  omap (fun e => match e with
                 | lsm_prepare l => Some (LinuxSourceManager.location l)
                 | _ => None
                 end) evs.

(** A call that fetches or updates a source. *)
Definition is_fetch (e : Event) : bool :=
  match e with
  | llvm_download _ _ _ | llvm_update _ _ | lsm_prepare _ => true
  | _ => false
  end.

(** The LLVM source folder: the one given, or [llvm-project] under the
    source folder. *)
Definition llvm_folder_of (env : Environment) (a : Args.t) (src_folder : string) : string :=
  match Args.llvm_folder a with
  | Some (String _ _ as given) => path_resolve env given
  | _ => Py.path_join src_folder "llvm-project"
  end.

(** The fetches of a construction that runs to its end. *)
Definition expected_downloads (env : Environment) (a : Args.t) (src_folder : string)
  : list (string * string * bool) :=
  [(llvm_folder_of env a src_folder, Args.ref a, Args.shallow_clone a)].

Definition expected_updates (env : Environment) (a : Args.t) (src_folder : string)
  : list (string * string) :=
  if truthy_str (Args.llvm_folder a) || Args.no_update a then []
  else [(llvm_folder_of env a src_folder, Args.ref a)].

Definition expected_prepares (env : Environment) (a : Args.t) (src_folder : string)
    (kernel_version : list N) : list string :=
  if needs_linux_source a && negb (truthy_str (Args.linux_folder a))
  then [Py.path_join src_folder
          ("linux-" ++ Py.join "." (map Py.str (List.filter (fun x => negb (N.eqb x 0))
                                                            kernel_version)))]
  else [].

(** The orchestrator holds the arguments [a]. *)
Definition args_are (a : Args.t) (s : Stages.t) : Prop := Stages.args s = a.

(** The instrumented builder as [instrumentation] retains it. *)
Definition retained_instrumented (env : Environment) (cspgo : bool) (s : Stages.t)
    (l : list string) (b : Builder.t) : Prop :=
  fresh_instrumented cspgo s b
  /\ Builder.targets b = list_of_final
  /\ Builder.projects b = list_of_final
  /\ Builder.build_targets b
     = [if Args.full_toolchain (Stages.args s) then "all" else "distribution"]
  /\ Builder.check_targets b
     = (if Py.mem "llvm" l then Args.check_targets (Stages.args s) else Some []).

(** The calls on builders, with the builder each is made on. *)
Definition builder_calls (evs : list Event) : list (string * Builder.t) :=
  omap (fun e => match e with
                 | check_dependencies v => Some ("check_dependencies", view_builder v)
                 | configure v => Some ("configure", view_builder v)
                 | build v => Some ("build", view_builder v)
                 | show_install_info v => Some ("show_install_info", view_builder v)
                 | generate_profdata v => Some ("generate_profdata", view_builder v)
                 | _ => None
                 end) evs.

(** The tools of the builder of the LLVM workload: those of the
    instrumented stage, with the table generators of the bootstrap stage
    unless the toolchain is a full one. *)
Definition llvm_workload_tools (cspgo : bool) (s : Stages.t) : Tools.t :=
  let t := Tools.new (StageTools (Py.path_join (instrumentation_dir_of cspgo s) "bin")) in
  if Args.full_toolchain (Stages.args s) then t
  else Tools.set_llvm_tblgen
         (Some (Py.path_join (Stages.bootstrap_dir s) "bin/llvm-tblgen"))
         (Tools.set_clang_tblgen
            (Some (Py.path_join (Stages.bootstrap_dir s) "bin/clang-tblgen")) t).

Definition profiling_dir_of (cspgo : bool) (s : Stages.t) : string :=
  if cspgo then Stages.cspgo_profiling_dir s else Stages.profiling_dir s.

(** How the builder of the LLVM workload is seen at its calls. *)
Definition llvm_workload_call (cspgo : bool) (s : Stages.t) (e : Event) : Prop :=
  forall v, match e with configure v | build v => Some v | _ => None end = Some v ->
    Builder.cls (view_builder v) = Stages.def_llvm_builder_cls s
    /\ Builder.build (view_builder v) = Some (profiling_dir_of cspgo s)
    /\ view_tools v = Some (llvm_workload_tools cspgo s)
    /\ view_targets v = Stages.final_targets s
    /\ view_projects v = Stages.final_projects s.

(** The profile the final stage is built with: that of the instrumented
    stage the arguments end with. *)
Definition final_profile (env : Environment) (a : Args.t) (build_folder : string) : string :=
  Py.path_join
    (profiles_output_path env
       (Py.path_join build_folder
          (if Args.cspgo a then "cspgo_instrumentation" else "instrumentation")))
    (final_name env (instrumented_cls (Args.cspgo a) (Args.full_toolchain a))).

(** A call on the default final builder, the object of identity 0, finds
    the profile [P] in its cmake defines. *)
Definition final_profiled (P : string) (e : Event) : Prop :=
  forall v, final_call e = Some v -> Builder.oid (view_builder v) = 0 ->
            Builder.cmake_defines (view_builder v) !! "LLVM_PROFDATA_FILE" = Some P.

(** The orchestrator's folders and identities. *)
Definition folders_inv (a : Args.t) (bf : string) (s : Stages.t) : Prop :=
  Stages.args s = a
  /\ Builder.oid (Stages.final s) = 0
  /\ 1 <= Stages.fresh s
  /\ Stages.instrumentation_dir s = Py.path_join bf "instrumentation"
  /\ Stages.cspgo_instrumentation_dir s = Py.path_join bf "cspgo_instrumentation".

(** An instrumented builder of the plain or the context-sensitive stage. *)
Definition instrumented_for (a : Args.t) (bf : string) (c : bool) (i : Builder.t) : Prop :=
  Builder.build i
  = Some (Py.path_join bf (if c then "cspgo_instrumentation" else "instrumentation"))
  /\ Builder.cls i = instrumented_cls c (Args.full_toolchain a)
  /\ 1 <= Builder.oid i.

(** The retained builder, if any, is that of the stage [c], and it is
    retained in a run of all stages only. *)
Definition retained_inv (a : Args.t) (bf : string) (c : bool) (s : Stages.t) : Prop :=
  folders_inv a bf s
  /\ match Stages.instrumented s with
     | Some i => instrumented_for a bf c i /\ Args.stage a = None
     | None => True
     end.

(** The orchestrator at the final stage of a PGO build. *)
Definition profiled_inv (a : Args.t) (bf : string) (s : Stages.t) : Prop :=
  folders_inv a bf s
  /\ exists i, Stages.instrumented s = Some i /\ instrumented_for a bf (Args.cspgo a) i.

(** The two hazards of BOLT in instrumentation mode [__init__] warns of. *)
Definition bolt_crash_hazard (env : Environment) (a : Args.t) (llvm_folder : string) : bool :=
  truthy_list (Args.pgo a) && negb (Args.assertions a)
  && negb (path_exists env (Py.path_join llvm_folder "bolt/lib/Passes/ValidateMemRefs.cpp")).

Definition bolt_machine_hazard (env : Environment) : bool :=
  negb (String.eqb (platform_machine env) "x86_64").

(** BOLT has to instrument: it is requested and perf cannot be used. *)
Definition bolt_instruments (env : Environment) (a : Args.t) : bool :=
  Args.bolt a && negb (can_use_perf env).

(** The subfolders of the build folder a builder may be built in, by its
    class and, for the default class, by whether it is the final builder
    (the object of identity 0) or the builder of an LLVM workload. *)
Definition stage_folders (c : BuilderClass) (oid : nat) : list string :=
  match c with
  | LLVMBootstrapBuilder => ["bootstrap"]
  | LLVMInstrumentedBuilder | LLVMSlimInstrumentedBuilder => ["instrumentation"]
  | LLVMCSPGOInstrumentedBuilder | LLVMSlimCSPGOInstrumentedBuilder =>
      ["cspgo_instrumentation"]
  | LLVMBuilder | LLVMSlimBuilder =>
      if Nat.eqb oid 0 then ["final"] else ["profiling"; "cspgo_profiling"]
  end.

(** The builder is built from the LLVM source [src], in a subfolder of [bf]
    of its stage. *)
Definition placed (bf src : string) (b : Builder.t) : Prop :=
  Builder.source b = Some src
  /\ exists name, In name (stage_folders (Builder.cls b) (Builder.oid b))
                  /\ Builder.build b = Some (Py.path_join bf name).

Definition in_stage_folder (bf src : string) (e : Event) : Prop :=
  forall v, method_view e = Some v -> placed bf src (view_builder v).

Definition is_default_cls (c : BuilderClass) : bool :=
  match c with LLVMBuilder | LLVMSlimBuilder => true | _ => false end.

(** The folders the orchestrator holds, and the builders it keeps. *)
Definition placement_inv (a : Args.t) (bf src : string) (s : Stages.t) : Prop :=
  Stages.args s = a
  /\ Stages.llvm_folder s = src
  /\ (Stages.bootstrap_dir s = Py.path_join bf "bootstrap"
      /\ Stages.instrumentation_dir s = Py.path_join bf "instrumentation"
      /\ Stages.cspgo_instrumentation_dir s = Py.path_join bf "cspgo_instrumentation"
      /\ Stages.profiling_dir s = Py.path_join bf "profiling"
      /\ Stages.cspgo_profiling_dir s = Py.path_join bf "cspgo_profiling"
      /\ Stages.final_dir s = Py.path_join bf "final")
  /\ (Builder.oid (Stages.final s) = 0
      /\ 1 <= Stages.fresh s
      /\ is_default_cls (Stages.def_llvm_builder_cls s) = true
      /\ is_default_cls (Builder.cls (Stages.final s)) = true)
  /\ match Stages.instrumented s with
     | Some i => placed bf src i
     | None => True
     end.

(** A method call on a builder that is not a bootstrap builder finds the
    compiler flags defined and the build type [t]. *)
Definition past_bootstrap_defines (t : BuildType) (e : Event) : Prop :=
  forall v, method_view e = Some v ->
    is_bootstrap_cls (Builder.cls (view_builder v)) = false ->
    is_Some (Builder.cmake_defines (view_builder v) !! "CMAKE_C_FLAGS")
    /\ is_Some (Builder.cmake_defines (view_builder v) !! "CMAKE_CXX_FLAGS")
    /\ Builder.cmake_defines (view_builder v) !! "CMAKE_BUILD_TYPE"
       = Some (build_type_str t).

(** What [final_step] does with the final builder in a build without
    bootstrap: every configure, build and install call is on the
    orchestrator's final builder, whose tools are by then the host's tools
    object; and when the operation does not end with an exception, it has
    checked the dependencies, configured, built and installed, in this
    order, and the orchestrator keeps the builder with the host's tools. *)
Definition final_configured_on_host (s : Stages.t)
    (r : Stages.t * list Event * Outcome unit) : Prop :=
  Forall (fun e => forall v, final_call e = Some v ->
                     Builder.oid (view_builder v) = Builder.oid (Stages.final s)
                     /\ Builder.tools (view_builder v) = tools_host
                     /\ has_host_tools v = true)
         (events_of r)
  /\ ((forall x, outcome_of r <> Raise x) ->
      methods_called (events_of r)
      = ["check_dependencies"; "configure"; "build"; "show_install_info"]
      /\ Builder.tools (Stages.final (state_of r)) = tools_host).

(** * Properties *)

(** ** The model on concrete inputs *)

Example py_replace_kernel : Py.replace "kernel-" "" "kernel-defconfig-slim" = "defconfig-slim".
Proof. reflexivity. Qed.

Example py_split_slim : Py.split "-" "defconfig-slim" = ["defconfig"; "slim"].
Proof. reflexivity. Qed.

Example py_str_11 : Py.str 11 = "11".
Proof. reflexivity. Qed.

Example py_tuple_lt : Py.tuple_lt [5; 19; 0]%N [6; 0; 0]%N = true.
Proof. reflexivity. Qed.

Example default_run_stages :
  entered (run_events (main Sample.env (Sample.args None false false false None)
                            Sample.root))
  = [op_bootstrap; op_final_step].
Proof. vm_compute. reflexivity. Qed.

Example pgo_run_stages :
  entered (run_events (main Sample.env (Sample.args (Some ["llvm"]) true false false None)
                            Sample.root))
  = [op_bootstrap; op_instrumentation false; op_profiling false;
     op_instrumentation true; op_profiling true; op_final_step].
Proof. vm_compute. reflexivity. Qed.

Example reconcile_slim_first :
  reconcile (kernel_pgo_targets ["kernel-defconfig-slim"; "kernel-defconfig"])
  = (["defconfig-slim"], ["defconfig"]).
Proof. reflexivity. Qed.

Example reconcile_full_first :
  reconcile (kernel_pgo_targets ["kernel-defconfig"; "kernel-defconfig-slim"])
  = (["defconfig-slim"], ["defconfig"]).
Proof. reflexivity. Qed.

(** A removal in front of the index makes the iterator step over the next
    entry: here [allmodconfig-slim] is never looked at and both forms stay. *)
Example reconcile_skips_an_entry :
  reconcile (kernel_pgo_targets
               ["kernel-defconfig"; "kernel-defconfig-slim";
                "kernel-allmodconfig-slim"; "kernel-allmodconfig"])
  = (["defconfig-slim"; "allmodconfig-slim"; "allmodconfig"], ["defconfig"]).
Proof. reflexivity. Qed.

(** ** Reasoning about programs *)

Section WP.

Context {S : Type}.

Lemma wp_eq {A} (m : Prog S A) (s : S) Q :
  wp m s Q <-> Q (state_of (m s)) (events_of (m s)) (outcome_of (m s)).
Proof. split; [intros [H]; exact H | apply wp_intro]. Qed.

Lemma wp_ret {A} (a : A) (s : S) Q : Q s [] (Normal a) -> wp (ret a) s Q.
Proof. intros H. constructor. exact H. Qed.

Lemma wp_get (s : S) Q : Q s [] (Normal s) -> wp get s Q.
Proof. intros H. constructor. exact H. Qed.

Lemma wp_modify (f : S -> S) (s : S) Q : Q (f s) [] (Normal tt) -> wp (modify f) s Q.
Proof. intros H. constructor. exact H. Qed.

Lemma wp_emit (e : Event) (s : S) Q : Q s [e] (Normal tt) -> wp (emit e) s Q.
Proof. intros H. constructor. exact H. Qed.

Lemma wp_raise {A} (x : Exn) (s : S) (Q : S -> list Event -> Outcome A -> Prop) :
  Q s [] (Raise x) -> wp (raise x) s Q.
Proof. intros H. constructor. exact H. Qed.

Lemma wp_sys_exit {A} (c : Z) (s : S) (Q : S -> list Event -> Outcome A -> Prop) :
  Q s [] (SystemExit c) -> wp (sys_exit c) s Q.
Proof. intros H. constructor. exact H. Qed.

Lemma wp_bind {A B} (m : Prog S A) (k : A -> Prog S B) (s : S) Q :
  wp m s (fun s1 e1 o1 =>
            match o1 with
            | Normal a => wp (k a) s1 (fun s2 e2 o2 => Q s2 (e1 ++ e2) o2)
            | SystemExit c => Q s1 e1 (SystemExit c)
            | Raise x => Q s1 e1 (Raise x)
            end) ->
  wp (bind m k) s Q.
Proof.
  intros [H]. apply wp_intro. revert H.
  unfold bind, state_of, events_of, outcome_of.
  destruct (m s) as [[s1 e1] [a|c|x]]; simpl; try exact (fun H => H).
  intros [H]. revert H. unfold state_of, events_of, outcome_of.
  destruct (k a s1) as [[s2 e2] o2]; simpl. exact (fun H => H).
Qed.

Lemma wp_mono {A} (m : Prog S A) (s : S) (Q Q' : S -> list Event -> Outcome A -> Prop) :
  wp m s Q -> (forall s' e o, Q s' e o -> Q' s' e o) -> wp m s Q'.
Proof. intros [H] HQ. apply wp_intro, HQ, H. Qed.

(** The binds of the primitive steps, with the continuation's postcondition
    already in place. *)
Lemma wp_bind_ret {A B} (a : A) (k : A -> Prog S B) (s : S) Q :
  wp (k a) s Q -> wp (bind (ret a) k) s Q.
Proof. intros H. apply wp_bind, wp_ret. exact H. Qed.

Lemma wp_bind_get {B} (k : S -> Prog S B) (s : S) Q :
  wp (k s) s Q -> wp (bind get k) s Q.
Proof. intros H. apply wp_bind, wp_get. exact H. Qed.

Lemma wp_bind_modify {B} (f : S -> S) (k : unit -> Prog S B) (s : S) Q :
  wp (k tt) (f s) Q -> wp (bind (modify f) k) s Q.
Proof. intros H. apply wp_bind, wp_modify. exact H. Qed.

Lemma wp_bind_emit {B} (e : Event) (k : unit -> Prog S B) (s : S) Q :
  wp (k tt) s (fun s2 e2 o2 => Q s2 (e :: e2) o2) -> wp (bind (emit e) k) s Q.
Proof. intros H. apply wp_bind, wp_emit. exact H. Qed.

Lemma wp_bind_raise {A B} (x : Exn) (k : A -> Prog S B) (s : S) Q :
  Q s [] (Raise x) -> wp (bind (raise x) k) s Q.
Proof. intros H. apply wp_bind, wp_raise. exact H. Qed.

Lemma wp_bind_sys_exit {A B} (c : Z) (k : A -> Prog S B) (s : S) Q :
  Q s [] (SystemExit c) -> wp (bind (sys_exit c) k) s Q.
Proof. intros H. apply wp_bind, wp_sys_exit. exact H. Qed.

Lemma bind_assoc {A B C} (m : Prog S A) (k : A -> Prog S B) (k' : B -> Prog S C) (s : S) :
  bind (bind m k) k' s = bind m (fun a => bind (k a) k') s.
Proof.
  unfold bind. destruct (m s) as [[s1 e1] [a|c|x]]; try reflexivity.
  destruct (k a s1) as [[s2 e2] [b|c|x]]; try reflexivity.
  destruct (k' b s2) as [[s3 e3] o3]. now rewrite app_assoc.
Qed.

Lemma wp_bind_assoc {A B C} (m : Prog S A) (k : A -> Prog S B) (k' : B -> Prog S C)
    (s : S) Q :
  wp (bind m (fun a => bind (k a) k')) s Q -> wp (bind (bind m k) k') s Q.
Proof. intros [H]. apply wp_intro. now rewrite bind_assoc. Qed.

Lemma wp_bind_with {A B} (m : Prog S A) (k : A -> Prog S B) (s : S) (P : S -> list Event -> Outcome A -> Prop) Q :
  wp m s P ->
  (forall s1 e1 o1, P s1 e1 o1 ->
     match o1 with
     | Normal a => wp (k a) s1 (fun s2 e2 o2 => Q s2 (e1 ++ e2) o2)
     | SystemExit c => Q s1 e1 (SystemExit c)
     | Raise x => Q s1 e1 (Raise x)
     end) ->
  wp (bind m k) s Q.
Proof.
  intros Hm HP. apply wp_bind. apply (wp_mono _ _ _ _ Hm). exact HP.
Qed.

End WP.

(** ** Full and slim requests for the same configuration *)

Section Reconcile.

Lemma mem_In (x : string) (l : list string) : Py.mem x l = true <-> In x l.
Proof.
  unfold Py.mem. rewrite existsb_exists. split.
  - intros [y [Hy E]]. apply String.eqb_eq in E. now subst.
  - intros H. exists x. split; [assumption | apply String.eqb_refl].
Qed.

Lemma mem_false (x : string) (l : list string) : Py.mem x l = false <-> ~ In x l.
Proof.
  rewrite <- mem_In. destruct (Py.mem x l); split; intros; congruence.
Qed.

Lemma remove_In (x t : string) (l : list string) : In t (Py.remove x l) -> In t l.
Proof.
  induction l as [|y l IH]; simpl; [tauto|].
  destruct (String.eqb x y); simpl; intuition.
Qed.

Lemma remove_other (x t : string) (l : list string) :
  t <> x -> In t l -> In t (Py.remove x l).
Proof.
  intros Hne. induction l as [|y l IH]; simpl; [tauto|].
  destruct (String.eqb_spec x y) as [->|Hxy]; simpl; intuition congruence.
Qed.

Lemma remove_NoDup (x : string) (l : list string) : List.NoDup l -> ~ In x (Py.remove x l).
Proof.
  induction 1 as [|y l Hy Hl IH]; simpl; [tauto|].
  destruct (String.eqb_spec x y) as [->|Hxy]; simpl; [assumption|].
  intros [E|H]; [congruence | tauto].
Qed.

(** A turn of the loop does something only at a slim entry whose full form
    is in the list. *)
Definition idle (l : list string) (t : string) : Prop :=
  Py.contains "slim" t = true -> Py.mem (hd EmptyString (Py.split "-" t)) l = false.

(** On a list with no such entry the loop changes nothing, from any index. *)
Lemma reconcile_loop_idle (l : list string) :
  (forall t, In t l -> idle l t) ->
  forall fuel i, reconcile_loop fuel i l = (l, []).
Proof.
  intros Hidle. induction fuel as [|fuel IH]; intros i; simpl; [reflexivity|].
  destruct (nth_error l i) as [t|] eqn:Ht; [|reflexivity].
  apply nth_error_In in Ht.
  destruct (Py.contains "slim" t) eqn:Hs; simpl; [|apply IH].
  rewrite (Hidle t Ht Hs). apply IH.
Qed.

(** The first entry at which the loop does something: the full form goes,
    and if nothing is left to do afterwards, that is the whole effect. *)
Lemma reconcile_loop_first (l : list string) (j : nat) (s X : string) :
  nth_error l j = Some s ->
  Py.contains "slim" s = true ->
  hd EmptyString (Py.split "-" s) = X ->
  Py.mem X l = true ->
  (forall k t, k < j -> nth_error l k = Some t -> idle l t) ->
  (forall t, In t (Py.remove X l) -> idle (Py.remove X l) t) ->
  forall fuel i, i <= j -> j < i + fuel ->
  reconcile_loop fuel i l = (Py.remove X l, [X]).
Proof.
  intros Hj Hs HX Hmem Hbefore Hafter.
  induction fuel as [|fuel IH]; intros i Hij Hfuel; [lia|].
  simpl. destruct (Nat.eq_dec i j) as [->|Hne].
  - rewrite Hj, Hs, HX, Hmem. simpl.
    now rewrite (reconcile_loop_idle _ Hafter).
  - assert (Hlt : i < j) by lia.
    destruct (nth_error l i) as [t|] eqn:Ht.
    + destruct (Py.contains "slim" t) eqn:Hst; simpl.
      * rewrite (Hbefore i t Hlt Ht Hst). apply IH; lia.
      * apply IH; lia.
    + apply nth_error_None in Ht.
      assert (j < length l) by (apply nth_error_Some; congruence). lia.
Qed.

(** The kernel targets of a list of valid choices. *)
Definition kernel_targets : list string :=
  ["defconfig"; "allmodconfig"; "allyesconfig";
   "defconfig-slim"; "allmodconfig-slim"; "allyesconfig-slim"].

Lemma kernel_pgo_targets_cons (c : string) (pgo : list string) :
  kernel_pgo_targets (c :: pgo) = kernel_pgo_targets [c] ++ kernel_pgo_targets pgo.
Proof.
  unfold kernel_pgo_targets. simpl. destruct (Py.contains "kernel-" c); reflexivity.
Qed.

Ltac choice_cases H :=
  first [ destruct H as [<-|[<-|[<-|[<-|[<-|[<-|[<-|[]]]]]]]]
        | destruct H as [<-|[<-|[<-|[<-|[<-|[<-|[]]]]]]] ].

Lemma kernel_pgo_targets_In (pgo : list string) (t : string) :
  Forall (fun c => In c pgo_choices) pgo ->
  In t (kernel_pgo_targets pgo) <->
  In t kernel_targets /\ In (full_choice t) pgo.
Proof.
  induction 1 as [|c pgo Hc Hpgo IH].
  - simpl. tauto.
  - rewrite kernel_pgo_targets_cons, in_app_iff, IH. clear IH.
    assert (Hone : In t (kernel_pgo_targets [c]) <->
                   In t kernel_targets /\ full_choice t = c).
    { unfold pgo_choices in Hc. choice_cases Hc; vm_compute;
        (split; [intros H;
                 solve [destruct H
                       | destruct H as [<-|[]]; split; [tauto | reflexivity]]
                | intros [_ E]; inversion E; auto]). }
    rewrite Hone. simpl. intuition.
Qed.

Lemma kernel_pgo_targets_NoDup (pgo : list string) :
  Forall (fun c => In c pgo_choices) pgo ->
  List.NoDup pgo -> List.NoDup (kernel_pgo_targets pgo).
Proof.
  intros Hall. induction 1 as [|c pgo Hc Hnd IH].
  - constructor.
  - inversion Hall as [|? ? Hch Hall']; subst.
    rewrite kernel_pgo_targets_cons.
    specialize (IH Hall').
    assert (Hone : kernel_pgo_targets [c] = []
                   \/ exists t, kernel_pgo_targets [c] = [t] /\ full_choice t = c).
    { unfold pgo_choices in Hch. choice_cases Hch; vm_compute;
        solve [left; reflexivity | right; eexists; split; reflexivity]. }
    destruct Hone as [->|[t [-> E]]]; simpl; [assumption|].
    constructor; [|assumption].
    rewrite (kernel_pgo_targets_In _ _ Hall'). intros [_ Hin]. congruence.
Qed.

(** A slim kernel target names its configuration before the dash. *)
Lemma slim_target (t : string) :
  In t kernel_targets -> Py.contains "slim" t = true ->
  exists Y, In Y kernel_configs /\ t = (Y ++ "-slim")%string
            /\ hd EmptyString (Py.split "-" t) = Y.
Proof.
  intros Ht. unfold kernel_targets in Ht. choice_cases Ht; vm_compute; intros Hs;
    try discriminate Hs.
  - exists "defconfig". vm_compute. tauto.
  - exists "allmodconfig". vm_compute. tauto.
  - exists "allyesconfig". vm_compute. tauto.
Qed.

End Reconcile.

Lemma slim_config_target (X : string) :
  In X kernel_configs ->
  Py.contains "slim" (X ++ "-slim") = true
  /\ hd EmptyString (Py.split "-" (X ++ "-slim")) = X
  /\ (X ++ "-slim")%string <> X
  /\ In X kernel_targets /\ In (X ++ "-slim")%string kernel_targets.
Proof.
  intros [<-|[<-|[<-|[]]]]; vm_compute; repeat split; try discriminate; tauto.
Qed.

(** What the loop does when exactly one configuration is requested in both
    forms. *)
Lemma reconcile_one_pair (pgo : list string) (X : string) :
  Forall (fun c => In c pgo_choices) pgo ->
  List.NoDup pgo ->
  In X kernel_configs ->
  In (full_choice X) pgo ->
  In (slim_choice X) pgo ->
  (forall Y, In Y kernel_configs -> Y <> X ->
             In (full_choice Y) pgo -> ~ In (slim_choice Y) pgo) ->
  reconcile (kernel_pgo_targets pgo) = (Py.remove X (kernel_pgo_targets pgo), [X]).
Proof.
  intros Hall Hnd HX Hfull Hslim Honly.
  pose proof (kernel_pgo_targets_NoDup pgo Hall Hnd) as HndT.
  pose proof (kernel_pgo_targets_In pgo) as HT.
  destruct (slim_config_target X HX) as (Hs & Hhd & Hne & HXk & HXsk).
  set (T := kernel_pgo_targets pgo) in *.
  assert (HXT : In X T) by (apply HT; auto).
  assert (HXsT : In (X ++ "-slim")%string T) by (apply HT; auto).
  assert (Hother : forall t, In t T -> Py.contains "slim" t = true ->
                     hd EmptyString (Py.split "-" t) <> X ->
                     ~ In (hd EmptyString (Py.split "-" t)) T).
  { intros t Ht Hst HneX HY.
    destruct (slim_target t (proj1 (proj1 (HT t Hall) Ht)) Hst) as (Y & HYc & -> & HhdY).
    rewrite HhdY in *.
    apply (Honly Y HYc HneX).
    - apply (HT Y Hall). assumption.
    - apply (HT _ Hall) in Ht. apply Ht. }
  destruct (In_nth_error _ _ HXsT) as [j Hj].
  unfold reconcile.
  apply (reconcile_loop_first T j (X ++ "-slim") X); auto.
  - apply mem_In. assumption.
  - intros k t Hk Hkt Hst. apply mem_false.
    apply Hother; [eapply nth_error_In; eassumption | assumption |].
    intros HeqX.
    destruct (slim_target t (proj1 (proj1 (HT t Hall) (nth_error_In _ _ Hkt))) Hst)
      as (Y & _ & -> & HhdY).
    rewrite HhdY in HeqX. subst Y.
    assert (k = j); [|lia].
    apply (proj1 (List.NoDup_nth_error T) HndT); [|congruence].
    apply nth_error_Some. congruence.
  - intros t Ht Hst. apply mem_false. intros Hin.
    destruct (String.string_dec (hd EmptyString (Py.split "-" t)) X) as [E|E].
    + rewrite E in Hin. revert Hin. apply remove_NoDup. assumption.
    + apply (Hother t); auto; eapply remove_In; eassumption.
  - lia.
  - apply nth_error_Some. congruence.
Qed.

(** C1, as the code has it: when the PGO workloads (valid choices, each given
    once) contain both [kernel-X] and [kernel-X-slim] for exactly one
    configuration [X], the loop of [profiling] warns once, about [X], and
    drops the full variant: the kernel workloads left are the requested ones
    without [X], so the slim form is the one retained. *)
Theorem C1_full_dropped_slim_retained (pgo : list string) (X : string) :
  Forall (fun c => In c pgo_choices) pgo ->
  List.NoDup pgo ->
  In X kernel_configs ->
  In (full_choice X) pgo ->
  In (slim_choice X) pgo ->
  (forall Y, In Y kernel_configs -> Y <> X ->
             In (full_choice Y) pgo -> ~ In (slim_choice Y) pgo) ->
  let r := reconcile (kernel_pgo_targets pgo) in
  snd r = [X]
  /\ fst r = Py.remove X (kernel_pgo_targets pgo)
  /\ In (X ++ "-slim")%string (fst r)
  /\ ~ In X (fst r).
Proof.
  intros Hall Hnd HX Hfull Hslim Honly r. subst r.
  rewrite (reconcile_one_pair pgo X Hall Hnd HX Hfull Hslim Honly). simpl.
  destruct (slim_config_target X HX) as (_ & _ & Hne & HXk & HXsk).
  repeat split.
  - apply remove_other; [assumption|].
    apply (kernel_pgo_targets_In pgo _ Hall). auto.
  - apply remove_NoDup. apply kernel_pgo_targets_NoDup; assumption.
Qed.

Lemma C1_full_dropped_slim_retained_witness :
  let pgo := ["kernel-defconfig-slim"; "kernel-defconfig"; "llvm"] in
  let r := reconcile (kernel_pgo_targets pgo) in
  snd r = ["defconfig"]
  /\ fst r = Py.remove "defconfig" (kernel_pgo_targets pgo)
  /\ In "defconfig-slim" (fst r)
  /\ ~ In "defconfig" (fst r).
Proof.
  apply (C1_full_dropped_slim_retained
           ["kernel-defconfig-slim"; "kernel-defconfig"; "llvm"] "defconfig").
  - repeat constructor; simpl; tauto.
  - repeat constructor; simpl; intuition discriminate.
  - simpl. tauto.
  - simpl. tauto.
  - simpl. tauto.
  - intros Y [<-|[<-|[<-|[]]]] Hne; simpl; intuition (try discriminate; congruence).
Defined.

(** The configuration of the specification's scenario: the slim form is the
    one that reaches the kernel builder, not the full one. *)
Lemma C1_counterexample :
  let both := ["kernel-defconfig-slim"; "kernel-defconfig"] in
  let full_only := ["kernel-defconfig"] in
  fst (reconcile (kernel_pgo_targets both)) = ["defconfig-slim"]
  /\ fst (reconcile (kernel_pgo_targets full_only)) = ["defconfig"]
  /\ kernel_workloads_of both = [[("defconfig", ["X86"])]]
  /\ kernel_workloads_of full_only = [[("defconfig", ["AArch64"; "ARM"; "X86"])]]
  /\ kernel_workloads_of both <> kernel_workloads_of full_only.
Proof.
  vm_compute. repeat split; discriminate.
Qed.

(** ** What every stage operation does to the flow of control *)

Lemma ends_with_one (e : Event) : ends_with [e] e.
Proof. exists []. reflexivity. Qed.

Lemma ends_with_cons (x e : Event) (l : list Event) : ends_with l e -> ends_with (x :: l) e.
Proof. intros [pre ->]. exists (x :: pre). reflexivity. Qed.

Lemma ends_with_app (l' l : list Event) (e : Event) : ends_with l e -> ends_with (l' ++ l) e.
Proof. intros [pre ->]. exists (l' ++ pre). now rewrite app_assoc. Qed.

Lemma entered_app (l l' : list Event) : entered (l ++ l') = entered l ++ entered l'.
Proof. unfold entered. apply omap_app. Qed.

Lemma entered_none (l : list Event) : forallb (fun e => negb (is_enter e)) l = true -> entered l = [].
Proof.
  induction l as [|e l IH]; [reflexivity|]. simpl. intros H.
  apply andb_true_iff in H. destruct H as [He Hl].
  destruct e; try discriminate He; apply IH, Hl.
Qed.

Lemma entered_cons_enter (op : StageOp) (l : list Event) :
  entered (enter op :: l) = op :: entered l.
Proof. reflexivity. Qed.

Lemma no_enter_warnings (l : list string) :
  forallb (fun e => negb (is_enter e)) (map full_slim_warning l) = true.
Proof. induction l; [reflexivity | assumption]. Qed.

Lemma no_build_warnings (l : list string) :
  existsb is_build (map full_slim_warning l) = false.
Proof. induction l; [reflexivity | assumption]. Qed.

Lemma for_each_emit {A} (f : A -> Event) (l : list A) (s : Stages.t) :
  for_each (fun x => emit (f x)) l s = (s, map f l, Normal tt).
Proof.
  induction l as [|x l IH]; [reflexivity|].
  simpl. unfold bind at 1. simpl. rewrite IH. reflexivity.
Qed.

Lemma wp_bind_for_each_emit {A B} (f : A -> Event) (l : list A)
    (k : unit -> Prog Stages.t B) (s : Stages.t) Q :
  wp (k tt) s (fun s2 e2 o2 => Q s2 (map f l ++ e2) o2) ->
  wp (bind (for_each (fun x => emit (f x)) l) k) s Q.
Proof.
  intros H. apply wp_bind. constructor. rewrite for_each_emit. exact H.
Qed.

(** Record projections of updated records, and the pure steps of the
    orchestrator that only build records. *)
Ltac rec_simpl :=
  cbn [Builder.oid Builder.cls Builder.show_commands Builder.quiet_cmake Builder.source
       Builder.build Builder.install Builder.cmake_defines Builder.tools Builder.targets
       Builder.projects Builder.build_targets Builder.check_targets Builder.install_targets
       Builder.ccache Builder.bolt Builder.bolt_builder
       Builder.set_show_commands Builder.set_quiet_cmake Builder.set_source
       Builder.set_build Builder.set_install Builder.set_cmake_defines Builder.set_tools
       Builder.set_targets Builder.set_projects Builder.set_build_targets
       Builder.set_check_targets Builder.set_install_targets Builder.set_ccache
       Builder.set_bolt Builder.set_bolt_builder
       Stages.args Stages.lsm Stages.instrumented Stages.build_folder Stages.bootstrap_dir
       Stages.instrumentation_dir Stages.cspgo_instrumentation_dir Stages.profiling_dir
       Stages.cspgo_profiling_dir Stages.final_dir Stages.llvm_folder Stages.host_tools
       Stages.def_llvm_builder_cls Stages.final Stages.final_targets Stages.final_projects
       Stages.common_cmake_defines Stages.fresh
       Stages.set_instrumented Stages.set_host_tools Stages.set_final
       Stages.set_final_projects Stages.set_common_cmake_defines Stages.set_fresh
       Tools.origin Tools.clang_tblgen Tools.llvm_tblgen Tools.llvm_bolt Tools.merge_fdata
       Tools.perf2bolt Tools.new Tools.set_clang_tblgen Tools.set_llvm_tblgen
       Tools.set_llvm_bolt Tools.set_merge_fdata Tools.set_perf2bolt
       view view_builder view_tools view_targets view_projects
       deref_tools deref_targets deref_projects
       configure_llvm_builder new_builder default negb andb orb] in *.

Ltac wp_unfold :=
  unfold bootstrap, instrumentation, profiling, final_step, stage_call, build_stage,
    bootstrap_body, instrumentation_body, profiling_body, final_step_body,
    setup_instrumentation, construct, call, projects_append, tools_assign, in_pgo,
    update_defines, when, run_pgo_builder.

(** A test inside the value that is tested: the innermost one is split first. *)
Ltac no_test_in d :=
  lazymatch d with
  | context [if _ then _ else _] => fail
  | context [match _ with _ => _ end] => fail
  | _ => idtac
  end.

Ltac split_inner c :=
  match c with
  | context [if ?d then _ else _] => no_test_in d; destruct d eqn:?
  | context [match ?d with _ => _ end] => no_test_in d; destruct d eqn:?
  end.

Ltac wp_case c :=
  first [ match goal with H : c = _ |- _ => rewrite H end
        | split_inner c
        | destruct c eqn:? ].

Ltac wp_test :=
  rec_simpl;
  lazymatch goal with
  | |- wp (bind (if ?c then _ else _) _) _ _ => wp_case c
  | |- wp (bind (match ?c with _ => _ end) _) _ _ => wp_case c
  | |- wp (if ?c then _ else _) _ _ => wp_case c
  | |- wp (match ?c with _ => _ end) _ _ => wp_case c
  | |- _ => idtac
  end.

Ltac wp_step :=
  lazymatch goal with
  | |- wp ((fun _ => _) _) _ _ => cbv beta
  | |- wp (let _ := _ in _) _ _ => cbv zeta
  | |- wp (bind ((fun _ => _) _) _) _ _ => cbv beta
  | |- wp (bind (let _ := _ in _) _) _ _ => cbv zeta
  | |- wp (bind (ret _) _) _ _ => apply wp_bind_ret
  | |- wp (bind get _) _ _ => apply wp_bind_get
  | |- wp (bind (modify _) _) _ _ => apply wp_bind_modify
  | |- wp (bind (emit _) _) _ _ => apply wp_bind_emit
  | |- wp (bind (raise _) _) _ _ => apply wp_bind_raise
  | |- wp (bind (sys_exit _) _) _ _ => apply wp_bind_sys_exit
  | |- wp (bind (bind _ _) _) _ _ => apply wp_bind_assoc
  | |- wp (bind (for_each (fun x => emit _) _) _) _ _ => apply wp_bind_for_each_emit
  | |- wp (bind (for_each _ ?l) _) _ _ =>
      lazymatch l with
      | context [match ?c with _ => _ end] => destruct c eqn:?
      | _ => idtac
      end;
      progress cbn [app for_each]
  | |- wp (bind (if _ then _ else _) _) _ _ => wp_test
  | |- wp (bind (match _ with _ => _ end) _) _ _ => wp_test
  | |- wp (ret _) _ _ => apply wp_ret
  | |- wp get _ _ => apply wp_get
  | |- wp (modify _) _ _ => apply wp_modify
  | |- wp (emit _) _ _ => apply wp_emit
  | |- wp (raise _) _ _ => apply wp_raise
  | |- wp (sys_exit _) _ _ => apply wp_sys_exit
  | |- wp (if _ then _ else _) _ _ => wp_test
  | |- wp (match _ with _ => _ end) _ _ => wp_test
  | |- wp _ _ _ => progress wp_unfold
  end.

Ltac wp_run := repeat wp_step; cbv beta; rec_simpl.

Ltac ends_tac :=
  repeat first [ apply ends_with_one | apply ends_with_cons | apply ends_with_app ].

Ltac control_leaf :=
  unfold control, done_outcome, done_notice, title;
  repeat match goal with H : truthy_opt _ = _ |- _ => rewrite H end;
  split; [eexists; split; [reflexivity|]; split; [|split]
         | split; reflexivity];
  [ cbn [forallb is_enter negb andb app];
    rewrite ?forallb_app, ?no_enter_warnings; reflexivity
  | try exact I; reflexivity
  | intros Hst; first [discriminate Hst | ends_tac] ].

Section Control.

Variable env : Environment.

Lemma bootstrap_control (s : Stages.t) :
  wp (bootstrap env) s (control op_bootstrap (Stages.args s)).
Proof. wp_run; control_leaf. Qed.

Lemma instrumentation_control (c : bool) (s : Stages.t) (l : list string) :
  Args.pgo (Stages.args s) = Some l ->
  wp (instrumentation env c) s (control (op_instrumentation c) (Stages.args s)).
Proof. intros Hpgo. wp_run; control_leaf. Qed.

Lemma profiling_control (c : bool) (s : Stages.t) (l : list string) :
  Args.pgo (Stages.args s) = Some l ->
  wp (profiling env c) s (control (op_profiling c) (Stages.args s)).
Proof. intros Hpgo. wp_run; control_leaf. Qed.

Lemma final_step_control (s : Stages.t) :
  wp (final_step env) s (control op_final_step (Stages.args s)).
Proof. wp_run; control_leaf. Qed.

Lemma setup_instrumentation_control (c : bool) (s : Stages.t) (l : list string) :
  Args.pgo (Stages.args s) = Some l ->
  wp (setup_instrumentation env c) s
     (fun s' e o => e = [] /\ (exists b, o = Normal b) /\ Stages.args s' = Stages.args s).
Proof. intros Hpgo. wp_run. repeat split. eexists; reflexivity. Qed.

End Control.

(** ** The shape of the dispatch *)

Section Dispatch.

Variable env : Environment.

Lemma control_segment op a s' e o : control op a s' e o -> segment op e.
Proof. intros [[e' (He & Hn & Hb & _)] _]. exists e'. auto. Qed.

Lemma truthy_pgo a : truthy_list (Args.pgo a) = true -> exists l, Args.pgo a = Some l.
Proof. destruct (Args.pgo a) as [l|]; [eauto | discriminate]. Qed.

(** A stage operation inside the dispatch. *)
Lemma wp_bind_stage (op : StageOp) (m : Prog Stages.t unit) (k : unit -> Prog Stages.t unit)
    (s : Stages.t) (a : Args.t) Q :
  wp m s (control op a) ->
  (forall s1 e1, Stages.args s1 = a -> segment op e1 ->
     match Args.stage a with
     | Some _ => ends_with e1 (done_notice op) -> Q s1 e1 (SystemExit 0)
     | None => wp (k tt) s1 (fun s2 e2 o2 => Q s2 (e1 ++ e2) o2)
     end) ->
  wp (bind m k) s Q.
Proof.
  intros Hm Hk. apply (wp_bind_with _ _ _ _ _ Hm).
  intros s1 e1 o1 Hc. pose proof (control_segment _ _ _ _ _ Hc) as Hseg.
  destruct Hc as [[e' (He & _ & _ & Hend)] [Ho Ha]].
  specialize (Hk s1 e1 Ha Hseg). unfold done_outcome in Ho.
  destruct (Args.stage a); simpl in Ho, Hend; subst o1.
  - apply Hk. subst e1. apply ends_with_cons, ends_with_cons, Hend. reflexivity.
  - exact Hk.
Qed.

Lemma tail_of_nil : tail_of [] [print_duration].
Proof. exists []. split; reflexivity. Qed.

Lemma tail_of_cons op ops e1 e :
  segment op e1 -> tail_of ops e -> tail_of (op :: ops) (e1 ++ e).
Proof.
  intros H1 [body [Hb ->]]. exists (e1 ++ body). split.
  - exists e1, body. auto.
  - now rewrite app_assoc.
Qed.

Lemma dispatched_normal a s' e :
  Stages.args s' = a -> Args.stage a = None -> tail_of (plan a) e ->
  dispatched a s' e (Normal tt).
Proof.
  intros Ha Hs [body [Hb ->]]. split; [assumption|]. exists body. split; [assumption|].
  rewrite Hs. auto.
Qed.

Lemma dispatched_skipped a s' x :
  Stages.args s' = a -> Args.stage a = Some x -> plan a = [] ->
  dispatched a s' [print_duration] (Normal tt).
Proof.
  intros Ha Hs Hp. split; [assumption|]. exists []. rewrite Hp, Hs. simpl. auto.
Qed.

Lemma dispatched_exit a s' x op e :
  Stages.args s' = a -> Args.stage a = Some x -> plan a = [op] ->
  segment op e -> ends_with e (done_notice op) ->
  dispatched a s' e (SystemExit 0).
Proof.
  intros Ha Hs Hp Hseg Hend. split; [assumption|]. exists e. rewrite Hp, Hs. simpl.
  split; [|auto]. exists e, []. rewrite app_nil_r. auto.
Qed.

Ltac use_args Hc :=
  cbn [Stages.args Stages.set_instrumented Stages.set_host_tools Stages.set_final
       Stages.set_final_projects Stages.set_common_cmake_defines Stages.set_fresh] in Hc;
  repeat match type of Hc with
         | context [Stages.args ?s] =>
             match goal with H : Stages.args s = _ |- _ => rewrite H in Hc end
         end.

Ltac goal_args :=
  cbn [Stages.args Stages.set_instrumented Stages.set_host_tools Stages.set_final
       Stages.set_final_projects Stages.set_common_cmake_defines Stages.set_fresh];
  repeat match goal with
         | H : Stages.args ?s = _ |- context [Stages.args ?s] => rewrite H
         end.

Ltac disp_stage op lem :=
  lazymatch goal with
  | |- wp (bind _ _) ?s _ =>
      let Hc := fresh "Hc" in
      pose proof lem as Hc; use_args Hc;
      first [ eapply (wp_bind_stage op _ _ _ _ _ Hc)
            | eapply (wp_bind_stage op _ _ _ _ _ (Hc ltac:(assumption))) ]; clear Hc;
      let s1 := fresh "s" in let e1 := fresh "e" in
      let Ha1 := fresh "Ha" in let Hseg := fresh "Hseg" in
      intros s1 e1 Ha1 Hseg;
      match goal with H : Args.stage _ = _ |- _ => rewrite H end;
      cbv beta iota
  end.

Ltac disp_setup l :=
  lazymatch goal with
  | |- wp (bind (setup_instrumentation _ ?c) _) ?s _ =>
      goal_args;
      let Hc := fresh "Hc" in
      pose proof (fun H => setup_instrumentation_control env c s l H) as Hc; use_args Hc;
      eapply (wp_bind_with _ _ _ _ _ (Hc ltac:(assumption))); clear Hc;
      let s1 := fresh "s" in let e1 := fresh "e" in let o1 := fresh "o" in
      let He := fresh "He" in let b := fresh "b" in let Hb := fresh "Hb" in
      let Ha1 := fresh "Ha" in
      intros s1 e1 o1 (He & [b Hb] & Ha1); subst e1 o1;
      cbn [app]
  end.

Ltac disp_step l :=
  lazymatch goal with
  | |- wp (bind (ret _) _) _ _ => apply wp_bind_ret
  | |- wp (bind update_defines _) _ _ => unfold update_defines; apply wp_bind_modify
  | |- wp (bind (bind _ _) _) _ _ => apply wp_bind_assoc
  | |- wp (bind get _) _ _ => apply wp_bind_get
  | |- wp (bind (modify _) _) _ _ => apply wp_bind_modify
  | |- wp (bind (emit _) _) _ _ => apply wp_bind_emit
  | |- wp (emit _) _ _ => apply wp_emit
  | |- wp ((fun _ => _) _) _ _ => cbv beta
  | |- wp (bind (if ?c then _ else _) _) _ _ => destruct c eqn:?
  | |- context [Stages.args] => progress goal_args
  | |- wp (bind (bootstrap _) _) ?s _ => disp_stage op_bootstrap (bootstrap_control env s)
  | |- wp (bind (final_step _) _) ?s _ => disp_stage op_final_step (final_step_control env s)
  | |- wp (bind (instrumentation _ ?c) _) ?s _ =>
      disp_stage (op_instrumentation c)
                 (fun H => instrumentation_control env c s l H)
  | |- wp (bind (profiling _ ?c) _) ?s _ =>
      disp_stage (op_profiling c) (fun H => profiling_control env c s l H)
  | |- wp (bind (setup_instrumentation _ _) _) _ _ => disp_setup l
  end.

Ltac plan_tac H1 H2 H3 H4 :=
  unfold plan, stage_order, enabled, runs, stage_is; cbn [List.filter];
  rewrite ?H1, ?H2, ?H3, ?H4;
  cbn [truthy_opt StageName_eqb negb andb orb map op_of List.filter].

Ltac args_tac :=
  cbn [Stages.args Stages.set_instrumented Stages.set_host_tools Stages.set_final
       Stages.set_final_projects Stages.set_common_cmake_defines Stages.set_fresh];
  assumption.

Ltac disp_leaf H1 H2 H3 H4 :=
  cbv beta;
  first
    [ eapply dispatched_skipped;
      [args_tac | eassumption | plan_tac H1 H2 H3 H4; reflexivity]
    | intros; eapply dispatched_exit;
      [args_tac | eassumption | plan_tac H1 H2 H3 H4; reflexivity
      | eassumption | eassumption]
    | eapply dispatched_normal;
      [args_tac | eassumption
      | plan_tac H1 H2 H3 H4;
        repeat (apply tail_of_cons; [assumption|]); apply tail_of_nil] ].

Lemma dispatch_shape (s : Stages.t) :
  wp (dispatch env) s (dispatched (Stages.args s)).
Proof.
  unfold dispatch. apply wp_bind_get.
  set (a := Stages.args s).
  assert (Ha : Stages.args s = a) by reflexivity. clearbody a.
  destruct (Args.build_stage1_only a) eqn:H1;
  destruct (Args.stage a) as [[]|] eqn:H2;
  destruct (truthy_list (Args.pgo a)) eqn:H3;
  destruct (Args.cspgo a) eqn:H4.
  all: unfold runs, stage_is, when; rewrite ?H1, ?H2, ?H3, ?H4;
    cbn [truthy_opt StageName_eqb negb andb orb].
  all: try (destruct (truthy_pgo a H3) as [l Hl]).
  all: first [ repeat disp_step l | repeat disp_step (@nil string) ].
  all: disp_leaf H1 H2 H3 H4.
Qed.
End Dispatch.

(** ** Construction, then dispatch *)

Section Main.

Variable env : Environment.

Ltac init_unfold :=
  unfold init, prepare_linux_source, bolt_warnings, when.

Ltac init_step :=
  lazymatch goal with
  | |- wp ((fun _ => _) _) _ _ => cbv beta
  | |- wp (let _ := _ in _) _ _ => cbv zeta
  | |- wp (bind ((fun _ => _) _) _) _ _ => cbv beta
  | |- wp (bind (let _ := _ in _) _) _ _ => cbv zeta
  | |- wp (bind (ret _) _) _ _ => apply wp_bind_ret
  | |- wp (bind (emit _) _) _ _ => apply wp_bind_emit
  | |- wp (bind (raise _) _) _ _ => apply wp_bind_raise
  | |- wp (bind (bind _ _) _) _ _ => apply wp_bind_assoc
  | |- wp (bind (if ?c then _ else _) _) _ _ => destruct c eqn:?
  | |- wp (bind (match ?c with _ => _ end) _) _ _ => destruct c eqn:?
  | |- wp (ret _) _ _ => apply wp_ret
  | |- wp (emit _) _ _ => apply wp_emit
  | |- wp (raise _) _ _ => apply wp_raise
  | |- wp (if ?c then _ else _) _ _ => destruct c eqn:?
  | |- wp (match ?c with _ => _ end) _ _ => destruct c eqn:?
  | |- wp _ _ _ => progress init_unfold
  end.

Ltac init_run := repeat init_step; cbv beta.

Lemma prepare_linux_source_shape (a : Args.t) (src_folder : string)
    (kernel_version : list N) :
  wp (prepare_linux_source env a src_folder kernel_version) tt
     (fun _ e o => no_stage_work e = true
                   /\ match o with SystemExit _ => False | _ => True end).
Proof. init_run; (split; [reflexivity | exact I]). Qed.

Lemma bolt_warnings_shape (a : Args.t) (llvm_folder : string) :
  wp (bolt_warnings env a llvm_folder) tt
     (fun _ e o => no_stage_work e = true /\ o = Normal tt).
Proof. init_run; (split; reflexivity). Qed.

Ltac init_sub :=
  lazymatch goal with
  | |- wp (bind (prepare_linux_source _ _ _ _) _) _ _ =>
      eapply wp_bind_with; [apply prepare_linux_source_shape|];
      let e := fresh "e" in let o := fresh "o" in
      let Hq := fresh "Hq" in let Ho := fresh "Ho" in
      intros [] e o [Hq Ho]; destruct o; [|destruct Ho|]
  | |- wp (bind (bolt_warnings _ _ _) _) _ _ =>
      eapply wp_bind_with; [apply bolt_warnings_shape|];
      let e := fresh "e" in let o := fresh "o" in
      let Hq := fresh "Hq" in let Ho := fresh "Ho" in
      intros [] e o [Hq Ho]; subst o
  end.

Ltac quiet_tac :=
  unfold no_stage_work in *;
  repeat first [ rewrite forallb_app
               | progress cbn [forallb is_stage_work negb andb] ];
  repeat match goal with H : forallb _ _ = true |- _ => rewrite H end;
  reflexivity.

(** [__init__] makes no call that belongs to a stage, never exits, and when
    it returns the orchestrator is as [constructed] says. *)
Lemma init_shape (a : Args.t) (src_folder build_folder : string) (kernel_version : list N) :
  wp (init env a src_folder build_folder kernel_version) tt
     (fun _ e o =>
        no_stage_work e = true
        /\ match o with
           | Normal st => constructed a st
           | SystemExit _ => False
           | Raise _ => True
           end).
Proof.
  unfold init. init_sub; [|split; [quiet_tac | exact I]].
  repeat first [init_sub | init_step]; cbv beta.
  all: (split; [quiet_tac|]); try exact I.
  all: unfold constructed;
    cbn [Stages.args Stages.instrumented Stages.final Stages.fresh Stages.host_tools
         Stages.def_llvm_builder_cls Builder.cls
         Tools.origin Tools.new Stages.common_cmake_defines Builder.oid Builder.targets Builder.projects
         Builder.set_source Builder.set_targets Builder.set_projects new_builder];
    repeat split; assumption.
Qed.

Lemma main_shape (a : Args.t) (root : string) :
  match main env a root with
  | (None, e, o) => no_stage_work e = true /\ exists x, o = Raise x
  | (Some s', e, o) =>
      exists e0 e1 st,
        init env a (src_folder_of root) (build_folder_of env a root)
             DEFAULT_KERNEL_FOR_PGO tt = (tt, e0, Normal st)
        /\ constructed a st
        /\ no_stage_work e0 = true
        /\ dispatch env st = (s', e1, o)
        /\ e = e0 ++ e1
  end.
Proof.
  unfold main. fold (src_folder_of root). fold (build_folder_of env a root).
  pose proof (init_shape a (src_folder_of root) (build_folder_of env a root)
                         DEFAULT_KERNEL_FOR_PGO) as [Hi].
  unfold state_of, events_of, outcome_of in Hi.
  destruct (init env a (src_folder_of root) (build_folder_of env a root)
                 DEFAULT_KERNEL_FOR_PGO tt) as [[[] e0] [st|c|x]];
    simpl in Hi; destruct Hi as [Hq Hc].
  - destruct (dispatch env st) as [[s' e1] o] eqn:Hd.
    exists e0, e1, st. auto.
  - destruct Hc.
  - split; [assumption | eauto].
Qed.

End Main.

Section Runs.

Variable env : Environment.

Lemma no_stage_work_entered (e : list Event) : no_stage_work e = true -> entered e = [].
Proof.
  intros H. apply entered_none. unfold no_stage_work in H.
  rewrite forallb_forall in *. intros x Hx. specialize (H x Hx).
  destruct x; simpl in *; congruence.
Qed.

Lemma segment_entered (op : StageOp) (e : list Event) : segment op e -> entered e = [op].
Proof.
  intros [e' (-> & Hn & _)].
  change (entered (enter op :: print_header (title op) :: e')) with (op :: entered e').
  now rewrite (entered_none _ Hn).
Qed.

Lemma segmented_entered (ops : list StageOp) (e : list Event) :
  segmented ops e -> entered e = ops.
Proof.
  revert e. induction ops as [|op ops IH]; intros e; simpl.
  - intros ->. reflexivity.
  - intros (e1 & e2 & -> & H1 & H2).
    now rewrite entered_app, (segment_entered _ _ H1), (IH _ H2).
Qed.

(** A run whose orchestrator was constructed: the calls of the
    construction, none of which belongs to a stage, then the dispatch. *)
Lemma main_dispatched (a : Args.t) (root : string) (s' : Stages.t) :
  run_stages (main env a root) = Some s' ->
  exists e0 e1,
    run_events (main env a root) = e0 ++ e1
    /\ no_stage_work e0 = true
    /\ dispatched a s' e1 (run_outcome (main env a root)).
Proof.
  pose proof (main_shape env a root) as H.
  unfold run_stages, run_events, run_outcome.
  destruct (main env a root) as [[[s''|] e] o]; simpl; intros E; [|discriminate].
  injection E as ->.
  destruct H as (e0 & e1 & st & Hi & Hc & Hq & Hd & ->).
  exists e0, e1. split; [reflexivity|]. split; [assumption|].
  pose proof (dispatch_shape env st) as [Hs].
  rewrite Hd in Hs. unfold state_of, events_of, outcome_of in Hs. simpl in Hs.
  destruct Hc as [<- _]. exact Hs.
Qed.

(** A run whose orchestrator was not constructed: an error was raised and
    no call belongs to a stage. *)
Lemma main_not_constructed (a : Args.t) (root : string) :
  run_stages (main env a root) = None ->
  no_stage_work (run_events (main env a root)) = true
  /\ exists x, run_outcome (main env a root) = Raise x.
Proof.
  pose proof (main_shape env a root) as H.
  unfold run_stages, run_events, run_outcome.
  destruct (main env a root) as [[[s''|] e] o]; simpl; intros E; [discriminate|].
  exact H.
Qed.

Lemma dispatched_entered (a : Args.t) (s' : Stages.t) (e : list Event) (o : Outcome unit) :
  dispatched a s' e o -> entered e = plan a.
Proof.
  intros [_ (body & Hseg & H)].
  pose proof (segmented_entered _ _ Hseg) as Hb.
  destruct (Args.stage a), (plan a) as [|op ops];
    first [ destruct H as (_ & -> & _ & _); assumption
          | destruct H as (_ & ->); rewrite entered_app, Hb; apply app_nil_r ].
Qed.

(** The stage operations a run enters are the planned ones. *)
Lemma main_entered (a : Args.t) (root : string) :
  entered (run_events (main env a root))
  = match run_stages (main env a root) with
    | Some _ => plan a
    | None => []
    end.
Proof.
  destruct (run_stages (main env a root)) as [s'|] eqn:E.
  - destruct (main_dispatched a root s' E) as (e0 & e1 & -> & Hq & Hd).
    now rewrite entered_app, (no_stage_work_entered _ Hq), (dispatched_entered _ _ _ _ Hd).
  - apply no_stage_work_entered. now apply main_not_constructed.
Qed.

Lemma plan_single_stage (a : Args.t) (x : StageName) :
  Args.stage a = Some x ->
  plan a = if enabled a x then [op_of x] else [].
Proof.
  intros Hs. unfold plan, stage_order, runs, stage_is. rewrite Hs.
  cbn [List.filter truthy_opt negb orb].
  destruct x; cbn [StageName_eqb andb enabled];
    rewrite ?andb_false_r, ?andb_true_r;
    destruct (Args.build_stage1_only a), (truthy_list (Args.pgo a)), (Args.cspgo a);
    reflexivity.
Qed.

End Runs.

Section Constructed.

Variable env : Environment.

(** A run whose construction returns [st] is the construction's calls
    followed by the dispatch from [st]. *)
Lemma main_constructed (a : Args.t) (root : string) (st : Stages.t) :
  constructed_by env a root = Some st ->
  constructed a st
  /\ exists e0,
       no_stage_work e0 = true
       /\ main env a root
          = (Some (state_of (dispatch env st)),
             e0 ++ events_of (dispatch env st),
             outcome_of (dispatch env st)).
Proof.
  unfold constructed_by, main.
  fold (src_folder_of root). fold (build_folder_of env a root).
  pose proof (init_shape env a (src_folder_of root) (build_folder_of env a root)
                         DEFAULT_KERNEL_FOR_PGO) as [Hi].
  unfold state_of, events_of, outcome_of in *.
  destruct (init env a (src_folder_of root) (build_folder_of env a root)
                 DEFAULT_KERNEL_FOR_PGO tt) as [[[] e0] [st'|c|x]];
    simpl in *; intros E; try discriminate E.
  injection E as ->. destruct Hi as [Hq Hc]. split; [assumption|].
  exists e0. split; [assumption|].
  destruct (dispatch env st) as [[s' e1] o]. reflexivity.
Qed.

Lemma main_not_constructed_by (a : Args.t) (root : string) :
  constructed_by env a root = None ->
  run_stages (main env a root) = None.
Proof.
  unfold constructed_by, main, run_stages.
  fold (src_folder_of root). fold (build_folder_of env a root).
  destruct (init env a (src_folder_of root) (build_folder_of env a root)
                 DEFAULT_KERNEL_FOR_PGO tt) as [[[] e0] [st'|c|x]];
    simpl; intros E; try discriminate E; try reflexivity.
Qed.

End Constructed.

(** ** A property of every call, stage by stage *)

Section Post.

Variable phi : Event -> Prop.

Lemma post_bind {A B} (m : Prog Stages.t A) (k : A -> Prog Stages.t B) (s : Stages.t)
    (R : A -> Stages.t -> Prop) (R' : B -> Stages.t -> Prop) :
  wp m s (post phi R) ->
  (forall x s1, R x s1 -> wp (k x) s1 (post phi R')) ->
  wp (bind m k) s (post phi R').
Proof.
  intros Hm Hk. apply (wp_bind_with _ _ _ _ _ Hm).
  intros s1 e1 [x|c|x] [HF HR].
  - apply (wp_mono _ _ _ _ (Hk x s1 (HR x eq_refl))).
    intros s2 e2 o2 [HF2 HR2]. split; [|assumption].
    apply Forall_app. split; assumption.
  - split; [assumption | discriminate].
  - split; [assumption | discriminate].
Qed.

Lemma post_ret {A} (x : A) (s : Stages.t) (R : A -> Stages.t -> Prop) :
  R x s -> wp (ret x) s (post phi R).
Proof.
  intros H. apply wp_ret. split; [constructor|].
  intros y E. injection E as <-. assumption.
Qed.

Lemma post_get (s : Stages.t) (R : Stages.t -> Stages.t -> Prop) :
  R s s -> wp get s (post phi R).
Proof.
  intros H. apply wp_get. split; [constructor|].
  intros y E. injection E as <-. assumption.
Qed.

Lemma post_modify (f : Stages.t -> Stages.t) (s : Stages.t) (R : unit -> Stages.t -> Prop) :
  R tt (f s) -> wp (modify f) s (post phi R).
Proof.
  intros H. apply wp_modify. split; [constructor|].
  intros [] _. assumption.
Qed.

Lemma post_emit (e : Event) (s : Stages.t) (R : unit -> Stages.t -> Prop) :
  phi e -> R tt s -> wp (emit e) s (post phi R).
Proof.
  intros He H. apply wp_emit. split; [repeat constructor; assumption|].
  intros [] _. assumption.
Qed.

Lemma post_when (c : bool) (m : Prog Stages.t unit) (s : Stages.t)
    (R : unit -> Stages.t -> Prop) :
  (c = true -> wp m s (post phi R)) ->
  (c = false -> R tt s) ->
  wp (when c m) s (post phi R).
Proof.
  intros Hm Hs. destruct c; simpl.
  - apply Hm. reflexivity.
  - apply post_ret. apply Hs. reflexivity.
Qed.

Lemma post_weaken {A} (m : Prog Stages.t A) (s : Stages.t)
    (R R' : A -> Stages.t -> Prop) :
  wp m s (post phi R) -> (forall x s', R x s' -> R' x s') -> wp m s (post phi R').
Proof.
  intros Hm HR. apply (wp_mono _ _ _ _ Hm).
  intros s' e o [HF H]. split; [assumption|]. intros x E. apply HR, H, E.
Qed.

(** The dispatch, from a property of each stage operation. [Inv0] holds of
    the orchestrator as constructed, [Inv1] from [update_defines] on. *)
Section DispatchForall.

Variable env : Environment.
Variable a : Args.t.
Variables Inv0 Inv1 : Stages.t -> Prop.

Hypothesis Inv0_args : forall s, Inv0 s -> Stages.args s = a.
Hypothesis bootstrap_ok :
  Args.build_stage1_only a = false ->
  forall s, Inv0 s -> wp (bootstrap env) s (post phi (fun _ => Inv0)).
Hypothesis update_defines_ok :
  forall s, Inv0 s ->
    Inv1 (Stages.set_common_cmake_defines
            (update_defines_map (Stages.args s) (Stages.common_cmake_defines s)) s).
Hypothesis instrumentation_ok :
  truthy_list (Args.pgo a) = true ->
  forall c s, Inv1 s -> wp (instrumentation env c) s (post phi (fun _ => Inv1)).
Hypothesis profiling_ok :
  truthy_list (Args.pgo a) = true ->
  forall c s, Inv1 s -> wp (profiling env c) s (post phi (fun _ => Inv1)).
Hypothesis setup_instrumentation_ok :
  truthy_list (Args.pgo a) = true ->
  forall c s, Inv1 s -> Stages.instrumented s = None ->
    wp (setup_instrumentation env c) s
       (post phi (fun b s' => Inv1 (Stages.set_instrumented (Some b) s'))).
Hypothesis final_step_ok :
  forall s, Inv1 s -> wp (final_step env) s (post phi (fun _ _ => True)).
Hypothesis duration_ok : phi print_duration.

Lemma dispatch_forall (s : Stages.t) :
  Inv0 s -> wp (dispatch env) s (post phi (fun _ _ => True)).
Proof.
  intros H0. unfold dispatch.
  apply (post_bind _ _ _ (fun x s' => x = s /\ s' = s));
    [apply post_get; auto | intros ? ? [-> ->]].
  rewrite (Inv0_args s H0).
  apply (post_bind _ _ _ (fun _ => Inv0)).
  { apply post_when; [|auto]. intros Hc. apply andb_true_iff in Hc.
    destruct Hc as [Hc _]. apply negb_true_iff in Hc. apply bootstrap_ok; assumption. }
  intros _ s1 H1.
  apply (post_bind _ _ _ (fun _ => Inv1)).
  { apply post_modify. apply update_defines_ok. assumption. }
  clear s1 H1. intros _ s1 H1.
  apply (post_bind _ _ _ (fun _ => Inv1)).
  { apply post_when; [|auto]. intros Hpgo.
    apply (post_bind _ _ _ (fun _ => Inv1)).
    { apply post_when; [|auto]. intros _. apply instrumentation_ok; assumption. }
    clear s1 H1. intros _ s1 H1.
    apply (post_bind _ _ _ (fun _ => Inv1)).
    { apply post_when; [|auto]. intros _. apply profiling_ok; assumption. }
    clear s1 H1. intros _ s1 H1.
    apply post_when; [|auto]. intros _.
    apply (post_bind _ _ _ (fun _ => Inv1)).
    { apply post_when; [|auto]. intros _. apply instrumentation_ok; assumption. }
    clear s1 H1. intros _ s1 H1.
    apply post_when; [|auto]. intros _. apply profiling_ok; assumption. }
  clear s1 H1. intros _ s1 H1.
  apply (post_bind _ _ _ (fun _ _ => True)).
  { apply post_when; [|auto]. intros _.
    apply (post_bind _ _ _ (fun x s' => x = s1 /\ s' = s1));
      [apply post_get; auto | intros ? ? [-> ->]].
    apply (post_bind _ _ _ (fun _ => Inv1)).
    { apply post_when; [|auto]. intros Hc. apply andb_true_iff in Hc.
      destruct Hc as [Hpgo Hi]. apply negb_true_iff in Hi.
      apply (post_bind _ _ _ (fun b s' => Inv1 (Stages.set_instrumented (Some b) s'))).
      - apply setup_instrumentation_ok; try assumption.
        destruct (Stages.instrumented s1); [discriminate Hi | reflexivity].
      - intros b s2 H2. apply post_modify. assumption. }
    intros _ s2 H2. apply final_step_ok. assumption. }
  intros _ s2 _. apply post_emit; auto.
Qed.

End DispatchForall.

End Post.

Lemma Forall_warnings (phi : Event -> Prop) (l : list string) :
  (forall c, phi (full_slim_warning c)) -> Forall phi (map full_slim_warning l).
Proof. intros H. induction l; constructor; auto. Qed.

(** A property that only speaks of builder methods holds of the calls of
    the construction. *)
Lemma Forall_no_stage_work (phi : Event -> Prop) (e : list Event) :
  (forall x, is_stage_work x = false -> phi x) ->
  no_stage_work e = true -> Forall phi e.
Proof.
  intros Hphi. unfold no_stage_work. induction e as [|x e IH]; simpl; intros H.
  - constructor.
  - apply andb_true_iff in H. destruct H as [Hx He].
    constructor; [apply Hphi; now apply negb_true_iff | apply IH, He].
Qed.

Ltac forall_tac tac :=
  repeat first
    [ apply List.Forall_nil
    | apply List.Forall_cons; [tac|]
    | apply Forall_app; split; [apply Forall_warnings; intros; tac|] ].

(** The facts of an invariant, used to rewrite. *)
Ltac use_facts :=
  repeat match goal with
         | H : _ /\ _ |- _ => destruct H
         end;
  repeat match goal with
         | H : Tools.origin _ = _ |- _ => rewrite H
         | H : Builder.targets _ = _ |- _ => rewrite H
         | H : Builder.projects _ = _ |- _ => rewrite H
         | H : Stages.instrumented _ = _ |- _ => rewrite H
         end.

(** ** Runs whose collaborators fail *)

Section Cut.

Variable fails : Event -> option Exn.

Lemma first_failure_app_Some (evs evs' pre : list Event) (x : Exn) :
  first_failure fails evs = Some (pre, x) ->
  first_failure fails (evs ++ evs') = Some (pre, x).
Proof.
  revert pre. induction evs as [|e evs IH]; intros pre; simpl; [discriminate|].
  destruct (failure fails e); [exact (fun H => H)|].
  destruct (first_failure fails evs) as [[p y]|]; [|discriminate].
  intros H. injection H as <- <-. now rewrite (IH p eq_refl).
Qed.

Lemma first_failure_app_None (evs evs' : list Event) :
  first_failure fails evs = None ->
  first_failure fails (evs ++ evs')
  = match first_failure fails evs' with
    | Some (pre, x) => Some (evs ++ pre, x)
    | None => None
    end.
Proof.
  induction evs as [|e evs IH]; simpl.
  - intros _. destruct (first_failure fails evs') as [[p y]|]; reflexivity.
  - destruct (failure fails e); [discriminate|].
    destruct (first_failure fails evs) as [[p y]|]; [discriminate|].
    intros _. rewrite (IH eq_refl).
    destruct (first_failure fails evs') as [[p y]|]; reflexivity.
Qed.

(** The failing call is the last one made; a collaborator raised there, and
    no call before it failed. *)
Lemma first_failure_Some (evs pre : list Event) (x : Exn) :
  first_failure fails evs = Some (pre, x) ->
  exists pre0 e post,
    pre = pre0 ++ [e] /\ evs = pre0 ++ e :: post
    /\ is_collaborator_call e = true /\ fails e = Some x
    /\ first_failure fails pre0 = None.
Proof.
  revert pre. induction evs as [|e evs IH]; intros pre; simpl; [discriminate|].
  destruct (failure fails e) as [y|] eqn:E.
  - intros H. injection H as <- <-. exists [], e, evs.
    unfold failure in E. destruct (is_collaborator_call e); [|discriminate].
    repeat split; assumption.
  - destruct (first_failure fails evs) as [[p y]|]; [|discriminate].
    intros H. injection H as <- <-.
    destruct (IH p eq_refl) as (pre0 & e' & post & -> & -> & Hc & Hf & Hn).
    exists (e :: pre0), e', post. repeat split; try assumption.
    simpl. now rewrite E, Hn.
Qed.

Lemma first_failure_quiet (evs : list Event) :
  forallb (fun e => negb (is_collaborator_call e)) evs = true ->
  first_failure fails evs = None.
Proof.
  induction evs as [|e evs IH]; [reflexivity|]. simpl. intros H.
  apply andb_true_iff in H. destruct H as [He Hl].
  unfold failure. destruct (is_collaborator_call e); [discriminate He|].
  now rewrite (IH Hl).
Qed.

Lemma first_failure_prefix (evs pre : list Event) (x : Exn) :
  first_failure fails evs = Some (pre, x) -> exists post, evs = pre ++ post.
Proof.
  intros H. destruct (first_failure_Some _ _ _ H) as (pre0 & e & post & -> & -> & _).
  exists post. now rewrite <- app_assoc.
Qed.

Context {S : Type}.

Lemma cuts_same {A} (m : Prog S A) :
  (forall s, first_failure fails (events_of (m s)) = None) -> cuts fails m m.
Proof. intros H s. unfold cut. now rewrite H. Qed.

Lemma cuts_ret {A} (x : A) : cuts fails (@ret S A x) (ret x).
Proof. now apply cuts_same. Qed.

Lemma cuts_get : cuts fails (@get S) get.
Proof. now apply cuts_same. Qed.

Lemma cuts_modify (f : S -> S) : cuts fails (modify f) (modify f).
Proof. now apply cuts_same. Qed.

Lemma cuts_raise {A} (x : Exn) : cuts fails (@raise S A x) (raise x).
Proof. now apply cuts_same. Qed.

Lemma cuts_sys_exit {A} (c : Z) : cuts fails (@sys_exit S A c) (sys_exit c).
Proof. now apply cuts_same. Qed.

Lemma cuts_emit (e : Event) : failure fails e = None -> cuts fails (@emit S e) (emit e).
Proof. intros H. apply cuts_same. intros s. simpl. now rewrite H. Qed.

(** A call to a collaborator that may fail, against the call that returns. *)
Lemma cuts_perform (e : Event) :
  is_collaborator_call e = true -> cuts fails (@emit S e) (Failing.perform fails e).
Proof.
  intros Hc s. unfold cut, Failing.perform, bind, emit, failure. simpl.
  unfold failure. rewrite Hc. destruct (fails e); simpl; auto.
Qed.

Lemma cuts_bind {A B} (m mf : Prog S A) (k kf : A -> Prog S B) :
  cuts fails m mf -> (forall x, cuts fails (k x) (kf x)) ->
  cuts fails (bind m k) (bind mf kf).
Proof.
  intros Hm Hk s. specialize (Hm s). unfold cut in *. unfold bind.
  destruct (m s) as [[s1 e1] o1]. unfold events_of, outcome_of in *. simpl in *.
  destruct (first_failure fails e1) as [[pre x]|] eqn:E1.
  - destruct (mf s) as [[s1' e1'] o1']. simpl in Hm. destruct Hm as [-> ->].
    assert (H : first_failure fails
                  (snd (fst (match o1 with
                             | Normal a => let '(s2, e2, o) := k a s1 in (s2, e1 ++ e2, o)
                             | SystemExit c => (s1, e1, SystemExit c)
                             | Raise y => (s1, e1, Raise y)
                             end))) = Some (pre, x)).
    { destruct o1 as [a|c|y]; simpl; try assumption.
      destruct (k a s1) as [[s2 e2] o2]. simpl. now apply first_failure_app_Some. }
    rewrite H. split; reflexivity.
  - rewrite Hm. destruct o1 as [a|c|y]; simpl; rewrite ?E1; try reflexivity.
    specialize (Hk a s1). unfold cut in Hk.
    destruct (k a s1) as [[s2 e2] o2]. unfold events_of, outcome_of in Hk. simpl in *.
    rewrite (first_failure_app_None _ _ E1).
    destruct (first_failure fails e2) as [[pre x]|].
    + destruct (kf a s1) as [[s2' e2'] o2']. simpl in *. destruct Hk as [-> ->].
      split; reflexivity.
    + now rewrite Hk.
Qed.

Lemma cuts_when (c : bool) (m mf : Prog S unit) :
  cuts fails m mf -> cuts fails (when c m) (when c mf).
Proof. intros H. destruct c; [exact H | apply cuts_ret]. Qed.

End Cut.

Lemma cuts_for_each (fails : Event -> option Exn) {A} (f ff : A -> Prog Stages.t unit)
    (l : list A) :
  (forall x, cuts fails (f x) (ff x)) -> cuts fails (for_each f l) (for_each ff l).
Proof.
  intros H. induction l as [|x l IH]; simpl; [apply cuts_ret|].
  apply cuts_bind; [apply H | intros _; exact IH].
Qed.

Ltac failing_unfold :=
  unfold Failing.bootstrap, Failing.instrumentation, Failing.profiling, Failing.final_step,
    Failing.bootstrap_body, Failing.instrumentation_body, Failing.profiling_body,
    Failing.final_step_body, Failing.call, Failing.run_pgo_builder.

Ltac cut_step :=
  lazymatch goal with
  | |- cuts _ (let _ := _ in _) _ => cbv zeta
  | |- cuts _ (bind _ _) (bind _ _) => apply cuts_bind; [|intros ?; cbv beta]
  | |- cuts _ (emit ?e) (Failing.perform _ ?e) => apply cuts_perform; reflexivity
  | |- cuts _ (emit _) (emit _) => apply cuts_emit; reflexivity
  | |- cuts _ (ret _) (ret _) => apply cuts_ret
  | |- cuts _ get get => apply cuts_get
  | |- cuts _ (modify _) (modify _) => apply cuts_modify
  | |- cuts _ (raise _) (raise _) => apply cuts_raise
  | |- cuts _ (sys_exit _) (sys_exit _) => apply cuts_sys_exit
  | |- cuts _ (for_each _ _) (for_each _ _) => apply cuts_for_each; intros ?; cbv beta
  | |- cuts _ (if ?c then _ else _) (if ?c then _ else _) => destruct c
  | |- cuts _ (match ?c with _ => _ end) (match ?c with _ => _ end) => destruct c
  | |- cuts _ _ _ => progress (wp_unfold; failing_unfold; cbv beta)
  end.

Section Failing.

Variable env : Environment.
Variable fails : Event -> option Exn.

Lemma bootstrap_cuts : cuts fails (bootstrap env) (Failing.bootstrap env fails).
Proof. repeat cut_step. Qed.

Lemma setup_instrumentation_cuts (c : bool) :
  cuts fails (setup_instrumentation env c) (setup_instrumentation env c).
Proof. repeat cut_step. Qed.

Lemma instrumentation_cuts (c : bool) :
  cuts fails (instrumentation env c) (Failing.instrumentation env fails c).
Proof. repeat cut_step. Qed.

Lemma profiling_cuts (c : bool) :
  cuts fails (profiling env c) (Failing.profiling env fails c).
Proof. repeat cut_step. Qed.

Lemma final_step_cuts : cuts fails (final_step env) (Failing.final_step env fails).
Proof. repeat cut_step. Qed.

Lemma dispatch_cuts : cuts fails (dispatch env) (Failing.dispatch env fails).
Proof.
  unfold dispatch, Failing.dispatch.
  repeat lazymatch goal with
         | |- cuts _ (bootstrap _) _ => apply bootstrap_cuts
         | |- cuts _ (instrumentation _ _) _ => apply instrumentation_cuts
         | |- cuts _ (profiling _ _) _ => apply profiling_cuts
         | |- cuts _ (final_step _) _ => apply final_step_cuts
         | |- cuts _ (setup_instrumentation _ _) _ => apply setup_instrumentation_cuts
         | |- cuts _ update_defines _ => apply cuts_modify
         | |- cuts _ (when _ _) (when _ _) => apply cuts_when
         | |- cuts _ (let _ := _ in _) _ => cbv zeta
         | |- cuts _ (bind _ _) (bind _ _) => apply cuts_bind; [|intros ?; cbv beta]
         | |- cuts _ (emit _) (emit _) => apply cuts_emit; reflexivity
         | |- cuts _ (ret _) (ret _) => apply cuts_ret
         | |- cuts _ get get => apply cuts_get
         | |- cuts _ (modify _) (modify _) => apply cuts_modify
         end.
Qed.

End Failing.

Section FailingRun.

Variable env : Environment.
Variable fails : Event -> option Exn.

Lemma init_cuts (a : Args.t) (src_folder build_folder : string) (kernel_version : list N) :
  cuts fails (init env a src_folder build_folder kernel_version)
             (Failing.init env fails a src_folder build_folder kernel_version).
Proof.
  unfold init, Failing.init, prepare_linux_source, Failing.prepare_linux_source,
    bolt_warnings, when.
  repeat cut_step.
Qed.

Lemma no_stage_work_prefix (pre post : list Event) :
  no_stage_work (pre ++ post) = true -> no_stage_work pre = true.
Proof.
  unfold no_stage_work. rewrite forallb_app. intros H.
  apply andb_true_iff in H. apply H.
Qed.

Ltac methods_leaf :=
  split; [ cbn [app]; forall_tac ltac:(reflexivity)
         | let E := fresh "E" in
           intros ? E; try (injection E as <-);
           first [ discriminate E | exact I | rec_simpl; assumption ] ].

(** The collaborators the dispatch calls are the builders. *)
Lemma dispatch_methods (a : Args.t) (s : Stages.t) :
  Stages.args s = a ->
  wp (dispatch env) s
     (post (fun e => is_collaborator_call e = is_builder_method e) (fun _ _ => True)).
Proof.
  apply (dispatch_forall (fun e => is_collaborator_call e = is_builder_method e) env a
                         (fun s => Stages.args s = a) (fun s => Stages.args s = a)).
  - auto.
  - intros _ s0 H. wp_run; methods_leaf.
  - intros s0 H. exact H.
  - intros _ c s0 H. wp_run; methods_leaf.
  - intros _ c s0 H. wp_run; methods_leaf.
  - intros _ c s0 H _. wp_run; methods_leaf.
  - intros s0 H. wp_run; methods_leaf.
  - reflexivity.
Qed.

Lemma first_failure_stopped (evs pre : list Event) (x : Exn) :
  Forall (fun e => is_collaborator_call e = is_builder_method e) evs ->
  first_failure fails evs = Some (pre, x) ->
  forall e0, stopped_by fails (e0 ++ pre) (Raise x).
Proof.
  intros HF H e0.
  destruct (first_failure_Some _ _ _ _ H) as (pre0 & e & post & -> & -> & Hc & Hf & _).
  exists e, x. repeat split; try assumption.
  - exists (e0 ++ pre0). now rewrite app_assoc.
  - apply Forall_app in HF. destruct HF as [_ HF].
    apply Forall_cons_iff in HF. destruct HF as [He _]. now rewrite <- He.
Qed.

(** The run with collaborators that may fail is the run with collaborators
    that return, cut at the first call that fails: no call fails and the
    two are the same run; or a call of the construction fails, and there is
    no orchestrator; or a call of the dispatch fails. *)
Lemma failing_main (a : Args.t) (root : string) :
  let r := main env a root in
  let rf := Failing.main env fails a root in
  (first_failure fails (run_events r) = None /\ rf = r)
  \/ (exists pre x,
        first_failure fails (run_events r) = Some (pre, x)
        /\ no_stage_work pre = true
        /\ rf = (None, pre, Raise x))
  \/ (exists st e0 pre x s',
        constructed_by env a root = Some st
        /\ constructed a st
        /\ no_stage_work e0 = true
        /\ first_failure fails e0 = None
        /\ r = (Some (state_of (dispatch env st)), e0 ++ events_of (dispatch env st),
                outcome_of (dispatch env st))
        /\ first_failure fails (events_of (dispatch env st)) = Some (pre, x)
        /\ stopped_by fails (e0 ++ pre) (Raise x)
        /\ rf = (Some s', e0 ++ pre, Raise x)).
Proof.
  unfold main, Failing.main, constructed_by.
  fold (src_folder_of root). fold (build_folder_of env a root).
  pose proof (init_cuts a (src_folder_of root) (build_folder_of env a root)
                        DEFAULT_KERNEL_FOR_PGO tt) as Hc.
  pose proof (init_shape env a (src_folder_of root) (build_folder_of env a root)
                         DEFAULT_KERNEL_FOR_PGO) as [Hi].
  unfold cut, state_of, events_of, outcome_of in *.
  destruct (init env a (src_folder_of root) (build_folder_of env a root)
                 DEFAULT_KERNEL_FOR_PGO tt) as [[[] e0] o0].
  simpl in *. destruct Hi as [Hq Hi].
  destruct (first_failure fails e0) as [[pre x]|] eqn:E0.
  - right. left. exists pre, x.
    destruct (Failing.init env fails a (src_folder_of root) (build_folder_of env a root)
                DEFAULT_KERNEL_FOR_PGO tt) as [[[] e0'] o0'].
    simpl in Hc. destruct Hc as [-> ->].
    destruct (first_failure_prefix _ _ _ _ E0) as [post ->].
    split; [|split; [now apply (no_stage_work_prefix pre post) | reflexivity]].
    destruct o0 as [st|c|y]; simpl; try assumption.
    + destruct (dispatch env st) as [[s' e1] o]. simpl.
      now apply first_failure_app_Some.
  - rewrite Hc. destruct o0 as [st|c|y]; simpl.
    + pose proof (dispatch_cuts env fails st) as Hd. unfold cut, events_of, outcome_of in Hd.
      destruct (dispatch env st) as [[s' e1] o] eqn:Ed. simpl in *.
      destruct (first_failure fails e1) as [[pre x]|] eqn:E1.
      * right. right.
        destruct (Failing.dispatch env fails st) as [[sf ef] o1]. simpl in Hd.
        destruct Hd as [-> ->].
        exists st, e0, pre, x, sf. rewrite ?Ed. simpl.
        refine (conj eq_refl (conj Hi (conj Hq (conj E0 (conj eq_refl (conj E1 (conj _ eq_refl))))))).
        pose proof (dispatch_methods a st (proj1 Hi)) as [[HF _]].
        rewrite Ed in HF. apply (first_failure_stopped e1); assumption.
      * left. rewrite Hd. split; [|reflexivity].
        unfold run_events. simpl. now rewrite (first_failure_app_None _ _ _ E0), E1.
    + left. split; [assumption | reflexivity].
    + left. split; [assumption | reflexivity].
Qed.

End FailingRun.

Lemma first_failure_no_failure (evs : list Event) : first_failure no_failure evs = None.
Proof.
  induction evs as [|e evs IH]; [reflexivity|]. simpl.
  unfold failure, no_failure at 1. destruct (is_collaborator_call e); now rewrite IH.
Qed.

(** With collaborators that never fail, the run is the run described by
    [main]. *)
Lemma failing_no_failure (env : Environment) (a : Args.t) (root : string) :
  Failing.main env no_failure a root = main env a root.
Proof.
  destruct (failing_main env no_failure a root)
    as [[_ H] | [(pre & x & H & _) | (st & e0 & pre & x & s' & _ & _ & _ & _ & _ & H & _)]].
  - exact H.
  - now rewrite first_failure_no_failure in H.
  - now rewrite first_failure_no_failure in H.
Qed.

Section Stopped.

Variable env : Environment.
Variable fails : Event -> option Exn.

(** The calls of the run with failing collaborators are the first calls of
    the run whose collaborators return. *)
Lemma failing_prefix (a : Args.t) (root : string) :
  exists post,
    run_events (main env a root) = run_events (Failing.main env fails a root) ++ post.
Proof.
  destruct (failing_main env fails a root)
    as [[_ ->] | [(pre & x & H & _ & ->)
                 | (st & e0 & pre & x & s' & _ & _ & _ & _ & -> & H & _ & ->)]].
  - exists []. now rewrite app_nil_r.
  - destruct (first_failure_prefix _ _ _ _ H) as [post ->]. now exists post.
  - destruct (first_failure_prefix _ _ _ _ H) as [post Hp]. exists post.
    unfold run_events. simpl. now rewrite Hp, app_assoc.
Qed.

Lemma failing_entered (a : Args.t) (root : string) :
  exists rest,
    entered (run_events (main env a root))
    = entered (run_events (Failing.main env fails a root)) ++ rest.
Proof.
  destruct (failing_prefix a root) as [post ->].
  exists (entered post). apply entered_app.
Qed.

Lemma failing_Forall (phi : Event -> Prop) (a : Args.t) (root : string) :
  Forall phi (run_events (main env a root)) ->
  Forall phi (run_events (Failing.main env fails a root)).
Proof.
  destruct (failing_prefix a root) as [post ->]. intros H.
  apply Forall_app in H. apply H.
Qed.

End Stopped.


(** ** Single-stage mode *)

(** When every collaborator returns, a single-stage run of a stage the
    configuration enables enters that stage alone and exits with status 0
    after its notice; of another stage, it enters none and returns. *)
Lemma single_stage_returning (env : Environment) (a : Args.t) (root : string)
    (x : StageName) :
  Args.stage a = Some x ->
  let r := main env a root in
  match run_stages r with
  | None => entered (run_events r) = [] /\ exists exn, run_outcome r = Raise exn
  | Some _ =>
      if enabled a x
      then entered (run_events r) = [op_of x]
           /\ run_outcome r = SystemExit 0
           /\ ends_with (run_events r) (done_notice (op_of x))
      else entered (run_events r) = [] /\ run_outcome r = Normal tt
  end.
Proof.
  intros Hs r. subst r.
  pose proof (main_entered env a root) as He.
  destruct (run_stages (main env a root)) as [s'|] eqn:E.
  - destruct (main_dispatched env a root s' E) as (e0 & e1 & Hev & Hq & Hd).
    rewrite He, (plan_single_stage a x Hs).
    destruct Hd as [_ (body & _ & Hd)].
    rewrite Hs, (plan_single_stage a x Hs) in Hd.
    destruct (enabled a x).
    + destruct Hd as (Ho & -> & _ & Hend).
      repeat split; try assumption.
      rewrite Hev. apply ends_with_app. assumption.
    + destruct Hd as (Ho & _). auto.
  - split; [assumption|]. now apply main_not_constructed.
Qed.

(** A stage that is stopped by a failing call was entered, and no other. *)
Lemma stopped_in_single_stage (env : Environment) (fails : Event -> option Exn)
    (st : Stages.t) (x : StageName) (pre : list Event) (exn : Exn) :
  Args.stage (Stages.args st) = Some x ->
  first_failure fails (events_of (dispatch env st)) = Some (pre, exn) ->
  enabled (Stages.args st) x = true /\ entered pre = [op_of x].
Proof.
  intros Hs H.
  pose proof (dispatch_shape env st) as [Hd].
  destruct Hd as [_ (body & Hseg & Hd)].
  rewrite Hs, (plan_single_stage _ x Hs) in Hd.
  rewrite (plan_single_stage _ x Hs) in Hseg.
  destruct (enabled (Stages.args st) x).
  - split; [reflexivity|].
    destruct Hd as (_ & Hev & _). rewrite Hev in H.
    destruct Hseg as (e1 & e2 & -> & (e' & -> & Hn & _) & ->).
    simpl in H. unfold failure in H. simpl in H.
    destruct (first_failure fails (e' ++ [])) as [[p y]|] eqn:E; [|discriminate H].
    injection H as <- <-.
    destruct (first_failure_prefix _ _ _ _ E) as [post Hp].
    rewrite app_nil_r in Hp. rewrite Hp, forallb_app in Hn.
    apply andb_true_iff in Hn. destruct Hn as [Hn _].
    change (entered (enter (op_of x) :: print_header (title (op_of x)) :: p))
      with (op_of x :: entered p).
    now rewrite (entered_none _ Hn).
  - destruct Hd as [_ Hev]. simpl in Hseg. subst body. rewrite Hev in H.
    discriminate H.
Qed.

(** C3, as the code has it: with [--stage x], at most one stage operation
    runs. When the construction of the orchestrator fails, nothing runs.
    Otherwise, if the configuration lets the dispatch reach stage [x],
    exactly that operation is entered and no other, and the run ends in one
    of two ways: no call fails, the completion notice is the last thing
    printed and the process exits with status 0; or a method of a builder
    fails inside the stage, and the run ends there with its exception,
    without a notice. If the configuration does not let the dispatch reach
    stage [x], no stage operation runs at all and the script returns
    normally. *)
Theorem C3_single_stage (env : Environment) (fails : Event -> option Exn)
    (a : Args.t) (root : string) (x : StageName) :
  Args.stage a = Some x ->
  let r := Failing.main env fails a root in
  match run_stages r with
  | None => entered (run_events r) = [] /\ exists exn, run_outcome r = Raise exn
  | Some _ =>
      if enabled a x
      then entered (run_events r) = [op_of x]
           /\ ((run_outcome r = SystemExit 0
                /\ ends_with (run_events r) (done_notice (op_of x))
                /\ first_failure fails (run_events r) = None)
               \/ stopped_by fails (run_events r) (run_outcome r))
      else entered (run_events r) = [] /\ run_outcome r = Normal tt
  end.
Proof.
  intros Hs r. subst r.
  pose proof (single_stage_returning env a root x Hs) as Hr. cbv zeta in Hr.
  destruct (failing_main env fails a root)
    as [[Hn ->] | [(pre & exn & _ & Hq & ->)
                  | (st & e0 & pre & exn & s' & _ & Hc & Hq & _ & _ & H & Hst & ->)]].
  - destruct (run_stages (main env a root)); [|exact Hr].
    destruct (enabled a x); [|exact Hr].
    destruct Hr as (He & Ho & Hend). split; [assumption|]. left. auto.
  - simpl. split; [now apply no_stage_work_entered | eauto].
  - destruct Hc as [Ha _]. rewrite <- Ha in Hs.
    destruct (stopped_in_single_stage env fails st x pre exn Hs H) as [Hen Hent].
    rewrite Ha in Hen. simpl. rewrite Hen. split; [|right; exact Hst].
    unfold run_events. simpl.
    now rewrite entered_app, (no_stage_work_entered e0 Hq), Hent.
Qed.

Lemma C3_single_stage_witness :
  let a := Sample.args (Some ["llvm"]) false false false (Some stage_profiling) in
  let r := Failing.main Sample.env (fails_when is_build) a Sample.root in
  match run_stages r with
  | None => entered (run_events r) = [] /\ exists exn, run_outcome r = Raise exn
  | Some _ =>
      if enabled a stage_profiling
      then entered (run_events r) = [op_of stage_profiling]
           /\ ((run_outcome r = SystemExit 0
                /\ ends_with (run_events r) (done_notice (op_of stage_profiling))
                /\ first_failure (fails_when is_build) (run_events r) = None)
               \/ stopped_by (fails_when is_build) (run_events r) (run_outcome r))
      else entered (run_events r) = [] /\ run_outcome r = Normal tt
  end.
Proof.
  apply (C3_single_stage Sample.env (fails_when is_build)
           (Sample.args (Some ["llvm"]) false false false (Some stage_profiling))
           Sample.root stage_profiling).
  reflexivity.
Defined.

(** [--stage profiling] with the [llvm] workload, on a host where every
    build fails: the profiling stage is entered, the build of the workload
    raises, and the run ends there; no notice is printed and the process
    does not exit with status 0. *)
Example single_stage_stopped :
  let a := Sample.args (Some ["llvm"]) false false false (Some stage_profiling) in
  let r := Failing.main Sample.env (fails_when is_build) a Sample.root in
  entered (run_events r) = [op_profiling false]
  /\ run_outcome r = Raise (RuntimeError "the command failed")
  /\ existsb is_build (run_events r) = true
  /\ existsb (fun e => match e with
                        | print_info s => String.eqb s "Generating PGO profiles done."
                        | _ => false
                        end) (run_events r) = false.
Proof. vm_compute. repeat split. Qed.

(** [--stage instrumentation] without [--pgo]: the orchestrator is
    constructed, no stage operation runs, and the script returns normally
    after printing its duration. *)
Lemma C3_counterexample :
  let a := Sample.args None false false false (Some stage_instrumentation) in
  let r := main Sample.env a Sample.root in
  entered (run_events r) = []
  /\ run_outcome r = Normal tt
  /\ (exists s, run_stages r = Some s)
  /\ run_events r
     = [llvm_download "/tc-build/src/llvm-project" "main" false;
        llvm_update "/tc-build/src/llvm-project" "main";
        print_header "Checking CC and LD";
        show_compiler_linker;
        print_duration].
Proof.
  vm_compute. repeat split. eexists. reflexivity.
Qed.

(** ** Context-sensitive instrumentation after plain instrumentation *)

Lemma cs_guarded_quiet (cur : option StageOp) (pb : bool) (e rest : list Event) :
  no_stage_work e = true -> cs_guarded cur pb (e ++ rest) = cs_guarded cur pb rest.
Proof.
  unfold no_stage_work. induction e as [|x e IH]; [reflexivity|].
  simpl. intros H. apply andb_true_iff in H. destruct H as [Hx He].
  destruct x; simpl in Hx; try discriminate Hx; apply IH, He.
Qed.

(** The calls of a stage after its entry. *)
Lemma cs_guarded_stage (cur : option StageOp) (pb : bool) (e rest : list Event) :
  forallb (fun x => negb (is_enter x)) e = true ->
  may_build cur pb = true ->
  cs_guarded cur pb (e ++ rest)
  = cs_guarded cur (pb || (is_plain_instrumentation cur && existsb is_build e)) rest.
Proof.
  revert pb. induction e as [|x e IH]; intros pb Hn Hm.
  - simpl. now rewrite andb_false_r, orb_false_r.
  - simpl in Hn. apply andb_true_iff in Hn. destruct Hn as [Hx He].
    destruct x; simpl in Hx; try discriminate Hx; simpl;
      rewrite ?Hm; simpl; try (apply IH; assumption).
    rewrite IH; [|assumption|].
    + destruct pb, (is_plain_instrumentation cur), (existsb is_build e); reflexivity.
    + destruct cur as [[| [] | |]|], pb; simpl in *; congruence.
Qed.

Lemma cs_guarded_segments (ops : list StageOp) :
  forall (body rest : list Event) (cur : option StageOp) (pb : bool),
    segmented ops body ->
    ops_guarded pb ops = true ->
    no_stage_work rest = true ->
    cs_guarded cur pb (body ++ rest) = true.
Proof.
  induction ops as [|op ops IH]; intros body rest cur pb Hseg Hok Hrest; simpl in Hseg.
  - subst body. simpl. rewrite <- (app_nil_r rest).
    now rewrite cs_guarded_quiet.
  - destruct Hseg as (e1 & e2 & -> & (e' & -> & Hn & Hb) & H2).
    simpl in Hok. apply andb_true_iff in Hok. destruct Hok as [Hm Hok].
    simpl. rewrite <- app_assoc.
    rewrite (cs_guarded_stage (Some op) pb e' (e2 ++ rest) Hn Hm).
    apply IH; try assumption.
    destruct op as [| [] | |]; simpl in *; rewrite ?Hb, ?orb_false_r in *; assumption.
Qed.

Lemma plan_guarded (a : Args.t) :
  Args.stage a <> Some stage_csinstrumentation ->
  ops_guarded false (plan a) = true.
Proof.
  intros Hs. unfold plan, stage_order, enabled, runs, stage_is.
  destruct (Args.stage a) as [[]|]; try congruence;
    destruct (Args.build_stage1_only a), (truthy_list (Args.pgo a)), (Args.cspgo a);
    reflexivity.
Qed.

(** C4, as the code has it: unless the run is a single-stage run of
    [csinstrumentation], no [configure] or [build] of the context-sensitive
    instrumentation stage comes before the plain instrumentation stage has
    built its builder in the same run. *)
Theorem C4_cs_instrumentation_after_plain (env : Environment) (a : Args.t) (root : string) :
  Args.stage a <> Some stage_csinstrumentation ->
  cs_instrumentation_after_plain (run_events (main env a root)) = true.
Proof.
  intros Hs. unfold cs_instrumentation_after_plain.
  destruct (run_stages (main env a root)) as [s'|] eqn:E.
  - destruct (main_dispatched env a root s' E) as (e0 & e1 & -> & Hq & Hd).
    rewrite (cs_guarded_quiet _ _ _ _ Hq).
    destruct Hd as [_ (body & Hseg & Hd)].
    pose proof (plan_guarded a Hs) as Hok.
    destruct (Args.stage a), (plan a) as [|op ops];
      first [ destruct Hd as (_ & -> & _ & _);
              rewrite <- (app_nil_r body);
              apply (cs_guarded_segments _ _ _ _ _ Hseg Hok); reflexivity
            | destruct Hd as (_ & ->);
              apply (cs_guarded_segments _ _ _ _ _ Hseg Hok); reflexivity ].
  - destruct (main_not_constructed env a root E) as [Hq _].
    rewrite <- (app_nil_r (run_events _)). now rewrite cs_guarded_quiet.
Qed.

Lemma C4_cs_instrumentation_after_plain_witness :
  cs_instrumentation_after_plain
    (run_events (main Sample.env (Sample.args (Some ["llvm"]) true false false None)
                      Sample.root))
  = true.
Proof.
  apply (C4_cs_instrumentation_after_plain Sample.env
           (Sample.args (Some ["llvm"]) true false false None) Sample.root).
  discriminate.
Defined.

(** [--pgo llvm --cspgo --stage csinstrumentation]: the context-sensitive
    instrumented builder is configured and built, and the plain
    instrumentation stage has not run. *)
Lemma C4_counterexample :
  let a := Sample.args (Some ["llvm"]) true false false (Some stage_csinstrumentation) in
  let r := main Sample.env a Sample.root in
  Args.cspgo a = true
  /\ entered (run_events r) = [op_instrumentation true]
  /\ existsb is_build (run_events r) = true
  /\ cs_instrumentation_after_plain (run_events r) = false.
Proof.
  vm_compute. repeat split.
Qed.

(** ** One target list and one project list for every stage toolchain *)

Section Surface.

Variable env : Environment.
Variable a : Args.t.
Variables T P : list string.









End Surface.




(** ** A build without bootstrap *)

Section HostFinal.

Variable env : Environment.
Variable a : Args.t.
Hypothesis stage1_only : Args.build_stage1_only a = true.

Ltac host_event :=
  let v := fresh "v" in let Hv := fresh "Hv" in let Ho := fresh "Ho" in
  intros v Hv Ho; simpl in Hv;
  first [ discriminate Hv
        | injection Hv as <-; revert Ho; unfold has_host_tools; rec_simpl;
          use_facts; rec_simpl;
          first [ reflexivity | intros Ho; exfalso; lia ] ].

Ltac host_leaf :=
  split; [ cbn [app]; forall_tac host_event
         | let E := fresh "E" in
           intros ? E; try (injection E as <-);
           first
             [ discriminate E
             | exact I
             | unfold identity_inv; rec_simpl;
               refine (conj _ (conj _ (conj _ (conj _ _))));
               [ congruence | congruence | lia | congruence
               | use_facts; rec_simpl; first [ exact I | lia ] ] ] ].

Lemma instrumentation_host (c : bool) (s : Stages.t) :
  identity_inv a s ->
  wp (instrumentation env c) s (post final_on_host (fun _ => identity_inv a)).
Proof. intros (Ha & Ho & Hf & Hh & Hi). wp_run; host_leaf. Qed.

Lemma profiling_host (c : bool) (s : Stages.t) :
  identity_inv a s ->
  wp (profiling env c) s (post final_on_host (fun _ => identity_inv a)).
Proof. intros (Ha & Ho & Hf & Hh & Hi). wp_run; host_leaf. Qed.

Lemma setup_instrumentation_host (c : bool) (s : Stages.t) :
  identity_inv a s ->
  wp (setup_instrumentation env c) s
     (post final_on_host (fun b s' => identity_inv a (Stages.set_instrumented (Some b) s'))).
Proof. intros (Ha & Ho & Hf & Hh & Hi). wp_run; host_leaf. Qed.

Lemma final_step_host (s : Stages.t) :
  identity_inv a s ->
  wp (final_step env) s (post final_on_host (fun _ _ => True)).
Proof.
  intros (Ha & Ho & Hf & Hh & Hi).
  assert (H1 : Args.build_stage1_only (Stages.args s) = true) by (now rewrite Ha).
  wp_run; host_leaf.
Qed.

Lemma dispatch_host (s : Stages.t) :
  identity_inv a s ->
  wp (dispatch env) s (post final_on_host (fun _ _ => True)).
Proof.
  apply (dispatch_forall final_on_host env a (identity_inv a) (identity_inv a)).
  - intros s0 H. apply H.
  - intros H. congruence.
  - intros s0 (Ha & Ho & Hf & Hh & Hi). repeat split; assumption.
  - intros _ c s0 H. now apply instrumentation_host.
  - intros _ c s0 H. now apply profiling_host.
  - intros _ c s0 H _. now apply setup_instrumentation_host.
  - intros s0 H. now apply final_step_host.
  - intros v Hv. discriminate Hv.
Qed.

End HostFinal.

Lemma constructed_identity (a : Args.t) (st : Stages.t) :
  constructed a st -> identity_inv a st.
Proof.
  intros (Ha & Hi & Ho & Hf & _ & _ & Hh & _).
  repeat split; try assumption; [lia | now rewrite Hi].
Qed.

Lemma final_on_host_quiet (x : Event) : is_stage_work x = false -> final_on_host x.
Proof. intros H v Hv. destruct x; simpl in *; congruence. Qed.

Lemma plan_without_bootstrap (a : Args.t) :
  Args.build_stage1_only a = true -> ~ In op_bootstrap (plan a).
Proof.
  intros H. unfold plan. rewrite in_map_iff. intros (x & Hx & Hin).
  apply filter_In in Hin. destruct Hin as [_ Hen].
  destruct x; try discriminate Hx.
  simpl in Hen. rewrite H in Hen. discriminate Hen.
Qed.

Lemma plan_with_final (a : Args.t) :
  runs a stage_final = true -> In op_final_step (plan a).
Proof.
  intros H. unfold plan. apply in_map_iff. exists stage_final. split; [reflexivity|].
  apply filter_In. split; [simpl; tauto|]. simpl. assumption.
Qed.

(** ** A build without bootstrap, to its end *)

Section HostConfigured.

Variable env : Environment.

Ltac on_host_event :=
  let v := fresh "v" in let Hv := fresh "Hv" in
  intros v Hv; simpl in Hv;
  first [ discriminate Hv
        | injection Hv as <-; unfold has_host_tools; rec_simpl;
          repeat match goal with H : Tools.origin _ = _ |- _ => rewrite H end;
          repeat split; reflexivity ].

Lemma final_step_on_host (s : Stages.t) :
  Args.build_stage1_only (Stages.args s) = true ->
  Tools.origin (Stages.host_tools s) = HostTools ->
  final_configured_on_host s (final_step env s).
Proof.
  intros H1 Hh. apply (proj1 (wp_eq _ s (fun s' e o =>
    final_configured_on_host s (s', e, o)))).
  unfold final_configured_on_host, methods_called, state_of, events_of, outcome_of.
  cbn [fst snd].
  wp_run.
  all: (split; [cbn [app]; forall_tac on_host_event | intros _; split; reflexivity]).
Qed.

End HostConfigured.

Lemma failing_final_step_on_host (env : Environment) (fails : Event -> option Exn)
    (s : Stages.t) :
  Args.build_stage1_only (Stages.args s) = true ->
  Tools.origin (Stages.host_tools s) = HostTools ->
  final_configured_on_host s (Failing.final_step env fails s).
Proof.
  intros H1 Hh. pose proof (final_step_on_host env s H1 Hh) as [HF Hend].
  pose proof (final_step_cuts env fails s) as Hc. unfold cut in Hc.
  destruct (first_failure fails (events_of (final_step env s))) as [[pre x]|] eqn:E.
  - destruct Hc as [He Ho]. split.
    + rewrite He. destruct (first_failure_prefix _ _ _ _ E) as [post Hp].
      rewrite Hp in HF. apply Forall_app in HF. apply HF.
    + intros Hno. now destruct (Hno x).
  - rewrite Hc. split; assumption.
Qed.

(** When every collaborator returns. *)
Lemma stage1_only_returning (env : Environment) (a : Args.t) (root : string) :
  Args.build_stage1_only a = true ->
  let r := main env a root in
  ~ In op_bootstrap (entered (run_events r))
  /\ Forall final_on_host (run_events r)
  /\ (runs a stage_final = true ->
      forall s', run_stages r = Some s' -> In op_final_step (entered (run_events r))).
Proof.
  intros H1 r. subst r. rewrite (main_entered env a root). split; [|split].
  - destruct (run_stages (main env a root)); [now apply plan_without_bootstrap | tauto].
  - destruct (constructed_by env a root) as [st|] eqn:E.
    + destruct (main_constructed env a root st E) as [Hc (e0 & Hq & ->)].
      unfold run_events. simpl. apply Forall_app. split.
      * apply (Forall_no_stage_work _ _ final_on_host_quiet Hq).
      * pose proof (dispatch_host env a H1 st (constructed_identity a st Hc)) as [[HF _]].
        exact HF.
    + apply (Forall_no_stage_work _ _ final_on_host_quiet).
      apply main_not_constructed. now apply main_not_constructed_by.
  - intros Hf s' ->. now apply plan_with_final.
Qed.

(** C5: with [--build-stage1-only], whatever call fails, [bootstrap()] is
    never entered, and every configure, build and install call on the final
    builder finds it with the host's tools, not with the tools of a
    bootstrap directory. The final stage is entered whenever the
    orchestrator is constructed and the run is not a single-stage run of
    another stage, unless a builder fails in a stage before it. And
    [final_step()] itself, from any orchestrator of this configuration,
    makes every configure, build and install call on the orchestrator's
    final builder with its tools set to the host's tools object; unless one
    of its calls fails it checks the dependencies, configures, builds and
    installs, and leaves the final builder with the host's tools. *)
Theorem C5_stage1_only_uses_host_tools (env : Environment) (fails : Event -> option Exn)
    (a : Args.t) (root : string) :
  Args.build_stage1_only a = true ->
  let r := Failing.main env fails a root in
  ~ In op_bootstrap (entered (run_events r))
  /\ Forall final_on_host (run_events r)
  /\ (runs a stage_final = true ->
      forall s', run_stages r = Some s' ->
        In op_final_step (entered (run_events r))
        \/ stopped_by fails (run_events r) (run_outcome r))
  /\ (forall s, Stages.args s = a ->
                Tools.origin (Stages.host_tools s) = HostTools ->
                final_configured_on_host s (Failing.final_step env fails s)).
Proof.
  intros H1 r. subst r.
  destruct (stage1_only_returning env a root H1) as (Hb & HF & Hf).
  split; [|split; [|split]].
  - destruct (failing_entered env fails a root) as [rest Hr].
    intros Hin. apply Hb. rewrite Hr. apply in_or_app. now left.
  - now apply failing_Forall.
  - intros Hruns s' Hs'.
    destruct (failing_main env fails a root)
      as [[Hn Hr] | [(pre & exn & _ & Hq & Hr)
                    | (st & e0 & pre & exn & s1 & _ & Hc & Hq & _ & _ & H & Hst & Hr)]];
      rewrite Hr in *.
    + left. now apply (Hf Hruns s').
    + discriminate Hs'.
    + right. exact Hst.
  - intros s Ha Hh. apply failing_final_step_on_host; [now rewrite Ha | assumption].
Qed.

Lemma C5_stage1_only_uses_host_tools_witness :
  let a := Sample.args None false true true None in
  let fails := fails_when is_build in
  let r := Failing.main Sample.env fails a Sample.root in
  ~ In op_bootstrap (entered (run_events r))
  /\ Forall final_on_host (run_events r)
  /\ (runs a stage_final = true ->
      forall s', run_stages r = Some s' ->
        In op_final_step (entered (run_events r))
        \/ stopped_by fails (run_events r) (run_outcome r))
  /\ (forall s, Stages.args s = a ->
                Tools.origin (Stages.host_tools s) = HostTools ->
                final_configured_on_host s (Failing.final_step Sample.env fails s)).
Proof.
  apply (C5_stage1_only_uses_host_tools Sample.env (fails_when is_build)
           (Sample.args None false true true None) Sample.root).
  reflexivity.
Defined.

(** A build without bootstrap and with BOLT on the sample host, when every
    collaborator returns: the final builder is checked with no host tools
    yet, then configured, built and installed with them. *)
Example stage1_only_final_calls :
  let a := Sample.args None false true true None in
  let r := main Sample.env a Sample.root in
  omap (fun e => match method_name e, method_view e with
                 | Some n, Some v => Some (n, Builder.oid (view_builder v), has_host_tools v)
                 | _, _ => None
                 end) (run_events r)
  = [("check_dependencies", 0, false); ("configure", 0, true); ("build", 0, true);
     ("show_install_info", 0, true)].
Proof. vm_compute. reflexivity. Qed.

(** ** The common cmake defines, stage by stage *)

Lemma instrumented_cls_not_bootstrap (c f : bool) :
  is_bootstrap_cls (instrumented_cls c f) = false.
Proof. destruct c, f; reflexivity. Qed.

Lemma carries_update (C m : gmap string string) (k x : string) :
  C !! k = Some x -> dict_update m C !! k = Some x.
Proof. intros H. unfold dict_update. now apply lookup_union_Some_l. Qed.

Lemma default_empty_keeps (d : string) (C : gmap string string) (k x : string) :
  C !! k = Some x -> default_empty d C !! k = Some x.
Proof.
  intros H. unfold default_empty. destruct (C !! d) eqn:E; [assumption|].
  rewrite lookup_insert_ne; [assumption | congruence].
Qed.

Lemma default_empty_other (d : string) (C : gmap string string) (k : string) :
  d <> k -> default_empty d C !! k = C !! k.
Proof.
  intros H. unfold default_empty. destruct (C !! d); [reflexivity|].
  now rewrite lookup_insert_ne.
Qed.

(** [update_defines] keeps every entry but the build type. *)
Lemma update_defines_map_keeps (a : Args.t) (C : gmap string string) (k x : string) :
  C !! k = Some x -> k <> "CMAKE_BUILD_TYPE" -> update_defines_map a C !! k = Some x.
Proof.
  intros Hk Hne. unfold update_defines_map. cbn [fold_left].
  destruct (Args.build_type a);
    [rewrite lookup_insert_ne by congruence|];
    now do 2 apply default_empty_keeps.
Qed.

(** It adds or changes three keys only. *)
Lemma update_defines_map_other (a : Args.t) (C : gmap string string) (k : string) :
  ~ In k ["CMAKE_C_FLAGS"; "CMAKE_CXX_FLAGS"; "CMAKE_BUILD_TYPE"] ->
  update_defines_map a C !! k = C !! k.
Proof.
  intros Hn. unfold update_defines_map. cbn [fold_left].
  assert (H1 : "CMAKE_C_FLAGS" <> k) by (intros <-; apply Hn; simpl; tauto).
  assert (H2 : "CMAKE_CXX_FLAGS" <> k) by (intros <-; apply Hn; simpl; tauto).
  assert (H3 : "CMAKE_BUILD_TYPE" <> k) by (intros <-; apply Hn; simpl; tauto).
  destruct (Args.build_type a);
    [rewrite lookup_insert_ne by assumption|];
    now rewrite !default_empty_other.
Qed.

Section Common.

Variable env : Environment.

Ltac keeps_tac :=
  let s := fresh "s" in
  intros s; apply (proj1 (wp_eq _ s (fun s' _ _ =>
    Stages.common_cmake_defines s' = Stages.common_cmake_defines s)));
  wp_run; reflexivity.

Lemma bootstrap_keeps_common : keeps_common (bootstrap env).
Proof. keeps_tac. Qed.

Lemma instrumentation_keeps_common (c : bool) : keeps_common (instrumentation env c).
Proof. keeps_tac. Qed.

Lemma profiling_keeps_common (c : bool) : keeps_common (profiling env c).
Proof. keeps_tac. Qed.

Lemma setup_instrumentation_keeps_common (c : bool) :
  keeps_common (setup_instrumentation env c).
Proof. keeps_tac. Qed.

Lemma final_step_keeps_common : keeps_common (final_step env).
Proof. keeps_tac. Qed.

Variable a : Args.t.
Variables C0 C1 : gmap string string.

Ltac carries_tac :=
  let k := fresh "k" in let x := fresh "x" in
  let Hk := fresh "Hk" in let Hn := fresh "Hn" in
  first
    [ assumption
    | intros k x Hk Hn; rec_simpl;
      repeat (rewrite lookup_insert_ne
                by (intros <-; apply Hn; simpl; tauto));
      apply carries_update; congruence ].

Ltac common_event :=
  let v := fresh "v" in let Hv := fresh "Hv" in
  intros v Hv; cbn [method_view] in Hv;
  first [ discriminate Hv
        | injection Hv as <-; rec_simpl;
          rewrite ?instrumented_cls_not_bootstrap;
          try match goal with
              | |- context [is_bootstrap_cls (if ?f then _ else _)] => destruct f
              end;
          repeat match goal with
                 | H : is_bootstrap_cls _ = _ |- _ => rewrite H
                 end;
          cbn [is_bootstrap_cls]; carries_tac ].

Ltac inv_tac :=
  unfold defines_inv; rec_simpl;
  refine (conj _ (conj _ (conj _ (conj _ _))));
  [ congruence | congruence | congruence | congruence
  | repeat match goal with
           | H : Stages.instrumented _ = _ |- _ => rewrite H
           end;
    first [ exact I | assumption
          | split; [ first [ assumption | apply instrumented_cls_not_bootstrap
                           | match goal with
                             | |- context [if ?f then _ else _] =>
                                 destruct f; reflexivity
                             end ]
                   | carries_tac ] ] ].

Ltac common_leaf :=
  split; [ cbn [app]; forall_tac common_event
         | let E := fresh "E" in
           intros ? E; try (injection E as <-);
           first
             [ discriminate E
             | exact I
             | inv_tac
             | split; [inv_tac | rec_simpl; assumption] ] ].

Lemma bootstrap_common (s : Stages.t) :
  defines_inv0 a C0 s ->
  wp (bootstrap env) s (post (carries_common C0 C1) (fun _ => defines_inv0 a C0)).
Proof. intros [(Ha & HC & Hd & Hf & Hi) Hnone]. wp_run; common_leaf. Qed.

Lemma instrumentation_common (c : bool) (s : Stages.t) :
  defines_inv a C1 s ->
  wp (instrumentation env c) s (post (carries_common C0 C1) (fun _ => defines_inv a C1)).
Proof. intros (Ha & HC & Hd & Hf & Hi). wp_run; common_leaf. Qed.

Lemma profiling_common (c : bool) (s : Stages.t) :
  defines_inv a C1 s ->
  wp (profiling env c) s (post (carries_common C0 C1) (fun _ => defines_inv a C1)).
Proof.
  intros (Ha & HC & Hd & Hf & Hi).
  wp_run; rec_simpl;
    try (lazymatch type of Hi with _ /\ _ => destruct Hi end); common_leaf.
Qed.

Lemma setup_instrumentation_common (c : bool) (s : Stages.t) :
  defines_inv a C1 s ->
  wp (setup_instrumentation env c) s
     (post (carries_common C0 C1)
           (fun b s' => defines_inv a C1 (Stages.set_instrumented (Some b) s'))).
Proof. intros (Ha & HC & Hd & Hf & Hi). wp_run; common_leaf. Qed.

Lemma final_step_common (s : Stages.t) :
  defines_inv a C1 s ->
  wp (final_step env) s (post (carries_common C0 C1) (fun _ _ => True)).
Proof. intros (Ha & HC & Hd & Hf & Hi). wp_run; common_leaf. Qed.

Hypothesis updated : C1 = update_defines_map a C0.

Lemma dispatch_common (s : Stages.t) :
  defines_inv0 a C0 s ->
  wp (dispatch env) s (post (carries_common C0 C1) (fun _ _ => True)).
Proof.
  apply (dispatch_forall (carries_common C0 C1) env a
                         (defines_inv0 a C0) (defines_inv a C1)).
  - intros s0 H. apply H.
  - intros _ s0 H. now apply bootstrap_common.
  - intros s0 [(Ha & HC & Hd & Hf & Hi) Hnone].
    unfold defines_inv. rec_simpl. rewrite Hnone, Ha, HC. repeat split; auto.
  - intros _ c s0 H. now apply instrumentation_common.
  - intros _ c s0 H. now apply profiling_common.
  - intros _ c s0 H _. now apply setup_instrumentation_common.
  - intros s0 H. now apply final_step_common.
  - intros v Hv. discriminate Hv.
Qed.

End Common.

Lemma constructed_defines (a : Args.t) (st : Stages.t) :
  constructed a st -> defines_inv0 a (Stages.common_cmake_defines st) st.
Proof.
  intros (Ha & Hi & _ & _ & _ & _ & _ & Hd & Hf & _).
  split; [|assumption]. unfold defines_inv. rewrite Hi, Hf, Hd.
  repeat split; try assumption; destruct (Args.full_toolchain a); reflexivity.
Qed.

Lemma carries_common_quiet (C0 C1 : gmap string string) (x : Event) :
  is_stage_work x = false -> carries_common C0 C1 x.
Proof. intros H v Hv. destruct x; simpl in *; congruence. Qed.

(** ** The common cmake defines, builder by builder *)

Lemma default_empty_lookup (d k : string) (C : gmap string string) :
  default_empty d C !! k
  = if decide (d = k) then Some (default "" (C !! d)) else C !! k.
Proof.
  unfold default_empty. destruct (decide (d = k)) as [<-|Hne].
  - destruct (C !! d) eqn:E; [now rewrite E | now rewrite lookup_insert_eq].
  - destruct (C !! d); [reflexivity | now rewrite lookup_insert_ne].
Qed.

(** What [update_defines] adds and sets. *)
Lemma update_defines_map_sets (a : Args.t) (C : gmap string string) :
  update_defines_map a C !! "CMAKE_C_FLAGS" = Some (default "" (C !! "CMAKE_C_FLAGS"))
  /\ update_defines_map a C !! "CMAKE_CXX_FLAGS"
     = Some (default "" (C !! "CMAKE_CXX_FLAGS"))
  /\ update_defines_map a C !! "CMAKE_BUILD_TYPE"
     = match Args.build_type a with
       | Some t => Some (build_type_str t)
       | None => C !! "CMAKE_BUILD_TYPE"
       end.
Proof.
  unfold update_defines_map. cbn [fold_left].
  destruct (Args.build_type a) as [t|].
  - rewrite lookup_insert_eq, !lookup_insert_ne by discriminate.
    rewrite !default_empty_lookup. repeat split.
  - rewrite !default_empty_lookup. repeat split.
Qed.

Section Configured.

Variable env : Environment.
Variable a : Args.t.
Variables C0 C1 : gmap string string.

Ltac all_tac :=
  let k := fresh "k" in let x := fresh "x" in
  let Hk := fresh "Hk" in let Hn := fresh "Hn" in
  first
    [ assumption
    | intros k x Hk; rec_simpl; apply carries_update; congruence
    | intros k x Hk Hn; rec_simpl;
      repeat (rewrite lookup_insert_ne
                by (intros <-; apply Hn; simpl; tauto));
      apply carries_update; congruence ].

Ltac oid_tac :=
  repeat match goal with
         | H : Builder.oid _ = 0 |- _ => rewrite H
         end;
  repeat match goal with
         | |- context [Nat.eqb ?n 0] =>
             lazymatch n with 0 => fail | S _ => fail | _ => idtac end;
             let E := fresh "E" in destruct n eqn:E; [exfalso; lia|]
         end;
  cbn [Nat.eqb].

Ltac configured_event :=
  let v := fresh "v" in let Hv := fresh "Hv" in
  intros v Hv; cbn [method_view] in Hv;
  first [ discriminate Hv
        | injection Hv as <-; rec_simpl;
          rewrite ?instrumented_cls_not_bootstrap;
          try match goal with
              | |- context [is_bootstrap_cls (if ?f then _ else _)] => destruct f
              end;
          repeat match goal with
                 | H : is_bootstrap_cls _ = _ |- _ => rewrite H
                 end;
          cbn [is_bootstrap_cls]; oid_tac; all_tac ].

Ltac configured_inv_tac :=
  unfold configured_inv; rec_simpl;
  refine (conj _ (conj _ (conj _ (conj _ (conj _ (conj _ _))))));
  [ congruence | congruence | congruence | congruence | congruence | lia
  | repeat match goal with
           | H : Stages.instrumented _ = _ |- _ => rewrite H
           end;
    first [ exact I | assumption
          | split; [ first [ assumption | apply instrumented_cls_not_bootstrap
                           | match goal with
                             | |- context [if ?f then _ else _] =>
                                 destruct f; reflexivity
                             end ]
                   | split; [ first [assumption | lia] | all_tac ] ] ] ].

Ltac configured_leaf :=
  split; [ cbn [app]; forall_tac configured_event
         | let E := fresh "E" in
           intros ? E; try (injection E as <-);
           first
             [ discriminate E
             | exact I
             | configured_inv_tac
             | split; [configured_inv_tac | rec_simpl; assumption] ] ].

Ltac configured_intro :=
  intros (Ha & HC & Hd & Hf & Ho & Hn & Hi).

Lemma bootstrap_configured (s : Stages.t) :
  configured_inv0 a C0 s ->
  wp (bootstrap env) s (post (configured_from C0 C1) (fun _ => configured_inv0 a C0)).
Proof. intros [(Ha & HC & Hd & Hf & Ho & Hn & Hi) Hnone]. wp_run; configured_leaf. Qed.

Lemma instrumentation_configured (c : bool) (s : Stages.t) :
  configured_inv a C1 s ->
  wp (instrumentation env c) s
     (post (configured_from C0 C1) (fun _ => configured_inv a C1)).
Proof. intros (Ha & HC & Hd & Hf & Ho & Hn & Hi). wp_run; configured_leaf. Qed.

Lemma profiling_configured (c : bool) (s : Stages.t) :
  configured_inv a C1 s ->
  wp (profiling env c) s (post (configured_from C0 C1) (fun _ => configured_inv a C1)).
Proof.
  intros (Ha & HC & Hd & Hf & Ho & Hn & Hi).
  wp_run; rec_simpl;
    try (lazymatch type of Hi with _ /\ _ => destruct Hi as (Hi1 & Hi2 & Hi3) end);
    configured_leaf.
Qed.

Lemma setup_instrumentation_configured (c : bool) (s : Stages.t) :
  configured_inv a C1 s ->
  wp (setup_instrumentation env c) s
     (post (configured_from C0 C1)
           (fun b s' => configured_inv a C1 (Stages.set_instrumented (Some b) s'))).
Proof. intros (Ha & HC & Hd & Hf & Ho & Hn & Hi). wp_run; configured_leaf. Qed.

Lemma final_step_configured (s : Stages.t) :
  configured_inv a C1 s ->
  wp (final_step env) s (post (configured_from C0 C1) (fun _ _ => True)).
Proof. intros (Ha & HC & Hd & Hf & Ho & Hn & Hi). wp_run; configured_leaf. Qed.

Hypothesis updated : C1 = update_defines_map a C0.

Lemma dispatch_configured (s : Stages.t) :
  configured_inv0 a C0 s ->
  wp (dispatch env) s (post (configured_from C0 C1) (fun _ _ => True)).
Proof.
  apply (dispatch_forall (configured_from C0 C1) env a
                         (configured_inv0 a C0) (configured_inv a C1)).
  - intros s0 H. apply H.
  - intros _ s0 H. now apply bootstrap_configured.
  - intros s0 [(Ha & HC & Hd & Hf & Ho & Hn & Hi) Hnone].
    unfold configured_inv. rec_simpl. rewrite Hnone, Ha, HC. repeat split; auto.
  - intros _ c s0 H. now apply instrumentation_configured.
  - intros _ c s0 H. now apply profiling_configured.
  - intros _ c s0 H _. now apply setup_instrumentation_configured.
  - intros s0 H. now apply final_step_configured.
  - intros v Hv. discriminate Hv.
Qed.

End Configured.

Lemma constructed_configured (a : Args.t) (st : Stages.t) :
  constructed a st -> configured_inv0 a (Stages.common_cmake_defines st) st.
Proof.
  intros (Ha & Hi & Ho & Hn & _ & _ & _ & Hd & Hf & _).
  split; [|assumption]. unfold configured_inv. rewrite Hi, Hf, Hd, Hn.
  repeat split; try assumption; try lia; destruct (Args.full_toolchain a); reflexivity.
Qed.

Lemma configured_from_quiet (C0 C1 : gmap string string) (x : Event) :
  is_stage_work x = false -> configured_from C0 C1 x.
Proof. intros H v Hv. destruct x; simpl in *; congruence. Qed.

(** C2, as the code has it: no stage operation changes the orchestrator's
    common map; the script changes it once, in [update_defines()], which
    adds empty [CMAKE_C_FLAGS] and [CMAKE_CXX_FLAGS] where unset, sets
    [CMAKE_BUILD_TYPE] to the requested build type and leaves every other
    entry as it is. Whatever call fails, the bootstrap builder is called
    with the whole map computed by [__init__] in its configuration, and
    every later builder with the whole updated map: the instrumented
    builders and the builder of the llvm workload with every entry of it,
    the final builder with every entry but the keys [final_step] sets on it
    afterwards. *)
Theorem C2_common_defines_fixed_after_update (env : Environment) (a : Args.t)
    (root : string) :
  (keeps_common (bootstrap env)
   /\ keeps_common (final_step env)
   /\ forall c, keeps_common (instrumentation env c)
                /\ keeps_common (profiling env c)
                /\ keeps_common (setup_instrumentation env c))
  /\ (forall s, Stages.common_cmake_defines (state_of (update_defines s))
                = update_defines_map (Stages.args s) (Stages.common_cmake_defines s))
  /\ match constructed_by env a root with
     | Some st =>
         let C0 := Stages.common_cmake_defines st in
         let C1 := update_defines_map a C0 in
         initial_common_defines a = Some C0
         /\ (forall fails,
               Forall (configured_from C0 C1)
                      (run_events (Failing.main env fails a root)))
         /\ C1 !! "CMAKE_C_FLAGS" = Some (default "" (C0 !! "CMAKE_C_FLAGS"))
         /\ C1 !! "CMAKE_CXX_FLAGS" = Some (default "" (C0 !! "CMAKE_CXX_FLAGS"))
         /\ C1 !! "CMAKE_BUILD_TYPE"
            = match Args.build_type a with
              | Some t => Some (build_type_str t)
              | None => C0 !! "CMAKE_BUILD_TYPE"
              end
         /\ (forall k x, C0 !! k = Some x -> k <> "CMAKE_BUILD_TYPE" ->
                         C1 !! k = Some x)
         /\ (forall k, ~ In k ["CMAKE_C_FLAGS"; "CMAKE_CXX_FLAGS"; "CMAKE_BUILD_TYPE"] ->
                       C1 !! k = C0 !! k)
     | None => True
     end.
Proof.
  split; [|split].
  - split; [apply bootstrap_keeps_common|]. split; [apply final_step_keeps_common|].
    intros c. split; [apply instrumentation_keeps_common|].
    split; [apply profiling_keeps_common | apply setup_instrumentation_keeps_common].
  - reflexivity.
  - destruct (constructed_by env a root) as [st|] eqn:E; [|exact I].
    destruct (main_constructed env a root st E) as [Hc (e0 & Hq & Hm)].
    cbv zeta.
    destruct (update_defines_map_sets a (Stages.common_cmake_defines st))
      as (H1 & H2 & H3).
    split; [apply Hc|]. split; [|repeat split; try assumption].
    + intros fails. apply failing_Forall. rewrite Hm.
      unfold run_events. simpl. apply Forall_app. split.
      * apply (Forall_no_stage_work _ _ (configured_from_quiet _ _) Hq).
      * pose proof (dispatch_configured env a _ _ eq_refl st
                      (constructed_configured a st Hc)) as [[HF _]].
        exact HF.
    + intros k x. apply update_defines_map_keeps.
    + intros k. apply update_defines_map_other.
Qed.

(** [-D CMAKE_BUILD_TYPE=Debug --build-type Release]: the bootstrap builder
    is configured without [CMAKE_C_FLAGS] and with build type [Debug], the
    final builder with an empty [CMAKE_C_FLAGS] and build type [Release];
    the orchestrator's map changed in between. *)
Lemma C2_counterexample :
  let a := Sample.with_defines ["CMAKE_BUILD_TYPE=Debug"] (Some Release)
             (Sample.args None false false false None) in
  let r := main Sample.env a Sample.root in
  configured_with "CMAKE_C_FLAGS" (run_events r)
  = [(LLVMBootstrapBuilder, None); (LLVMSlimBuilder, Some "")]
  /\ configured_with "CMAKE_BUILD_TYPE" (run_events r)
     = [(LLVMBootstrapBuilder, Some "Debug"); (LLVMSlimBuilder, Some "Release")]
  /\ common_value "CMAKE_BUILD_TYPE" (constructed_by Sample.env a Sample.root)
     = Some (Some "Debug")
  /\ common_value "CMAKE_BUILD_TYPE" (run_stages r) = Some (Some "Release").
Proof.
  vm_compute. repeat split.
Qed.

(** ** The instrumented builder of the profiling stage *)

Lemma omap_warnings {B} (f : Event -> option B) (l : list string) :
  (forall s, f (print_warning s) = None) -> omap f (map full_slim_warning l) = [].
Proof.
  intros H. induction l as [|x l IH]; [reflexivity|].
  simpl. unfold full_slim_warning. rewrite H. exact IH.
Qed.

Ltac omap_events :=
  cbn [omap list_omap app];
  rewrite ?omap_app, ?omap_warnings by reflexivity;
  cbn [omap list_omap app]; rec_simpl.

Lemma profiling_instrumented (env : Environment) (c : bool) (s : Stages.t)
    (l : list string) :
  Args.pgo (Stages.args s) = Some l ->
  wp (profiling env c) s (fun s' evs o =>
    exists b,
      profdata_builders evs = [b]
      /\ match Stages.instrumented s with
         | Some i =>
             b = i
             /\ Stages.fresh s' = Stages.fresh s + llvm_workloads l
             /\ Forall (fun w => Builder.oid w = Stages.fresh s) (workload_builders evs)
         | None =>
             fresh_instrumented c s b
             /\ Stages.fresh s' = S (Stages.fresh s) + llvm_workloads l
             /\ Forall (fun w => Builder.oid b < Builder.oid w) (workload_builders evs)
             /\ Forall (fun k => KernelBuilder.toolchain_prefix k = Builder.build b)
                       (kernel_builders evs)
         end).
Proof.
  intros Hpgo. wp_run.
  all: unfold profdata_builders, workload_builders, kernel_builders, llvm_workloads,
         fresh_instrumented, instrumentation_dir_of.
  all: subst; rec_simpl.
  all: repeat match goal with H : Py.mem _ _ = _ |- _ => rewrite H end.
  all: omap_events.
  all: eexists; (split; [reflexivity|]).
  all: repeat split; try lia; repeat constructor; rec_simpl; try lia.
Qed.

(** C6: [profiling(cspgo)], called with PGO workloads, calls
    [generate_profdata()] on exactly one builder. If the orchestrator
    retains an instrumented builder, it is that object, and the only object
    constructed is the builder of the LLVM workload, if that workload is
    requested. Otherwise it is a new object, made first: an instrumented
    builder of the class [cspgo] and [--full-toolchain] select, for the
    folder of the instrumented stage with the tools of the bootstrap stage;
    the builder of the LLVM workload is a later object, and the kernel
    workload takes its toolchain from that builder's folder. *)
Theorem C6_profiling_reuses_or_constructs (env : Environment) (cspgo : bool)
    (s : Stages.t) (l : list string) :
  Args.pgo (Stages.args s) = Some l ->
  let r := profiling env cspgo s in
  exists b,
    profdata_builders (events_of r) = [b]
    /\ match Stages.instrumented s with
       | Some i =>
           b = i
           /\ Stages.fresh (state_of r) = Stages.fresh s + llvm_workloads l
           /\ Forall (fun w => Builder.oid w = Stages.fresh s)
                     (workload_builders (events_of r))
       | None =>
           fresh_instrumented cspgo s b
           /\ Stages.fresh (state_of r) = S (Stages.fresh s) + llvm_workloads l
           /\ Forall (fun w => Builder.oid b < Builder.oid w)
                     (workload_builders (events_of r))
           /\ Forall (fun k => KernelBuilder.toolchain_prefix k = Builder.build b)
                     (kernel_builders (events_of r))
       end.
Proof.
  intros Hpgo r. subst r.
  exact (proj1 (wp_eq _ _ _) (profiling_instrumented env cspgo s l Hpgo)).
Qed.

Lemma C6_profiling_reuses_or_constructs_witness :
  let pgo := ["kernel-defconfig-slim"; "llvm"] in
  let s := sample_stages (Sample.args (Some pgo) false false false (Some stage_profiling)) in
  let r := profiling Sample.env false s in
  Args.pgo (Stages.args s) = Some pgo
  /\ Stages.instrumented s = None
  /\ exists b,
       profdata_builders (events_of r) = [b]
       /\ fresh_instrumented false s b
       /\ Stages.fresh (state_of r) = S (Stages.fresh s) + llvm_workloads pgo
       /\ Forall (fun w => Builder.oid b < Builder.oid w)
                 (workload_builders (events_of r))
       /\ Forall (fun k => KernelBuilder.toolchain_prefix k = Builder.build b)
                 (kernel_builders (events_of r)).
Proof.
  split; [reflexivity|]. split; [reflexivity|].
  apply (C6_profiling_reuses_or_constructs Sample.env false
           (sample_stages (Sample.args (Some ["kernel-defconfig-slim"; "llvm"])
                                       false false false (Some stage_profiling)))
           ["kernel-defconfig-slim"; "llvm"]).
  reflexivity.
Defined.

(** A single-stage run of [profiling]: the instrumented builder is object 1,
    made by [profiling] itself; after a run of all stages it is the builder
    [instrumentation] retained. *)
Example profiling_alone_constructs :
  let a := Sample.args (Some ["llvm"]) false false false (Some stage_profiling) in
  let r := main Sample.env a Sample.root in
  entered (run_events r) = [op_profiling false]
  /\ map (fun b => (Builder.oid b, Builder.cls b)) (profdata_builders (run_events r))
     = [(1, LLVMSlimInstrumentedBuilder)]
  /\ map Builder.oid (workload_builders (run_events r)) = [2; 2]
  /\ run_outcome r = SystemExit 0.
Proof. vm_compute. repeat split. Qed.

Example profiling_reuses_retained :
  let a := Sample.args (Some ["llvm"]) false false false None in
  let s := sample_instrumented false a in
  option_map Builder.oid (Stages.instrumented s) = Some 1
  /\ map Some (profdata_builders (events_of (profiling Sample.env false s)))
     = [Stages.instrumented s].
Proof. vm_compute. repeat split. Qed.

(** ** One target triple for a slim or BOLT kernel workload *)

Lemma reconcile_loop_In (fuel : nat) : forall i l t,
  In t (fst (reconcile_loop fuel i l)) -> In t l.
Proof.
  induction fuel as [|fuel IH]; intros i l t; simpl; [tauto|].
  destruct (nth_error l i) as [u|]; [|tauto].
  destruct (negb (Py.contains "slim" u)); [apply IH|].
  destruct (Py.mem _ l); [|apply IH].
  simpl. intros H. apply IH in H. eapply remove_In; eassumption.
Qed.

Lemma reconcile_loop_keeps (t : string) (fuel : nat) : forall i l,
  (forall u, In u l -> Py.contains "slim" u = true ->
             hd EmptyString (Py.split "-" u) <> t) ->
  In t l -> In t (fst (reconcile_loop fuel i l)).
Proof.
  induction fuel as [|fuel IH]; intros i l Hne Hin; simpl; [assumption|].
  destruct (nth_error l i) as [u|] eqn:Hu; [|assumption].
  destruct (Py.contains "slim" u) eqn:Hs; simpl; [|now apply IH].
  destruct (Py.mem _ l); [|now apply IH].
  simpl. apply IH.
  - intros u' Hu' Hs'. apply Hne; [eapply remove_In; eassumption | assumption].
  - apply remove_other; [|assumption].
    intros E. apply (Hne u); [eapply nth_error_In; eassumption | assumption | now symmetry].
Qed.

Section Triple.

Variable env : Environment.

Lemma slim_split (X : string) :
  In X kernel_configs -> Py.split "-" (X ++ "-slim") = [X; "slim"].
Proof. intros [<-|[<-|[<-|[]]]]; reflexivity. Qed.

Lemma matrix_entry_slim (s : Stages.t) (b : Builder.t) (X t : string) :
  In X kernel_configs ->
  representative env (deref_targets s (Builder.targets b)) (Stages.final_targets s) = Some t ->
  matrix_entry env s b (X ++ "-slim") = (X, [t]).
Proof.
  intros HX. unfold matrix_entry, representative. rewrite (slim_split X HX). simpl.
  destruct (host_target_is_enabled env _).
  - intros [= <-]. reflexivity.
  - destruct (Stages.final_targets s); intros [= <-]. reflexivity.
Qed.

Lemma representative_total (T R : list string) :
  R <> [] -> exists t, representative env T R = Some t.
Proof.
  intros HR. unfold representative. destruct (host_target_is_enabled env T); [eauto|].
  destruct R; [congruence | simpl; eauto].
Qed.

Lemma kernel_matrix_row (s : Stages.t) (b : Builder.t) (X : string) (v : list string) :
  forall (items : list string) (m : gmap string (list string)),
  (forall item, In item items -> fst (matrix_entry env s b item) = X ->
                snd (matrix_entry env s b item) = v) ->
  (m !! X = Some v \/ exists item, In item items /\ fst (matrix_entry env s b item) = X) ->
  fold_left (fun m item => let e := matrix_entry env s b item in <[fst e := snd e]> m)
            items m !! X = Some v.
Proof.
  induction items as [|item items IH]; intros m Hall Hex; cbn [fold_left].
  - destruct Hex as [H|(item & [] & _)]. exact H.
  - cbv zeta. apply IH.
    + intros item' Hin. apply Hall. now right.
    + destruct (String.string_dec (fst (matrix_entry env s b item)) X) as [E|E].
      * left. rewrite E, lookup_insert_eq. f_equal. apply Hall; [now left | exact E].
      * destruct Hex as [H|(item' & [<-|Hin] & E')].
        -- left. rewrite lookup_insert_ne; assumption.
        -- contradiction.
        -- right. eauto.
Qed.

Lemma kernel_target_key (t X : string) :
  In t kernel_targets -> In X kernel_configs ->
  hd EmptyString (Py.split "-" t) = X -> t = X \/ t = (X ++ "-slim")%string.
Proof.
  intros Ht HX. unfold kernel_targets in Ht.
  destruct Ht as [<-|[<-|[<-|[<-|[<-|[<-|[]]]]]]];
    destruct HX as [<-|[<-|[<-|[]]]]; vm_compute; intros E;
    first [discriminate E | now left | now right].
Qed.

Lemma kernel_workloads_slim (pgo : list string) (X : string) :
  Forall (fun c => In c pgo_choices) pgo ->
  In X kernel_configs ->
  In (slim_choice X) pgo ->
  ~ In (full_choice X) pgo ->
  In (X ++ "-slim")%string (kernel_workloads pgo)
  /\ forall t, In t (kernel_workloads pgo) -> In t kernel_targets /\ t <> X.
Proof.
  intros Hall HX Hslim Hfull. unfold kernel_workloads, reconcile.
  pose proof (kernel_pgo_targets_In pgo) as HT.
  destruct (slim_config_target X HX) as (Hs & Hhd & Hne & HXk & HXsk).
  split.
  - apply reconcile_loop_keeps.
    + intros u Hu Hsu E.
      destruct (slim_target u (proj1 (proj1 (HT u Hall) Hu)) Hsu) as (Y & HY & -> & HhdY).
      rewrite HhdY in E. subst Y. clear -HX HY.
      destruct HX as [<-|[<-|[<-|[]]]]; vm_compute in HY; intuition discriminate.
    + apply (HT _ Hall). split; [assumption|]. exact Hslim.
  - intros t Ht. apply reconcile_loop_In in Ht. apply (HT _ Hall) in Ht.
    split; [apply Ht|]. intros ->. apply Hfull, Ht.
Qed.

Lemma kernel_matrix_fresh (n : nat) (s : Stages.t) (b : Builder.t) (l : list string) :
  kernel_matrix env (Stages.set_fresh n s) b l = kernel_matrix env s b l.
Proof. reflexivity. Qed.

Lemma profiling_kernel_matrix (c : bool) (s : Stages.t) (l : list string) :
  Args.pgo (Stages.args s) = Some l ->
  retained_targets s ->
  wp (profiling env c) s (fun s' evs o =>
    match kernel_workloads l with
    | [] => kernel_builders evs = []
    | _ :: _ =>
        exists b k,
          deref_targets s (Builder.targets b) = Stages.final_targets s
          /\ kernel_builders evs = [k]
          /\ KernelBuilder.matrix k = kernel_matrix env s b (kernel_workloads l)
    end).
Proof.
  intros Hpgo Hret. unfold retained_targets in Hret. wp_run.
  all: unfold kernel_builders, kernel_workloads, id in *.
  all: repeat match goal with H : fst (reconcile _) = _ |- _ => rewrite H end.
  all: omap_events; rewrite ?kernel_matrix_fresh.
  all: repeat match goal with H : Stages.instrumented _ = _ |- _ => rewrite H in Hret end.
  all: first [ reflexivity
             | do 2 eexists; refine (conj _ (conj eq_refl eq_refl));
               rec_simpl; rewrite ?Hret; reflexivity ].
Qed.

Lemma final_step_bolt (s : Stages.t) (t : string) :
  Args.bolt (Stages.args s) = true ->
  representative env (Stages.final_targets s) (Stages.final_targets s) = Some t ->
  wp (final_step env) s (fun s' evs o =>
    bolt_matrices evs = [<["defconfig" := [t]]> ∅]).
Proof.
  intros Hbolt Hrep. wp_run.
  all: unfold bolt_matrices, bolt_llvm_targets, representative in *.
  all: omap_events.
  all: cbn [KernelBuilder.matrix KernelBuilder.new].
  all: destruct (host_target_is_enabled env (Stages.final_targets s));
         [ injection Hrep as <-; reflexivity
         | destruct (Stages.final_targets s); [discriminate Hrep|];
           injection Hrep as <-; reflexivity ].
Qed.

(** The targets [__init__] resolves are not empty, when the default targets
    of the LLVM source are not. *)
Lemma init_targets (a : Args.t) (src_folder build_folder : string)
    (kernel_version : list N) :
  (forall f, default_targets env f <> []) ->
  wp (init env a src_folder build_folder kernel_version) tt
     (fun _ e o => match o with
                   | Normal st => Stages.final_targets st <> []
                   | _ => True
                   end).
Proof.
  intros Hdef. unfold init.
  eapply wp_bind_with; [apply prepare_linux_source_shape|].
  intros [] e o [Hq Ho]; destruct o; [|exact I|exact I].
  repeat first
    [ match goal with
      | |- wp (bind (bolt_warnings _ _ _) _) _ _ =>
          eapply wp_bind_with; [apply bolt_warnings_shape|];
          let e := fresh "e" in let o := fresh "o" in
          let Hq := fresh "Hq" in let Ho := fresh "Ho" in
          intros [] e o [Hq Ho]; subst o
      end
    | wp_step ]; cbv beta.
  all: try exact I.
  all: cbn [Stages.final_targets]; try discriminate.
  all: destruct (Args.full_toolchain a); [discriminate | apply Hdef].
Qed.

End Triple.

Lemma constructed_targets (env : Environment) (a : Args.t) (root : string) (st : Stages.t) :
  (forall f, default_targets env f <> []) ->
  constructed_by env a root = Some st ->
  Stages.final_targets st <> [] /\ retained_targets st.
Proof.
  intros Hdef E. split.
  - pose proof (init_targets env a (src_folder_of root) (build_folder_of env a root)
                             DEFAULT_KERNEL_FOR_PGO Hdef) as [Hi].
    unfold constructed_by in E. unfold outcome_of in Hi.
    destruct (init env a (src_folder_of root) (build_folder_of env a root)
                   DEFAULT_KERNEL_FOR_PGO tt) as [[[] e0] [st'|c|x]];
      try discriminate E.
    injection E as <-. exact Hi.
  - destruct (main_constructed env a root st E) as [(_ & Hi & _) _].
    unfold retained_targets. now rewrite Hi.
Qed.

(** C8: with a resolved target list that is not empty there is one
    representative triple, the host triple when the host target is enabled
    in that list and its first target otherwise. The entry of a slim kernel
    workload in the matrix of [profiling] is that one triple, for every
    builder that refers to the resolved list; the kernel builder [profiling]
    builds has that entry for every configuration requested in its slim form
    only; and with [--bolt] the matrix of the BOLT kernel builder that
    [final_step] gives the final builder is that one triple for
    [defconfig]. *)
Theorem C8_one_representative_triple (env : Environment) (s : Stages.t) :
  Stages.final_targets s <> [] ->
  exists t,
    representative env (Stages.final_targets s) (Stages.final_targets s) = Some t
    /\ (forall b X,
          In X kernel_configs ->
          deref_targets s (Builder.targets b) = Stages.final_targets s ->
          matrix_entry env s b (X ++ "-slim") = (X, [t]))
    /\ (forall cspgo pgo X,
          Args.pgo (Stages.args s) = Some pgo ->
          Forall (fun c => In c pgo_choices) pgo ->
          retained_targets s ->
          In X kernel_configs ->
          In (slim_choice X) pgo ->
          ~ In (full_choice X) pgo ->
          exists k,
            kernel_builders (events_of (profiling env cspgo s)) = [k]
            /\ KernelBuilder.matrix k !! X = Some [t])
    /\ (Args.bolt (Stages.args s) = true ->
        bolt_matrices (events_of (final_step env s)) = [<["defconfig" := [t]]> ∅]).
Proof.
  intros Hne.
  destruct (representative_total env (Stages.final_targets s) (Stages.final_targets s) Hne)
    as [t Ht].
  exists t. split; [exact Ht|]. split; [|split].
  - intros b X HX Hb. apply matrix_entry_slim; [assumption|]. now rewrite Hb.
  - intros c pgo X Hpgo Hall Hret HX Hslim Hfull.
    pose proof (proj1 (wp_eq _ _ _) (profiling_kernel_matrix env c s pgo Hpgo Hret)) as H.
    cbv beta in H.
    destruct (kernel_workloads_slim pgo X Hall HX Hslim Hfull) as [Hin Hothers].
    destruct (kernel_workloads pgo) as [|w ws] eqn:Hw; [destruct Hin|].
    destruct H as (b & k & Hb & Hk & Hm).
    exists k. split; [exact Hk|]. rewrite Hm. unfold kernel_matrix.
    assert (Hrow : matrix_entry env s b (X ++ "-slim") = (X, [t]))
      by (apply matrix_entry_slim; [assumption | now rewrite Hb]).
    apply kernel_matrix_row.
    + intros item Hitem Hkey.
      destruct (Hothers item Hitem) as [Hkt HneX].
      destruct (kernel_target_key item X Hkt HX Hkey) as [->| ->]; [congruence|].
      now rewrite Hrow.
    + right. exists (X ++ "-slim")%string. split; [exact Hin | now rewrite Hrow].
  - intros Hbolt. exact (proj1 (wp_eq _ _ _) (final_step_bolt env s t Hbolt Ht)).
Qed.

Lemma C8_one_representative_triple_witness :
  let s := sample_stages (Sample.args (Some ["kernel-defconfig-slim"]) false false true None) in
  Stages.final_targets s <> []
  /\ exists t,
       representative Sample.env (Stages.final_targets s) (Stages.final_targets s) = Some t
       /\ (forall b X,
             In X kernel_configs ->
             deref_targets s (Builder.targets b) = Stages.final_targets s ->
             matrix_entry Sample.env s b (X ++ "-slim") = (X, [t]))
       /\ (forall cspgo pgo X,
             Args.pgo (Stages.args s) = Some pgo ->
             Forall (fun c => In c pgo_choices) pgo ->
             retained_targets s ->
             In X kernel_configs ->
             In (slim_choice X) pgo ->
             ~ In (full_choice X) pgo ->
             exists k,
               kernel_builders (events_of (profiling Sample.env cspgo s)) = [k]
               /\ KernelBuilder.matrix k !! X = Some [t])
       /\ (Args.bolt (Stages.args s) = true ->
           bolt_matrices (events_of (final_step Sample.env s)) = [<["defconfig" := [t]]> ∅]).
Proof.
  assert (H : Stages.final_targets
                (sample_stages (Sample.args (Some ["kernel-defconfig-slim"])
                                            false false true None)) <> [])
    by (intros E; vm_compute in E; discriminate E).
  split; [exact H|].
  apply (C8_one_representative_triple Sample.env
           (sample_stages (Sample.args (Some ["kernel-defconfig-slim"])
                                       false false true None))).
  exact H.
Defined.

(** On the sample host, whose triple is [X86]: the default targets have it;
    with [--targets AArch64 ARM] the first target stands in. *)
Example slim_and_bolt_on_host :
  let a := Sample.args (Some ["kernel-defconfig-slim"]) false false true None in
  let r := main Sample.env a Sample.root in
  kernel_matrices (run_events r) = [[("defconfig", ["X86"])]]
  /\ map map_to_list (bolt_matrices (run_events r)) = [[("defconfig", ["X86"])]].
Proof. vm_compute. repeat split. Qed.

Example slim_and_bolt_cross :
  let a := Sample.with_targets (Some ["AArch64"; "ARM"])
             (Sample.args (Some ["kernel-defconfig-slim"]) false false true None) in
  let r := main Sample.env a Sample.root in
  kernel_matrices (run_events r) = [[("defconfig", ["AArch64"])]]
  /\ map map_to_list (bolt_matrices (run_events r)) = [[("defconfig", ["AArch64"])]].
Proof. vm_compute. repeat split. Qed.

(** ** The alternate Linux source folder *)

Section Linux.
Variable env : Environment.

Lemma bolt_warnings_quiet (a : Args.t) (llvm_folder : string) :
  wp (bolt_warnings env a llvm_folder) tt (fun _ e o => o = Normal tt).
Proof.
  unfold bolt_warnings, when. repeat wp_step; reflexivity.
Qed.

Lemma init_linux (a : Args.t) (src_folder build_folder : string)
    (kernel_version : list N) (given : string) :
  needs_linux_source a = true ->
  Args.linux_folder a = Some given ->
  given <> "" ->
  wp (init env a src_folder build_folder kernel_version) tt
     (fun _ e o =>
        if linux_folder_rejected env given
        then e = [] /\ exists x, o = Raise x /\ is_linux_error x = true
        else forall x, o = Raise x -> is_linux_error x = false).
Proof.
  intros Hneeds Hgiven Hne.
  destruct given as [|c g]; [congruence|].
  unfold init, prepare_linux_source, linux_folder_rejected.
  rewrite Hneeds, Hgiven.
  repeat first
    [ match goal with
      | |- wp (bind (bolt_warnings _ _ _) _) _ _ =>
          eapply wp_bind_with; [apply bolt_warnings_quiet|];
          let e := fresh "e" in let o := fresh "o" in let Ho := fresh "Ho" in
          intros [] e o Ho; subst o
      end
    | wp_step ]; cbv beta.
  all: cbn [orb negb];
    first [ split; [reflexivity | eexists; split; reflexivity]
          | let x := fresh "x" in let E := fresh "E" in
            intros x E; first [discriminate E | injection E as <-; reflexivity] ].
Qed.
End Linux.

(** C9, as the code has it: when BOLT or a kernel PGO workload is requested
    and [--linux-folder] is given, [__init__] raises one of its errors about
    the Linux source exactly when the folder does not exist, has no Makefile
    or is older than the minimum supported version; it raises it before it
    makes any call; and no call of the construction belongs to a stage. *)
Theorem C9_linux_folder_checked_first (env : Environment) (a : Args.t)
    (src_folder build_folder : string) (kernel_version : list N) (given : string) :
  needs_linux_source a = true ->
  Args.linux_folder a = Some given ->
  given <> "" ->
  let r := init env a src_folder build_folder kernel_version tt in
  (linux_folder_rejected env given = true
   <-> exists x, outcome_of r = Raise x /\ is_linux_error x = true)
  /\ (linux_folder_rejected env given = true -> events_of r = [])
  /\ no_stage_work (events_of r) = true.
Proof.
  intros Hneeds Hgiven Hne r. subst r.
  pose proof (proj1 (wp_eq _ _ _)
                (init_linux env a src_folder build_folder kernel_version given
                            Hneeds Hgiven Hne)) as H.
  pose proof (proj1 (wp_eq _ _ _)
                (init_shape env a src_folder build_folder kernel_version)) as [Hq _].
  cbv beta in H.
  destruct (linux_folder_rejected env given).
  - destruct H as [He Hx]. repeat split; auto.
  - split; [|split; [discriminate | assumption]].
    split; [discriminate|]. intros (x & Hx & Hl).
    rewrite (H x Hx) in Hl. discriminate Hl.
Qed.

Lemma C9_linux_folder_checked_first_witness :
  let a := Sample.with_folders (Some "/missing") None
             (Sample.args None false false true None) in
  let r := init Sample.env a "/tc-build/src" "/tc-build/build/llvm"
                DEFAULT_KERNEL_FOR_PGO tt in
  (linux_folder_rejected Sample.env "/missing" = true
   <-> exists x, outcome_of r = Raise x /\ is_linux_error x = true)
  /\ (linux_folder_rejected Sample.env "/missing" = true -> events_of r = [])
  /\ no_stage_work (events_of r) = true.
Proof.
  apply (C9_linux_folder_checked_first Sample.env
           (Sample.with_folders (Some "/missing") None
              (Sample.args None false false true None))
           "/tc-build/src" "/tc-build/build/llvm" DEFAULT_KERNEL_FOR_PGO "/missing").
  - reflexivity.
  - reflexivity.
  - discriminate.
Defined.

(** [--bolt --linux-folder /linux --llvm-folder /missing] on the sample
    host: the Linux folder exists, has a Makefile and is recent enough, and
    the construction raises all the same, about the LLVM folder. *)
Lemma C9_counterexample :
  let a := Sample.with_folders (Some "/linux") (Some "/missing")
             (Sample.args None false false true None) in
  let r := main Sample.env a Sample.root in
  needs_linux_source a = true
  /\ linux_folder_rejected Sample.env "/linux" = false
  /\ run_stages r = None
  /\ run_outcome r = Raise (llvm_missing "/missing").
Proof. vm_compute. repeat split. Qed.

(** The folders of the sample host, one by one. *)
Example linux_folder_missing :
  let a := Sample.with_folders (Some "/missing") None
             (Sample.args (Some ["kernel-defconfig"]) false false false None) in
  let r := main Sample.env a Sample.root in
  run_events r = [] /\ run_outcome r = Raise (linux_missing "/missing").
Proof. vm_compute. repeat split. Qed.

(** ** A request for CSPGO without PGO workloads *)

Section Sim.

Lemma sim_ret {A} (x : A) : sim (ret x) (ret x).
Proof. intros s. reflexivity. Qed.

Lemma sim_emit (e : Event) : sim (emit e) (emit e).
Proof. intros s. reflexivity. Qed.

Lemma sim_raise {A} (x : Exn) : sim (@raise Stages.t A x) (raise x).
Proof. intros s. reflexivity. Qed.

Lemma sim_sys_exit {A} (c : Z) : sim (@sys_exit Stages.t A c) (sys_exit c).
Proof. intros s. reflexivity. Qed.

Lemma sim_modify (f' f : Stages.t -> Stages.t) :
  (forall s, f' (plain s) = plain (f s)) -> sim (modify f') (modify f).
Proof. intros H s. unfold sim_at, modify, plain_result. simpl. now rewrite H. Qed.

Lemma sim_bind {A B} (m' m : Prog Stages.t A) (k' k : A -> Prog Stages.t B) :
  sim m' m -> (forall x, sim (k' x) (k x)) -> sim (bind m' k') (bind m k).
Proof.
  intros Hm Hk s. unfold sim, sim_at in *. unfold bind. rewrite (Hm s).
  unfold plain_result, state_of, events_of, outcome_of.
  destruct (m s) as [[s1 e1] [x|c|x]]; simpl; try reflexivity.
  rewrite (Hk x s1). unfold plain_result, state_of, events_of, outcome_of.
  destruct (k x s1) as [[s2 e2] o]. reflexivity.
Qed.

Lemma sim_bind_get {B} (k' k : Stages.t -> Prog Stages.t B) :
  (forall s0, sim (k' (plain s0)) (k s0)) -> sim (bind get k') (bind get k).
Proof.
  intros Hk s. unfold sim, sim_at in *. unfold bind, get.
  rewrite (Hk s s). unfold plain_result, state_of, events_of, outcome_of.
  destruct (k s s) as [[s2 e2] o]. reflexivity.
Qed.

End Sim.

Lemma deref_projects_plain (s : Stages.t) (r : ListRef) :
  deref_projects (plain s) r = deref_projects s r.
Proof. destruct r; reflexivity. Qed.

Lemma deref_targets_plain (s : Stages.t) (r : ListRef) :
  deref_targets (plain s) r = deref_targets s r.
Proof. destruct r; reflexivity. Qed.

Lemma deref_tools_plain (s : Stages.t) (r : ToolsRef) :
  deref_tools (plain s) r = deref_tools s r.
Proof. destruct r; reflexivity. Qed.

Ltac plain_simpl :=
  cbn [plain without_cspgo
       Stages.args Stages.lsm Stages.instrumented Stages.build_folder Stages.bootstrap_dir
       Stages.instrumentation_dir Stages.cspgo_instrumentation_dir Stages.profiling_dir
       Stages.cspgo_profiling_dir Stages.final_dir Stages.llvm_folder Stages.host_tools
       Stages.def_llvm_builder_cls Stages.final Stages.final_targets Stages.final_projects
       Stages.common_cmake_defines Stages.fresh
       Args.assertions Args.bolt Args.build_folder Args.build_stage1_only
       Args.build_targets Args.build_type Args.check_targets Args.cspgo Args.defines
       Args.full_toolchain Args.install_folder Args.install_targets Args.linux_folder
       Args.llvm_folder Args.lto Args.no_ccache Args.no_update Args.pgo Args.projects
       Args.quiet_cmake Args.ref Args.shallow_clone Args.show_build_commands Args.stage
       Args.targets Args.vendor_string];
  rewrite ?deref_projects_plain, ?deref_targets_plain, ?deref_tools_plain;
  rec_simpl.

Ltac sim_step :=
  lazymatch goal with
  | |- sim (bind get _) (bind get _) =>
      apply sim_bind_get; intros ?; cbv beta; plain_simpl
  | |- sim (bind (bind _ _) _) (bind (bind _ _) _) =>
      apply sim_bind; [|intros ?; cbv beta]
  | |- sim (bind _ _) (bind _ _) => apply sim_bind; [|intros ?; cbv beta]
  | |- sim (ret _) (ret _) => apply sim_ret
  | |- sim (emit _) (emit _) => apply sim_emit
  | |- sim (raise _) (raise _) => apply sim_raise
  | |- sim (sys_exit _) (sys_exit _) => apply sim_sys_exit
  | |- sim (modify _) (modify _) => apply sim_modify; intros ?; reflexivity
  | |- sim (if ?c then _ else _) (if ?c then _ else _) => destruct c eqn:?
  | |- sim (match ?c with _ => _ end) (match ?c with _ => _ end) => destruct c eqn:?
  | |- sim _ _ => first [progress plain_simpl | progress wp_unfold; cbv beta]
  end.

Section Plain.
Variable env : Environment.

Lemma bootstrap_sim : sim (bootstrap env) (bootstrap env).
Proof. repeat sim_step. Qed.

Lemma final_step_sim : sim (final_step env) (final_step env).
Proof. repeat sim_step. Qed.

Lemma update_defines_sim : sim update_defines update_defines.
Proof. repeat sim_step. Qed.

Lemma sim_at_bind_get {B} (s : Stages.t) (k' k : Stages.t -> Prog Stages.t B) :
  sim (k' (plain s)) (k s) -> sim_at s (bind get k') (bind get k).
Proof.
  intros Hk. unfold sim, sim_at in *. unfold bind, get.
  rewrite (Hk s). unfold plain_result, state_of, events_of, outcome_of.
  destruct (k s s) as [[s2 e2] o]. reflexivity.
Qed.

Lemma dispatch_plain (s : Stages.t) :
  truthy_list (Args.pgo (Stages.args s)) = false ->
  sim_at s (dispatch env) (dispatch env).
Proof.
  intros Hpgo. unfold dispatch. apply sim_at_bind_get.
  cbv beta zeta. unfold runs, stage_is. plain_simpl. rewrite Hpgo.
  cbn [andb]. unfold when.
  repeat lazymatch goal with
         | |- sim (bootstrap _) _ => apply bootstrap_sim
         | |- sim (final_step _) _ => apply final_step_sim
         | |- sim update_defines _ => apply update_defines_sim
         | |- sim (bind get _) (bind get _) => apply sim_bind_get; intros ?; cbv beta
         | |- sim (bind _ _) (bind _ _) => apply sim_bind; [|intros ?; cbv beta]
         | |- sim (ret _) _ => apply sim_ret
         | |- sim (emit _) _ => apply sim_emit
         | |- sim (if ?c then _ else _) (if ?c then _ else _) => destruct c
         end.
Qed.

Lemma bind_constructed_plain {A} (m : Prog unit A) (k' k : A -> Prog unit Stages.t) :
  (forall x s, k' x s = constructed_plain (k x s)) ->
  forall s, bind m k' s = constructed_plain (bind m k s).
Proof.
  intros H s. unfold bind. destruct (m s) as [[s1 e1] [x|c|x]]; try reflexivity.
  rewrite H. destruct (k x s1) as [[s2 e2] [st|c|y]]; reflexivity.
Qed.

Lemma init_plain (a : Args.t) (src_folder build_folder : string) (kernel_version : list N) :
  init env (without_cspgo a) src_folder build_folder kernel_version tt
  = constructed_plain (init env a src_folder build_folder kernel_version tt).
Proof.
  unfold init.
  change (prepare_linux_source env (without_cspgo a))
    with (prepare_linux_source env a).
  change (initial_common_defines (without_cspgo a)) with (initial_common_defines a).
  plain_simpl.
  repeat (apply bind_constructed_plain; intros ? []).
  change (bolt_warnings env (without_cspgo a)) with (bolt_warnings env a).
  repeat (apply bind_constructed_plain; intros ? []).
  destruct (initial_common_defines a); reflexivity.
Qed.

End Plain.

Lemma main_plain (env : Environment) (a : Args.t) (root : string) :
  truthy_list (Args.pgo a) = false ->
  same_but_cspgo (main env a root) (main env (without_cspgo a) root).
Proof.
  intros Hpgo. unfold main.
  change (Args.build_folder (without_cspgo a)) with (Args.build_folder a).
  fold (src_folder_of root). fold (build_folder_of env a root).
  rewrite init_plain.
  pose proof (init_shape env a (src_folder_of root) (build_folder_of env a root)
                         DEFAULT_KERNEL_FOR_PGO) as [Hi].
  unfold state_of, events_of, outcome_of in Hi.
  destruct (init env a (src_folder_of root) (build_folder_of env a root)
                 DEFAULT_KERNEL_FOR_PGO tt) as [[[] e0] [st|c|x]];
    simpl in Hi; destruct Hi as [_ Hc]; unfold constructed_plain; simpl.
  - destruct Hc as [Ha _].
    assert (Hst : truthy_list (Args.pgo (Stages.args st)) = false) by now rewrite Ha.
    pose proof (dispatch_plain env st Hst) as Hd. unfold sim_at in Hd. rewrite Hd.
    unfold plain_result, state_of, events_of, outcome_of.
    destruct (dispatch env st) as [[s' e1] o]. repeat split.
  - repeat split.
  - repeat split.
Qed.

Lemma plan_without_pgo (a : Args.t) :
  truthy_list (Args.pgo a) = false -> forallb (fun op => negb (is_pgo_op op)) (plan a) = true.
Proof.
  intros Hpgo. unfold plan, stage_order. cbn [List.filter enabled].
  rewrite Hpgo. cbn [andb].
  destruct (negb (Args.build_stage1_only a) && runs a stage_bootstrap),
           (runs a stage_final); reflexivity.
Qed.

Lemma view_plain (s : Stages.t) (b : Builder.t) : view (plain s) b = view s b.
Proof.
  unfold view. now rewrite deref_tools_plain, deref_targets_plain, deref_projects_plain.
Qed.

Ltac failing_sim_step :=
  first [ sim_step
        | progress (rewrite ?view_plain)
        | progress (failing_unfold; unfold Failing.perform; cbv beta) ].

Section FailingPlain.

Variable env : Environment.
Variable fails : Event -> option Exn.

Lemma failing_bootstrap_sim :
  sim (Failing.bootstrap env fails) (Failing.bootstrap env fails).
Proof. repeat failing_sim_step. Qed.

Lemma failing_final_step_sim :
  sim (Failing.final_step env fails) (Failing.final_step env fails).
Proof. repeat failing_sim_step. Qed.

Lemma failing_dispatch_plain (s : Stages.t) :
  truthy_list (Args.pgo (Stages.args s)) = false ->
  sim_at s (Failing.dispatch env fails) (Failing.dispatch env fails).
Proof.
  intros Hpgo. unfold Failing.dispatch. apply sim_at_bind_get.
  cbv beta zeta. unfold runs, stage_is. plain_simpl. rewrite Hpgo.
  cbn [andb]. unfold when.
  repeat lazymatch goal with
         | |- sim (Failing.bootstrap _ _) _ => apply failing_bootstrap_sim
         | |- sim (Failing.final_step _ _) _ => apply failing_final_step_sim
         | |- sim update_defines _ => apply update_defines_sim
         | |- sim (bind get _) (bind get _) => apply sim_bind_get; intros ?; cbv beta
         | |- sim (bind _ _) (bind _ _) => apply sim_bind; [|intros ?; cbv beta]
         | |- sim (ret _) _ => apply sim_ret
         | |- sim (emit _) _ => apply sim_emit
         | |- sim (if ?c then _ else _) (if ?c then _ else _) => destruct c
         end.
Qed.

Lemma failing_init_plain (a : Args.t) (src_folder build_folder : string)
    (kernel_version : list N) :
  Failing.init env fails (without_cspgo a) src_folder build_folder kernel_version tt
  = constructed_plain (Failing.init env fails a src_folder build_folder kernel_version tt).
Proof.
  unfold Failing.init.
  change (Failing.prepare_linux_source env fails (without_cspgo a))
    with (Failing.prepare_linux_source env fails a).
  change (initial_common_defines (without_cspgo a)) with (initial_common_defines a).
  plain_simpl.
  repeat (apply bind_constructed_plain; intros ? []).
  change (bolt_warnings env (without_cspgo a)) with (bolt_warnings env a).
  repeat (apply bind_constructed_plain; intros ? []).
  destruct (initial_common_defines a); reflexivity.
Qed.

(** The construction of the run with failing collaborators returns the
    orchestrator of the run without, when it returns. *)
Lemma failing_init_constructed (a : Args.t) (src_folder build_folder : string)
    (kernel_version : list N) (e : list Event) (st : Stages.t) :
  Failing.init env fails a src_folder build_folder kernel_version tt = (tt, e, Normal st) ->
  Stages.args st = a.
Proof.
  intros H.
  pose proof (init_cuts env fails a src_folder build_folder kernel_version tt) as Hc.
  pose proof (init_shape env a src_folder build_folder kernel_version) as [Hi].
  unfold cut in Hc. rewrite H in Hc. unfold events_of, outcome_of in *. simpl in Hc.
  destruct (first_failure fails
              (snd (fst (init env a src_folder build_folder kernel_version tt))))
    as [[pre x]|].
  - destruct Hc as [_ Hc]. discriminate Hc.
  - rewrite <- Hc in Hi. simpl in Hi. apply Hi.
Qed.

End FailingPlain.

Lemma failing_main_plain (env : Environment) (fails : Event -> option Exn)
    (a : Args.t) (root : string) :
  truthy_list (Args.pgo a) = false ->
  same_but_cspgo (Failing.main env fails a root)
                 (Failing.main env fails (without_cspgo a) root).
Proof.
  intros Hpgo. unfold Failing.main.
  change (Args.build_folder (without_cspgo a)) with (Args.build_folder a).
  fold (src_folder_of root). fold (build_folder_of env a root).
  rewrite failing_init_plain.
  pose proof (failing_init_constructed env fails a (src_folder_of root)
                (build_folder_of env a root) DEFAULT_KERNEL_FOR_PGO) as Hi.
  destruct (Failing.init env fails a (src_folder_of root) (build_folder_of env a root)
              DEFAULT_KERNEL_FOR_PGO tt) as [[[] e0] [st|c|x]];
    unfold constructed_plain; simpl.
  - assert (Hst : truthy_list (Args.pgo (Stages.args st)) = false)
      by now rewrite (Hi e0 st eq_refl).
    pose proof (failing_dispatch_plain env fails st Hst) as Hd.
    unfold sim_at in Hd. rewrite Hd.
    unfold plain_result, state_of, events_of, outcome_of.
    destruct (Failing.dispatch env fails st) as [[s' e1] o]. repeat split.
  - repeat split.
  - repeat split.
Qed.

(** C10: with [--cspgo] and no PGO workload, no instrumentation or
    profiling stage is entered, plain or context-sensitive; the request
    raises no error of its own: once the orchestrator is constructed the
    run returns or (in single-stage mode) exits with status 0, unless a
    method of a builder fails and ends it; and in every case the run is the
    run of the same configuration without [--cspgo]: the same calls in the
    same order, the same end, the same orchestrator but for the flag it
    holds. *)
Theorem C10_cspgo_without_pgo_ignored (env : Environment) (fails : Event -> option Exn)
    (a : Args.t) (root : string) :
  truthy_list (Args.pgo a) = false ->
  Args.cspgo a = true ->
  let r := Failing.main env fails a root in
  ~ In (op_instrumentation true) (entered (run_events r))
  /\ ~ In (op_profiling true) (entered (run_events r))
  /\ forallb (fun op => negb (is_pgo_op op)) (entered (run_events r)) = true
  /\ (forall s', run_stages r = Some s' ->
                 run_outcome r = Normal tt \/ run_outcome r = SystemExit 0
                 \/ stopped_by fails (run_events r) (run_outcome r))
  /\ same_but_cspgo r (Failing.main env fails (without_cspgo a) root).
Proof.
  intros Hpgo _ r. subst r.
  assert (Hops : forallb (fun op => negb (is_pgo_op op))
                         (entered (run_events (Failing.main env fails a root))) = true).
  { destruct (failing_entered env fails a root) as [rest Hr].
    assert (H : forallb (fun op => negb (is_pgo_op op))
                        (entered (run_events (main env a root))) = true).
    { rewrite (main_entered env a root).
      destruct (run_stages (main env a root)); [now apply plan_without_pgo | reflexivity]. }
    rewrite Hr, forallb_app in H. apply andb_true_iff in H. apply H. }
  assert (Hnot : forall op, is_pgo_op op = true ->
                            ~ In op (entered (run_events (Failing.main env fails a root)))).
  { intros op Hop Hin. rewrite forallb_forall in Hops.
    specialize (Hops op Hin). rewrite Hop in Hops. discriminate Hops. }
  split; [now apply Hnot|]. split; [now apply Hnot|]. split; [exact Hops|].
  split; [|now apply failing_main_plain].
  intros s' Hs'.
  destruct (failing_main env fails a root)
    as [[Hn Hr] | [(pre & exn & _ & Hq & Hr)
                  | (st & e0 & pre & exn & s1 & _ & Hc & Hq & _ & _ & H & Hst & Hr)]];
    rewrite Hr in *.
  - destruct (main_dispatched env a root s' Hs') as (e0 & e1 & _ & _ & _ & body & _ & Hd).
    destruct (Args.stage a), (plan a); intuition.
  - discriminate Hs'.
  - right. right. exact Hst.
Qed.

Lemma C10_cspgo_without_pgo_ignored_witness :
  let a := Sample.args None true false false None in
  let fails := fails_when is_build in
  let r := Failing.main Sample.env fails a Sample.root in
  ~ In (op_instrumentation true) (entered (run_events r))
  /\ ~ In (op_profiling true) (entered (run_events r))
  /\ forallb (fun op => negb (is_pgo_op op)) (entered (run_events r)) = true
  /\ (forall s', run_stages r = Some s' ->
                 run_outcome r = Normal tt \/ run_outcome r = SystemExit 0
                 \/ stopped_by fails (run_events r) (run_outcome r))
  /\ same_but_cspgo r (Failing.main Sample.env fails (without_cspgo a) Sample.root).
Proof.
  apply (C10_cspgo_without_pgo_ignored Sample.env (fails_when is_build)
           (Sample.args None true false false None) Sample.root).
  - reflexivity.
  - reflexivity.
Defined.

(** [--cspgo] alone on the sample host: bootstrap, then the final stage. *)
Example cspgo_alone :
  let r := main Sample.env (Sample.args None true false false None) Sample.root in
  entered (run_events r) = [op_bootstrap; op_final_step]
  /\ run_outcome r = Normal tt
  /\ warnings (run_events r) = [].
Proof. vm_compute. repeat split. Qed.
Lemma sublist_map_filter {A B} (g : A -> B) (f : A -> bool) (l : list A) :
  sublist (map g (List.filter f l)) (map g l).
Proof.
  induction l as [|x l IH]; simpl; [constructor|].
  destruct (f x); simpl; [now apply sublist_skip | now apply sublist_cons].
Qed.

Lemma plan_NoDup (a : Args.t) : List.NoDup (plan a).
Proof.
  unfold plan, stage_order. cbn [List.filter].
  repeat match goal with
         | |- context [if ?c then _ else _] => destruct c
         end;
    cbn [map op_of]; repeat constructor; simpl; intuition discriminate.
Qed.

(** When every collaborator returns, a run that got past the construction
    ends well. *)
Lemma run_ends_returning (env : Environment) (a : Args.t) (root : string) :
  let r := main env a root in
  match run_stages r with
  | Some s' => ends_well a (run_events r) (run_outcome r) /\ Stages.args s' = a
  | None => no_stage_work (run_events r) = true /\ exists x, run_outcome r = Raise x
  end.
Proof.
  cbv zeta. destruct (run_stages (main env a root)) as [s'|] eqn:E.
  - destruct (main_dispatched env a root s' E) as (e0 & e1 & -> & _ & Ha & body & _ & Hd).
    split; [|exact Ha]. unfold ends_well.
    destruct (Args.stage a), (plan a).
    + destruct Hd as [-> ->]. split; [reflexivity|]. apply ends_with_app.
      exists body. reflexivity.
    + destruct Hd as (-> & -> & _ & Hend). split; [reflexivity|]. now apply ends_with_app.
    + destruct Hd as [-> ->]. split; [reflexivity|]. apply ends_with_app.
      exists body. reflexivity.
    + destruct Hd as [-> ->]. split; [reflexivity|]. apply ends_with_app.
      exists body. reflexivity.
  - now apply main_not_constructed.
Qed.

(** The stage operations of a run are entered in the order of the dispatch
    (bootstrap, instrumentation, profiling, their context-sensitive forms,
    final), each at most once. When the construction fails none is entered.
    Otherwise they are the first of the enabled stages the [--stage] option
    lets run: all of them when the run does not end with an exception, and
    those up to the stage in which a builder failed when it does. *)
Theorem stages_entered_in_order (env : Environment) (fails : Event -> option Exn)
    (a : Args.t) (root : string) :
  let r := Failing.main env fails a root in
  let ops := entered (run_events r) in
  sublist ops op_order
  /\ List.NoDup ops
  /\ match run_stages r with
     | Some _ =>
         ops `prefix_of` plan a
         /\ ((forall x, run_outcome r <> Raise x) -> ops = plan a)
         /\ (ops <> plan a -> stopped_by fails (run_events r) (run_outcome r))
     | None => ops = []
     end.
Proof.
  cbv zeta.
  assert (Hpre : forall ops, ops `prefix_of` plan a ->
                             sublist ops op_order /\ List.NoDup ops).
  { intros ops [k Hk]. split.
    - transitivity (plan a); [|apply sublist_map_filter].
      rewrite Hk. apply sublist_inserts_r. reflexivity.
    - pose proof (plan_NoDup a) as Hn. rewrite Hk in Hn.
      now apply List.NoDup_app_remove_r in Hn. }
  pose proof (main_entered env a root) as He.
  destruct (failing_main env fails a root)
    as [[Hn ->] | [(pre & exn & _ & Hq & ->)
                  | (st & e0 & pre & exn & s' & _ & Hc & Hq & _ & Hr & H & Hst & ->)]].
  - rewrite He. destruct (run_stages (main env a root)).
    + assert (Hp : plan a `prefix_of` plan a) by (exists []; now rewrite app_nil_r).
      destruct (Hpre (plan a) Hp) as [H1 H2].
      split; [assumption|]. split; [assumption|]. split; [assumption|].
      split; [reflexivity | tauto].
    + split; [apply sublist_nil_l|]. split; [constructor | reflexivity].
  - unfold run_events, run_stages, run_outcome. cbn [fst snd].
    rewrite (no_stage_work_entered _ Hq).
    split; [apply sublist_nil_l|]. split; [constructor | reflexivity].
  - rewrite Hr in He. unfold run_events, run_stages, run_outcome in *. cbn [fst snd] in *.
    destruct (first_failure_prefix _ _ _ _ H) as [post Hp].
    assert (Hpf : entered (e0 ++ pre) `prefix_of` plan a).
    { exists (entered post). rewrite <- He, Hp, app_assoc. apply entered_app. }
    destruct (Hpre _ Hpf) as [H1 H2].
    repeat split; try assumption.
    + intros Hno. now destruct (Hno exn).
    + intros _. exact Hst.
Qed.

(** A run ends in one of three ways. The construction fails, with an
    exception and before any call that belongs to a stage. Or no call
    fails: in single-stage mode the run exits with status 0 after the
    notice of the stage that ran, and otherwise (no [--stage], or a stage
    the configuration does not enable) it prints the duration and returns.
    Or a method of a builder fails inside a stage, and the run ends at that
    call with its exception: nothing catches it. *)
Theorem run_ends_well_or_fails_early (env : Environment) (fails : Event -> option Exn)
    (a : Args.t) (root : string) :
  let r := Failing.main env fails a root in
  match run_stages r with
  | Some s' =>
      (ends_well a (run_events r) (run_outcome r)
       /\ Stages.args s' = a
       /\ first_failure fails (run_events r) = None)
      \/ stopped_by fails (run_events r) (run_outcome r)
  | None => no_stage_work (run_events r) = true /\ exists x, run_outcome r = Raise x
  end.
Proof.
  cbv zeta. pose proof (run_ends_returning env a root) as Hr. cbv zeta in Hr.
  destruct (failing_main env fails a root)
    as [[Hn ->] | [(pre & exn & _ & Hq & ->)
                  | (st & e0 & pre & exn & s' & _ & Hc & Hq & _ & _ & H & Hst & ->)]].
  - destruct (run_stages (main env a root)); [|exact Hr]. left. tauto.
  - simpl. eauto.
  - simpl. right. exact Hst.
Qed.

(** A build with PGO in which the build of the instrumented compiler
    fails: the bootstrap and the instrumentation stage are entered, and the
    run ends with the exception, two stages short of its plan. *)
Example instrumented_build_fails :
  let a := Sample.args (Some ["llvm"]) false false false None in
  let fails :=
    fails_when (fun e => match e with
                         | build v => negb (is_bootstrap_cls (Builder.cls (view_builder v)))
                         | _ => false
                         end) in
  let r := Failing.main Sample.env fails a Sample.root in
  entered (run_events r) = [op_bootstrap; op_instrumentation false]
  /\ plan a = [op_bootstrap; op_instrumentation false; op_profiling false; op_final_step]
  /\ run_outcome r = Raise (RuntimeError "the command failed").
Proof. vm_compute. repeat split. Qed.

Lemma append_empty_r (s : string) : (s ++ "")%string = s.
Proof.
  induction s as [|c s IH]; [reflexivity|].
  change (String c (s ++ "") = String c s). now rewrite IH.
Qed.

Lemma append_snoc (s t : string) (c : ascii) :
  ((s ++ String c "") ++ t)%string = (s ++ String c t)%string.
Proof.
  induction s as [|c' s IH]; [reflexivity|].
  change (String c' ((s ++ String c "") ++ t) = String c' (s ++ String c t)).
  now rewrite IH.
Qed.

Lemma split_define_from_app (s key : string) :
  split_define_from s key
  = match split_define_from s "" with
    | Some (k, v) => Some ((key ++ k)%string, v)
    | None => None
    end.
Proof.
  revert key. induction s as [|c s IH]; intros key; cbn [split_define_from]; [reflexivity|].
  change ("" ++ String c "")%string with (String c "").
  destruct (Ascii.eqb c "=").
  - now rewrite append_empty_r.
  - rewrite (IH (key ++ String c "")%string), (IH (String c "")).
    destruct (split_define_from s "") as [[k v]|]; [|reflexivity].
    now rewrite append_snoc.
Qed.

Lemma split_define_cons (c : ascii) (s : string) :
  split_define (String c s)
  = if Ascii.eqb c "=" then Some ("", s)
    else match split_define s with
         | Some (k, v) => Some (String c k, v)
         | None => None
         end.
Proof.
  unfold split_define. cbn [split_define_from].
  change ("" ++ String c "")%string with (String c "").
  destruct (Ascii.eqb c "="); [reflexivity|].
  now rewrite split_define_from_app.
Qed.

Lemma key_value_nil (v : string) : key_value "" v = String "=" v.
Proof. reflexivity. Qed.

Lemma key_value_cons (c : ascii) (k v : string) :
  key_value (String c k) v = String c (key_value k v).
Proof. reflexivity. Qed.

Lemma no_equals_cons (c : ascii) (s : string) :
  no_equals (String c s) <-> c <> "="%char /\ no_equals s.
Proof. unfold no_equals. simpl. intuition congruence. Qed.

Lemma split_define_Some (s k v : string) :
  split_define s = Some (k, v) <-> s = key_value k v /\ no_equals k.
Proof.
  revert k v. induction s as [|c s IH]; intros k v.
  - split; [discriminate|]. intros [E _]. destruct k; discriminate E.
  - rewrite split_define_cons. destruct (Ascii.eqb_spec c "=") as [->|Hc].
    + split.
      * intros [= <- <-]. split; [reflexivity | unfold no_equals; simpl; tauto].
      * intros [E Hk]. destruct k as [|c' k'].
        -- rewrite key_value_nil in E. injection E as <-. reflexivity.
        -- rewrite key_value_cons in E. injection E as <- _.
           apply no_equals_cons in Hk. tauto.
    + destruct k as [|c' k'].
      * split.
        -- destruct (split_define s) as [[k0 v0]|]; discriminate.
        -- intros [E _]. rewrite key_value_nil in E. injection E as -> _. congruence.
      * specialize (IH k' v). rewrite key_value_cons, no_equals_cons. split.
        -- destruct (split_define s) as [[k0 v0]|]; [|discriminate].
           intros [= <- <- <-]. destruct (proj1 IH eq_refl) as [-> Hk0].
           auto.
        -- intros [E [_ Hk]]. injection E as <- ->.
           rewrite (proj2 IH); [reflexivity|]. auto.
Qed.

Lemma split_define_None (s : string) : split_define s = None <-> no_equals s.
Proof.
  induction s as [|c s IH]; [unfold no_equals; simpl; tauto|].
  rewrite split_define_cons, no_equals_cons.
  destruct (Ascii.eqb_spec c "=") as [->|Hc].
  - split; [discriminate | tauto].
  - destruct (split_define s) as [[k v]|].
    + split; [discriminate|]. intros [_ Hs]. apply IH in Hs. discriminate Hs.
    + split; [|reflexivity]. intros _. split; [assumption | now apply IH].
Qed.

(** [define.split('=', 1)] is cut at the first ['=']: a key without ['=']
    and any value, joined by ['='], are split into that key and that value,
    whatever ['='] the value has; and the split gives a single part exactly
    when the define has no ['='] at all. *)
Theorem define_split_at_first_equals (k v d : string) :
  no_equals k ->
  split_define (key_value k v) = Some (k, v)
  /\ (split_define d = None <-> no_equals d).
Proof.
  intros Hk. split; [|apply split_define_None].
  apply split_define_Some. split; [reflexivity | assumption].
Qed.

Lemma define_split_at_first_equals_witness :
  no_equals "CMAKE_C_FLAGS"
  /\ split_define (key_value "CMAKE_C_FLAGS" "-O2 -march=native")
     = Some ("CMAKE_C_FLAGS", "-O2 -march=native")
  /\ (split_define "LLVM_CCACHE_BUILD" = None <-> no_equals "LLVM_CCACHE_BUILD").
Proof.
  assert (H : no_equals "CMAKE_C_FLAGS") by (unfold no_equals; simpl; intuition discriminate).
  split; [exact H|].
  apply (define_split_at_first_equals "CMAKE_C_FLAGS" "-O2 -march=native"
                                      "LLVM_CCACHE_BUILD" H).
Defined.

Lemma dict_of_defines_None (l : list string) :
  forall d, dict_of_defines l d = None <-> Exists no_equals l.
Proof.
  induction l as [|x l IH]; intros d; simpl.
  - split; [discriminate | intros H; inversion H].
  - destruct (split_define x) as [[k v]|] eqn:E.
    + rewrite IH. split; [now right|]. intros H. inversion H as [? ? Hx|]; [|assumption].
      apply split_define_None in Hx. congruence.
    + split; [|reflexivity]. intros _. left. now apply split_define_None.
Qed.

Lemma initial_common_defines_None (a : Args.t) :
  initial_common_defines a = None <->
  exists l, Args.defines a = Some l /\ Exists no_equals l.
Proof.
  unfold initial_common_defines.
  destruct (Args.defines a) as [[|x l]|].
  - split; [discriminate|]. intros (l & [= <-] & H). inversion H.
  - destruct (dict_of_defines (x :: l) ∅) eqn:E.
    + split; [discriminate|]. intros (l' & [= <-] & H).
      apply (dict_of_defines_None (x :: l) ∅) in H. congruence.
    + split; [|reflexivity]. intros _. exists (x :: l). split; [reflexivity|].
      now apply (dict_of_defines_None (x :: l) ∅).
  - split; [discriminate|]. intros (l & [=] & _).
Qed.

(** A [-D] define without ['='] makes the construction fail: the run raises
    an exception, makes no call that belongs to a stage and enters no
    stage. *)
Theorem malformed_define_fails_construction (env : Environment) (a : Args.t)
    (root : string) (l : list string) :
  Args.defines a = Some l ->
  Exists no_equals l ->
  let r := main env a root in
  run_stages r = None
  /\ (exists x, run_outcome r = Raise x)
  /\ no_stage_work (run_events r) = true
  /\ entered (run_events r) = [].
Proof.
  intros Hd Hl r. subst r.
  assert (Hnone : run_stages (main env a root) = None).
  { apply main_not_constructed_by.
    destruct (constructed_by env a root) as [st|] eqn:E; [|reflexivity].
    destruct (main_constructed env a root st E) as [(_ & _ & _ & _ & _ & _ & _ & _ & _ & Hc) _].
    assert (Hn : initial_common_defines a = None)
      by (apply initial_common_defines_None; eauto).
    congruence. }
  split; [exact Hnone|].
  destruct (main_not_constructed env a root Hnone) as [Hq Hx].
  split; [exact Hx|]. split; [exact Hq|].
  now apply no_stage_work_entered.
Qed.

Lemma malformed_define_fails_construction_witness :
  let a := Sample.with_defines ["LLVM_PARALLEL_LINK_JOBS=2"; "LLVM_CCACHE_BUILD"] None
             (Sample.args None false false false None) in
  let r := main Sample.env a Sample.root in
  run_stages r = None
  /\ (exists x, run_outcome r = Raise x)
  /\ no_stage_work (run_events r) = true
  /\ entered (run_events r) = [].
Proof.
  apply (malformed_define_fails_construction Sample.env
           (Sample.with_defines ["LLVM_PARALLEL_LINK_JOBS=2"; "LLVM_CCACHE_BUILD"] None
              (Sample.args None false false false None))
           Sample.root ["LLVM_PARALLEL_LINK_JOBS=2"; "LLVM_CCACHE_BUILD"]).
  - reflexivity.
  - right. left. unfold no_equals. simpl. intuition discriminate.
Defined.

Lemma dict_of_defines_keeps (post : list string) (k v : string) :
  forall d m,
  Forall (fun d' => forall v', split_define d' <> Some (k, v')) post ->
  d !! k = Some v ->
  dict_of_defines post d = Some m -> m !! k = Some v.
Proof.
  induction post as [|x post IH]; intros d m Hpost Hd; simpl.
  - intros [= <-]. exact Hd.
  - inversion Hpost as [|? ? Hx Hrest]; subst.
    destruct (split_define x) as [[k' v']|] eqn:E; [|discriminate].
    apply IH; [assumption|].
    rewrite lookup_insert_ne; [assumption|]. intros ->. now apply (Hx v').
Qed.

Lemma dict_of_defines_last (pre post : list string) (x k v : string) :
  forall d m,
  split_define x = Some (k, v) ->
  Forall (fun d' => forall v', split_define d' <> Some (k, v')) post ->
  dict_of_defines (pre ++ x :: post)%list d = Some m -> m !! k = Some v.
Proof.
  induction pre as [|y pre IH]; intros d m Hx Hpost; simpl.
  - rewrite Hx. apply dict_of_defines_keeps; [assumption|]. apply lookup_insert_eq.
  - destruct (split_define y) as [[k' v']|]; [|discriminate]. now apply IH.
Qed.

Lemma initial_common_defines_last (a : Args.t) (pre post : list string)
    (x k v : string) (C : gmap string string) :
  Args.defines a = Some (pre ++ x :: post)%list ->
  split_define x = Some (k, v) ->
  Forall (fun d' => forall v', split_define d' <> Some (k, v')) post ->
  initial_common_defines a = Some C -> C !! k = Some v.
Proof.
  intros Hd Hx Hpost. unfold initial_common_defines. rewrite Hd.
  destruct (pre ++ x :: post)%list as [|y l] eqn:El; [destruct pre; discriminate El|].
  rewrite <- El.
  destruct (dict_of_defines (pre ++ x :: post)%list ∅) as [m|] eqn:Em; [|discriminate].
  intros [= <-]. unfold dict_update. apply lookup_union_Some_l.
  eapply dict_of_defines_last; eassumption.
Qed.

Lemma configured_as_quiet (k v : string) (x : Event) :
  is_stage_work x = false -> configured_as k v x.
Proof. intros H bv Hv. destruct x; simpl in *; congruence. Qed.

(** The last [-D KEY=VALUE] given for a key reaches every builder: unless
    the key is the build type or one of the keys [final_step] sets, every
    method call on a builder, of whatever stage, finds [VALUE] under [KEY]
    in the builder's cmake defines, before the defaults of the builder's
    class and before what [--assertions] and [--vendor-string] define. *)
Theorem define_reaches_every_builder (env : Environment) (a : Args.t) (root : string)
    (pre post : list string) (x k v : string) :
  Args.defines a = Some (pre ++ x :: post)%list ->
  split_define x = Some (k, v) ->
  Forall (fun d' => forall v', split_define d' <> Some (k, v')) post ->
  ~ In k overridden_keys ->
  Forall (configured_as k v) (run_events (main env a root)).
Proof.
  intros Hd Hx Hpost Hk.
  destruct (constructed_by env a root) as [st|] eqn:E.
  - destruct (main_constructed env a root st E) as [Hc (e0 & Hq & ->)].
    unfold run_events. simpl. apply Forall_app. split.
    + apply (Forall_no_stage_work _ _ (configured_as_quiet k v) Hq).
    + pose proof (dispatch_common env a _ _ eq_refl st (constructed_defines a st Hc))
        as [[HF _]].
      assert (H0 : Stages.common_cmake_defines st !! k = Some v).
      { destruct Hc as (_ & _ & _ & _ & _ & _ & _ & _ & _ & Hi).
        eapply initial_common_defines_last; eassumption. }
      assert (H1 : update_defines_map a (Stages.common_cmake_defines st) !! k = Some v).
      { apply update_defines_map_keeps; [assumption|].
        intros ->. apply Hk. simpl. tauto. }
      assert (Hl : ~ In k stage_local_keys).
      { intros Hin. apply Hk. simpl in *. tauto. }
      eapply Forall_impl; [exact HF|]. intros e He bv Hbv.
      specialize (He bv Hbv).
      destruct (is_bootstrap_cls (Builder.cls (view_builder bv))); now apply He.
  - apply (Forall_no_stage_work _ _ (configured_as_quiet k v)).
    apply main_not_constructed. now apply main_not_constructed_by.
Qed.

Lemma define_reaches_every_builder_witness :
  let a := Sample.with_defines ["LLVM_ENABLE_ASSERTIONS=OFF"; "LLVM_ENABLE_ASSERTIONS=ON=1"]
             None (Sample.args (Some ["llvm"]) false false false None) in
  Forall (configured_as "LLVM_ENABLE_ASSERTIONS" "ON=1")
         (run_events (main Sample.env a Sample.root)).
Proof.
  apply (define_reaches_every_builder Sample.env
           (Sample.with_defines ["LLVM_ENABLE_ASSERTIONS=OFF"; "LLVM_ENABLE_ASSERTIONS=ON=1"]
              None (Sample.args (Some ["llvm"]) false false false None))
           Sample.root ["LLVM_ENABLE_ASSERTIONS=OFF"] [] "LLVM_ENABLE_ASSERTIONS=ON=1"
           "LLVM_ENABLE_ASSERTIONS" "ON=1").
  - reflexivity.
  - reflexivity.
  - constructor.
  - simpl. intuition discriminate.
Defined.

Lemma default_empty_fixed (d : string) (C : gmap string string) :
  is_Some (C !! d) -> default_empty d C = C.
Proof. intros [x Hx]. unfold default_empty. now rewrite Hx. Qed.

(** [update_defines()] leaves [CMAKE_C_FLAGS] and [CMAKE_CXX_FLAGS] defined,
    with the user's value where there was one and empty otherwise, and the
    build type set to [--build-type] when that is given; calling it again
    changes nothing. *)
Theorem update_defines_settles (a : Args.t) (C : gmap string string) :
  let C1 := update_defines_map a C in
  C1 !! "CMAKE_C_FLAGS" = Some (default "" (C !! "CMAKE_C_FLAGS"))
  /\ C1 !! "CMAKE_CXX_FLAGS" = Some (default "" (C !! "CMAKE_CXX_FLAGS"))
  /\ C1 !! "CMAKE_BUILD_TYPE"
     = match Args.build_type a with
       | Some t => Some (build_type_str t)
       | None => C !! "CMAKE_BUILD_TYPE"
       end
  /\ update_defines_map a C1 = C1.
Proof.
  cbv zeta. unfold update_defines_map. cbn [fold_left].
  set (C' := default_empty "CMAKE_CXX_FLAGS" (default_empty "CMAKE_C_FLAGS" C)).
  assert (Hc : C' !! "CMAKE_C_FLAGS" = Some (default "" (C !! "CMAKE_C_FLAGS"))).
  { unfold C'. rewrite !default_empty_lookup. reflexivity. }
  assert (Hx : C' !! "CMAKE_CXX_FLAGS" = Some (default "" (C !! "CMAKE_CXX_FLAGS"))).
  { unfold C'. rewrite !default_empty_lookup. reflexivity. }
  assert (Hb : C' !! "CMAKE_BUILD_TYPE" = C !! "CMAKE_BUILD_TYPE").
  { unfold C'. rewrite !default_empty_lookup. reflexivity. }
  destruct (Args.build_type a) as [t|].
  - rewrite !lookup_insert_ne by discriminate. rewrite lookup_insert_eq.
    split; [exact Hc|]. split; [exact Hx|]. split; [reflexivity|].
    rewrite (default_empty_fixed "CMAKE_C_FLAGS")
      by (rewrite lookup_insert_ne by discriminate; rewrite Hc; eauto).
    rewrite (default_empty_fixed "CMAKE_CXX_FLAGS")
      by (rewrite lookup_insert_ne by discriminate; rewrite Hx; eauto).
    apply insert_insert_eq.
  - split; [exact Hc|]. split; [exact Hx|]. split; [exact Hb|].
    rewrite (default_empty_fixed "CMAKE_C_FLAGS") by (rewrite Hc; eauto).
    rewrite (default_empty_fixed "CMAKE_CXX_FLAGS") by (rewrite Hx; eauto).
    reflexivity.
Qed.

(** The decorator [build_stage(title)], around any stage body: the header is
    printed first, then the body runs; an exception or an exit of the body
    passes through with no notice printed; when the body returns, the
    decorated stage returns too, unless the orchestrator (as the body left
    it) is in single-stage mode: then it prints the notice and exits with
    status 0. The decorator itself leaves the orchestrator as the body
    did. *)
Theorem build_stage_wraps (title : string) (func : Prog Stages.t unit) (s : Stages.t) :
  let r0 := func s in
  let r := build_stage title func s in
  state_of r = state_of r0
  /\ events_of r
     = print_header title :: events_of r0
       ++ fst (stage_epilogue title (state_of r0) (outcome_of r0))
  /\ outcome_of r = snd (stage_epilogue title (state_of r0) (outcome_of r0)).
Proof.
  cbv zeta. unfold build_stage, bind, emit, get, state_of, events_of, outcome_of.
  destruct (func s) as [[s1 e1] [[]|c|x]]; cbn [fst snd stage_epilogue].
  - destruct (truthy_opt (Args.stage (Stages.args s1))); simpl;
      rewrite ?app_nil_r; auto.
  - simpl. rewrite app_nil_r. auto.
  - simpl. rewrite app_nil_r. auto.
Qed.

Section Bootstrap.
Variable env : Environment.

Lemma bootstrap_builder (s : Stages.t) :
  wp (bootstrap env) s (fun s' evs o =>
    Forall (bootstrap_call env s) evs
    /\ methods_called evs = ["check_dependencies"; "configure"; "build"]
    /\ shared s' = shared s).
Proof.
  wp_run.
  all: unfold methods_called, shared, bootstrap_call, bootstrap_projects; rec_simpl.
  all: (split; [|split; reflexivity]).
  all: forall_tac ltac:(let v := fresh "v" in let Hv := fresh "Hv" in
                        intros v Hv; cbn [method_view] in Hv;
                        first [ discriminate Hv
                              | injection Hv as <-; rec_simpl;
                                repeat match goal with
                                       | H : Args.bolt _ = _ |- _ => rewrite H
                                       | H : truthy_list _ = _ |- _ => rewrite H
                                       end;
                                rewrite <- ?app_assoc, ?app_nil_r;
                                repeat split; reflexivity ]).
Qed.

(** [bootstrap()] calls [check_dependencies], [configure] and [build], in
    this order, on one builder: a bootstrap builder with the host's tools,
    built in the bootstrap folder, with ccache unless [--no-ccache], the
    targets of its class and the projects of its class followed by [bolt]
    (with [--bolt]) and [compiler-rt] (with PGO). The project list is the
    builder's own: what the orchestrator shares with the later stages
    (resolved targets and projects, host tools, common defines, retained
    builders) is left as it was. *)
Theorem bootstrap_builds_with_host_tools (s : Stages.t) :
  let r := bootstrap env s in
  Forall (bootstrap_call env s) (events_of r)
  /\ methods_called (events_of r) = ["check_dependencies"; "configure"; "build"]
  /\ shared (state_of r) = shared s.
Proof. exact (proj1 (wp_eq _ _ _) (bootstrap_builder s)). Qed.

End Bootstrap.

Section Final.
Variable env : Environment.

Lemma final_step_shares (s : Stages.t) :
  wp (final_step env) s (fun s' evs o =>
    Forall (final_stage_call s) evs
    /\ Forall (final_check_call s) evs
    /\ Stages.final_projects s'
       = projects_after_final (Stages.args s) (Stages.final_projects s)
    /\ Stages.host_tools s'
       = (if bolts_stage1 (Stages.args s)
          then with_bolt_tools (Stages.final_dir s) (Stages.host_tools s)
          else Stages.host_tools s)
    /\ Stages.final_targets s' = Stages.final_targets s).
Proof.
  wp_run.
  all: unfold final_stage_call, projects_after_final, bolts_stage1, with_bolt_tools; rec_simpl.
  all: repeat match goal with
              | H : Args.bolt _ = _ |- _ => rewrite H
              | H : Args.build_stage1_only _ = _ |- _ => rewrite H
              | H : negb _ = _ |- _ => rewrite H
              end; rec_simpl.
  all: (split; [|split; [|repeat split; reflexivity]]).
  all: try (forall_tac ltac:(let v := fresh "v" in let Hv := fresh "Hv" in
                             intros v Hv; cbn [final_call] in Hv;
                             first [ discriminate Hv
                                   | injection Hv as <-; rec_simpl;
                                     repeat split; reflexivity ])).
  all: forall_tac ltac:(let v := fresh "v" in let Hv := fresh "Hv" in
                        unfold final_check_call; intros v Hv;
                        first [ discriminate Hv
                              | injection Hv as <-; rec_simpl;
                                split; [assumption | reflexivity] ]).
Qed.

(** What [final_step] does to what the orchestrator shares. The final
    builder is configured, built and installed with the resolved targets and
    projects and with the tools of the bootstrap stage, or with the host's
    tools in a build without bootstrap. There, with [--bolt], [bolt] is
    added to the resolved projects (unless they have it, or [all]) and the
    BOLT tools of the final folder are set on the host's tools: both are the
    orchestrator's own objects, which it keeps so changed. In every other
    case they are left as they were. *)
Theorem final_step_changes_shared_objects (s : Stages.t) :
  let r := final_step env s in
  Forall (final_stage_call s) (events_of r)
  /\ Forall (final_check_call s) (events_of r)
  /\ Stages.final_projects (state_of r)
     = projects_after_final (Stages.args s) (Stages.final_projects s)
  /\ Stages.host_tools (state_of r)
     = (if bolts_stage1 (Stages.args s)
        then with_bolt_tools (Stages.final_dir s) (Stages.host_tools s)
        else Stages.host_tools s)
  /\ Stages.final_targets (state_of r) = Stages.final_targets s.
Proof. exact (proj1 (wp_eq _ _ _) (final_step_shares s)). Qed.

End Final.

Lemma remove_length (x : string) (l : list string) :
  In x l -> S (length (Py.remove x l)) = length l.
Proof.
  induction l as [|y l IH]; simpl; [tauto|].
  destruct (String.eqb_spec x y) as [->|Hne]; [reflexivity|].
  intros [E|H]; [congruence|]. simpl. now rewrite IH.
Qed.

Lemma reconcile_loop_length (fuel : nat) : forall i l,
  length (fst (reconcile_loop fuel i l)) + length (snd (reconcile_loop fuel i l))
  = length l.
Proof.
  induction fuel as [|fuel IH]; intros i l; simpl; [lia|].
  destruct (nth_error l i) as [u|]; [|simpl; lia].
  destruct (negb (Py.contains "slim" u)); [apply IH|].
  destruct (Py.mem _ l) eqn:Hm; [|apply IH].
  simpl. specialize (IH (S i) (Py.remove (hd "" (Py.split "-" u)) l)).
  apply mem_In in Hm. apply remove_length in Hm. lia.
Qed.

Lemma reconcile_loop_warned (fuel : nat) : forall i l X,
  In X (snd (reconcile_loop fuel i l)) ->
  exists u, In u l /\ Py.contains "slim" u = true
            /\ hd EmptyString (Py.split "-" u) = X.
Proof.
  induction fuel as [|fuel IH]; intros i l X; simpl; [tauto|].
  destruct (nth_error l i) as [u|] eqn:Hu; [|simpl; tauto].
  destruct (Py.contains "slim" u) eqn:Hs; simpl; [|apply IH].
  destruct (Py.mem _ l) eqn:Hm; [|apply IH].
  simpl. intros [<-|H].
  - exists u. split; [eapply nth_error_In; eassumption | auto].
  - destruct (IH _ _ _ H) as (u' & Hin & Hs' & Hhd).
    exists u'. split; [eapply remove_In; eassumption | auto].
Qed.

Lemma reconcile_loop_warned_full (fuel : nat) : forall i l X,
  In X (snd (reconcile_loop fuel i l)) -> In X l.
Proof.
  induction fuel as [|fuel IH]; intros i l X; simpl; [tauto|].
  destruct (nth_error l i) as [u|] eqn:Hu; [|simpl; tauto].
  destruct (Py.contains "slim" u) eqn:Hs; simpl; [|apply IH].
  destruct (Py.mem _ l) eqn:Hm; [|apply IH].
  simpl. intros [<-|H].
  - now apply mem_In.
  - eapply remove_In. eapply IH. eassumption.
Qed.

(** Whatever valid workloads are requested, the loop of [profiling] keeps
    every slim kernel workload, adds none, and drops one entry for each
    warning it prints; it warns only about configurations requested in both
    forms, and what it drops for them is the full form. *)
Theorem reconcile_drops_only_doubled_full (pgo : list string) :
  Forall (fun c => In c pgo_choices) pgo ->
  let requested := kernel_pgo_targets pgo in
  let r := reconcile requested in
  (forall t, In t (fst r) -> In t requested)
  /\ (forall t, In t requested -> Py.contains "slim" t = true -> In t (fst r))
  /\ length (fst r) + length (snd r) = length requested
  /\ (forall X, In X (snd r) ->
                In X kernel_configs /\ In (full_choice X) pgo /\ In (slim_choice X) pgo).
Proof.
  intros Hall requested r. subst requested r. unfold reconcile.
  pose proof (kernel_pgo_targets_In pgo) as HT.
  split; [intros t; apply reconcile_loop_In|].
  split; [|split; [apply reconcile_loop_length|]].
  - intros t Ht Hs. apply reconcile_loop_keeps; [|assumption].
    intros u Hu Hsu E.
    destruct (slim_target u (proj1 (proj1 (HT u Hall) Hu)) Hsu) as (Y & HY & -> & HhdY).
    destruct (slim_target t (proj1 (proj1 (HT t Hall) Ht)) Hs) as (Z & HZ & -> & _).
    rewrite HhdY in E. subst Y. clear -HY HZ.
    destruct HZ as [<-|[<-|[<-|[]]]]; vm_compute in HY; intuition discriminate.
  - intros X HX.
    pose proof (reconcile_loop_warned_full _ _ _ _ HX) as Hfull.
    destruct (reconcile_loop_warned _ _ _ _ HX) as (u & Hu & Hs & Hhd).
    destruct (slim_target u (proj1 (proj1 (HT u Hall) Hu)) Hs) as (Y & HY & -> & HhdY).
    rewrite HhdY in Hhd. subst Y.
    split; [assumption|]. split.
    + apply (HT X Hall). assumption.
    + apply (HT _ Hall) in Hu. apply Hu.
Qed.

Lemma reconcile_drops_only_doubled_full_witness :
  let pgo := ["kernel-defconfig"; "kernel-defconfig-slim"; "kernel-allmodconfig-slim";
              "kernel-allmodconfig"; "llvm"] in
  let requested := kernel_pgo_targets pgo in
  let r := reconcile requested in
  (forall t, In t (fst r) -> In t requested)
  /\ (forall t, In t requested -> Py.contains "slim" t = true -> In t (fst r))
  /\ length (fst r) + length (snd r) = length requested
  /\ (forall X, In X (snd r) ->
                In X kernel_configs /\ In (full_choice X) pgo /\ In (slim_choice X) pgo).
Proof.
  apply (reconcile_drops_only_doubled_full
           ["kernel-defconfig"; "kernel-defconfig-slim"; "kernel-allmodconfig-slim";
            "kernel-allmodconfig"; "llvm"]).
  repeat constructor; simpl; tauto.
Defined.

(** Two configurations requested in both forms, the full form first for
    one and last for the other: the removal of the first full form shifts
    the list under the loop, which steps over the second slim entry, and
    the second full form stays. *)
Example reconcile_steps_over :
  reconcile (kernel_pgo_targets
               ["kernel-defconfig"; "kernel-defconfig-slim";
                "kernel-allmodconfig-slim"; "kernel-allmodconfig"])
  = (["defconfig-slim"; "allmodconfig-slim"; "allmodconfig"], ["defconfig"]).
Proof. reflexivity. Qed.

Lemma starts_with_kernel (s : string) :
  Py.starts_with "kernel-" s = true -> Py.starts_with "kernel" s = true.
Proof.
  do 6 (destruct s as [|? s]; [discriminate|];
        cbn [Py.starts_with]; intros H; apply andb_true_iff in H; destruct H as [-> H];
        cbn [andb]; revert H).
  reflexivity.
Qed.

Lemma contains_kernel (s : string) :
  Py.contains "kernel-" s = true -> Py.contains "kernel" s = true.
Proof.
  induction s as [|c s IH]; [discriminate|].
  cbn [Py.contains]. intros H. apply orb_true_iff in H. apply orb_true_iff.
  destruct H as [H|H]; [left; now apply starts_with_kernel | right; now apply IH].
Qed.

Lemma kernel_workloads_need_source (a : Args.t) (l : list string) :
  Args.pgo a = Some l -> fst (reconcile (kernel_pgo_targets l)) <> [] ->
  needs_linux_source a = true.
Proof.
  intros Hpgo Hne. unfold needs_linux_source. rewrite Hpgo. apply orb_true_iff. right.
  destruct (fst (reconcile (kernel_pgo_targets l))) as [|t ts] eqn:E; [congruence|].
  assert (Ht : In t (kernel_pgo_targets l)).
  { apply (reconcile_loop_In (length (kernel_pgo_targets l)) 0).
    unfold reconcile in E. rewrite E. now left. }
  unfold kernel_pgo_targets in Ht. apply in_map_iff in Ht.
  destruct Ht as (u & _ & Hu). apply filter_In in Hu. destruct Hu as [Hu Hc].
  destruct l as [|x l]; [destruct Hu|].
  destruct (List.filter (Py.contains "kernel") (x :: l)) as [|y ys] eqn:Ef; [|reflexivity].
  assert (Hin : In u (List.filter (Py.contains "kernel") (x :: l)))
    by (apply filter_In; split; [assumption | now apply contains_kernel]).
  rewrite Ef in Hin. destruct Hin.
Qed.

Section Sourced.
Variable env : Environment.
Variable a : Args.t.
Variable src : string.

Ltac sourced_event :=
  let k := fresh "k" in let Hk := fresh "Hk" in
  intros k Hk; cbn [kernel_builder_of] in Hk; rec_simpl;
  first [ discriminate Hk
        | congruence
        | injection Hk as <-; cbn [KernelBuilder.source]; rec_simpl; auto ].

Ltac sourced_leaf :=
  split; [ cbn [app]; forall_tac sourced_event
         | let E := fresh "E" in
           intros ? E; try (injection E as <-);
           first
             [ discriminate E
             | exact I
             | unfold source_inv; rec_simpl;
               refine (conj _ (conj _ (conj _ _)));
               [ congruence | assumption | assumption
               | repeat match goal with
                        | H : Stages.instrumented _ = _ |- _ => rewrite H
                        end;
                 first [exact I | assumption | reflexivity] ] ] ].

Lemma bootstrap_sourced (s : Stages.t) :
  source_inv a src s ->
  wp (bootstrap env) s (post (kernel_sourced src) (fun _ => source_inv a src)).
Proof. intros (Ha & Hs & Hf & Hi). wp_run; sourced_leaf. Qed.

Lemma instrumentation_sourced (c : bool) (s : Stages.t) :
  source_inv a src s ->
  wp (instrumentation env c) s (post (kernel_sourced src) (fun _ => source_inv a src)).
Proof. intros (Ha & Hs & Hf & Hi). wp_run; sourced_leaf. Qed.

Lemma setup_instrumentation_sourced (c : bool) (s : Stages.t) :
  source_inv a src s ->
  wp (setup_instrumentation env c) s
     (post (kernel_sourced src)
           (fun b s' => source_inv a src (Stages.set_instrumented (Some b) s'))).
Proof. intros (Ha & Hs & Hf & Hi). wp_run; sourced_leaf. Qed.

Lemma profiling_sourced (c : bool) (s : Stages.t) :
  source_inv a src s ->
  wp (profiling env c) s (post (kernel_sourced src) (fun _ => source_inv a src)).
Proof.
  intros (Ha & Hs & Hf & Hi). wp_run.
  all: try (assert (Hn : needs_linux_source a = true)
              by (rewrite <- Ha; eapply kernel_workloads_need_source;
                  [eassumption | unfold id in *; congruence])).
  all: sourced_leaf.
Qed.

Lemma final_step_sourced (s : Stages.t) :
  source_inv a src s ->
  wp (final_step env) s (post (kernel_sourced src) (fun _ _ => True)).
Proof.
  intros (Ha & Hs & Hf & Hi). wp_run.
  all: try (assert (Hn : needs_linux_source a = true)
              by (rewrite <- Ha; unfold needs_linux_source;
                  match goal with H : Args.bolt _ = true |- _ => now rewrite H end)).
  all: sourced_leaf.
Qed.

Lemma dispatch_sourced (s : Stages.t) :
  source_inv a src s ->
  wp (dispatch env) s (post (kernel_sourced src) (fun _ _ => True)).
Proof.
  apply (dispatch_forall (kernel_sourced src) env a (source_inv a src) (source_inv a src)).
  - intros s0 H. apply H.
  - intros _ s0 H. now apply bootstrap_sourced.
  - intros s0 (Ha & Hs & Hf & Hi). repeat split; assumption.
  - intros _ c s0 H. now apply instrumentation_sourced.
  - intros _ c s0 H. now apply profiling_sourced.
  - intros _ c s0 H _. now apply setup_instrumentation_sourced.
  - intros s0 H. now apply final_step_sourced.
  - intros k Hk. discriminate Hk.
Qed.

Lemma init_source (src_folder build_folder : string) (kernel_version : list N) :
  wp (init env a src_folder build_folder kernel_version) tt
     (fun _ e o =>
        match o with
        | Normal st =>
            (needs_linux_source a = true ->
             lsm_location st
             = Some (linux_source_location env a src_folder kernel_version))
            /\ Builder.bolt_builder (Stages.final st) = None
        | _ => True
        end).
Proof.
  unfold init, prepare_linux_source, linux_source_location.
  repeat first
    [ match goal with
      | |- wp (bind (bolt_warnings _ _ _) _) _ _ =>
          eapply wp_bind_with; [apply bolt_warnings_shape|];
          let e := fresh "e" in let o := fresh "o" in
          let Hq := fresh "Hq" in let Ho := fresh "Ho" in
          intros [] e o [Hq Ho]; subst o
      end
    | wp_step ]; cbv beta.
  all: try exact I.
  all: split; [|reflexivity].
  all: first [ intros _; reflexivity | intros Hn; congruence ].
Qed.

End Sourced.

Lemma kernel_sourced_quiet (src : string) (x : Event) :
  is_stage_work x = false -> kernel_sourced src x.
Proof. intros H k Hk. destruct x; simpl in *; congruence. Qed.

(** No kernel is built without its source: every kernel builder of a run,
    that of the kernel workloads of [profiling] as that of BOLT in the final
    stage, has the Linux source folder the construction settled: the folder
    given with [--linux-folder], or else the folder of the default kernel
    under the source folder. *)
Theorem kernel_builders_have_source (env : Environment) (a : Args.t) (root : string) :
  Forall (kernel_sourced
            (linux_source_location env a (src_folder_of root) DEFAULT_KERNEL_FOR_PGO))
         (run_events (main env a root)).
Proof.
  set (src := linux_source_location env a (src_folder_of root) DEFAULT_KERNEL_FOR_PGO).
  destruct (constructed_by env a root) as [st|] eqn:E.
  - destruct (main_constructed env a root st E) as [Hc (e0 & Hq & ->)].
    unfold run_events. simpl. apply Forall_app. split.
    + apply (Forall_no_stage_work _ _ (kernel_sourced_quiet src) Hq).
    + assert (Hinv : source_inv a src st).
      { pose proof (init_source env a (src_folder_of root) (build_folder_of env a root)
                                DEFAULT_KERNEL_FOR_PGO) as [Hi].
        unfold constructed_by in E. unfold outcome_of in Hi.
        destruct (init env a (src_folder_of root) (build_folder_of env a root)
                       DEFAULT_KERNEL_FOR_PGO tt) as [[[] e1] [st'|c|x]];
          try discriminate E.
        injection E as <-. simpl in Hi. destruct Hi as [Hs Hb].
        destruct Hc as (Ha & Hi & _).
        unfold source_inv. rewrite Hi. auto. }
      pose proof (dispatch_sourced env a src st Hinv) as [[HF _]].
      exact HF.
  - apply (Forall_no_stage_work _ _ (kernel_sourced_quiet src)).
    apply main_not_constructed. now apply main_not_constructed_by.
Qed.

Lemma omap_no_fetch {B} (f : Event -> option B) (evs : list Event) :
  (forall e, is_fetch e = false -> f e = None) ->
  Forall (fun e => is_fetch e = false) evs -> omap f evs = [].
Proof.
  intros Hf. induction 1 as [|e evs He _ IH]; [reflexivity|].
  simpl. now rewrite (Hf e He).
Qed.

Section Fetch.
Variable env : Environment.
Variable a : Args.t.

Ltac fetch_leaf :=
  split; [ cbn [app]; forall_tac ltac:(reflexivity)
         | let E := fresh "E" in
           intros ? E; try (injection E as <-);
           first [ discriminate E | exact I | rec_simpl; assumption ] ].

Lemma dispatch_no_fetch (s : Stages.t) :
  Stages.args s = a ->
  wp (dispatch env) s (post (fun e => is_fetch e = false) (fun _ _ => True)).
Proof.
  apply (dispatch_forall (fun e => is_fetch e = false) env a (args_are a) (args_are a));
    unfold args_are.
  - auto.
  - intros _ s0 H. wp_run; fetch_leaf.
  - intros s0 H. exact H.
  - intros _ c s0 H. wp_run; fetch_leaf.
  - intros _ c s0 H. wp_run; fetch_leaf.
  - intros _ c s0 H _. wp_run; fetch_leaf.
  - intros s0 H. wp_run; fetch_leaf.
  - reflexivity.
Qed.

Lemma bolt_warnings_no_fetch (llvm_folder : string) :
  wp (bolt_warnings env a llvm_folder) tt
     (fun _ e o => Forall (fun x => is_fetch x = false) e /\ o = Normal tt).
Proof.
  unfold bolt_warnings, when. repeat wp_step; (split; [|reflexivity]);
    repeat constructor.
Qed.

Lemma init_fetches (src_folder build_folder : string) (kernel_version : list N) :
  wp (init env a src_folder build_folder kernel_version) tt
     (fun _ e o =>
        sublist (llvm_downloads e) (expected_downloads env a src_folder)
        /\ sublist (llvm_updates e) (expected_updates env a src_folder)
        /\ sublist (lsm_prepares e) (expected_prepares env a src_folder kernel_version)
        /\ match o with
           | Normal st =>
               llvm_downloads e = expected_downloads env a src_folder
               /\ llvm_updates e = expected_updates env a src_folder
               /\ lsm_prepares e = expected_prepares env a src_folder kernel_version
           | _ => True
           end).
Proof.
  unfold init, prepare_linux_source, expected_downloads, expected_updates,
    expected_prepares, llvm_folder_of, truthy_str.
  repeat first
    [ match goal with
      | |- wp (bind (bolt_warnings _ _ _) _) _ _ =>
          eapply wp_bind_with; [apply bolt_warnings_no_fetch|];
          let e := fresh "e" in let o := fresh "o" in
          let Hq := fresh "Hq" in let Ho := fresh "Ho" in
          intros [] e o [Hq Ho]; subst o
      end
    | wp_step ]; cbv beta.
  all: unfold llvm_downloads, llvm_updates, lsm_prepares.
  all: cbn [omap list_omap app andb orb negb LinuxSourceManager.location].
  all: rewrite ?app_nil_r.
  all: repeat match goal with
              | Hq : Forall (fun x => is_fetch x = false) ?e |- context [omap ?f ?e] =>
                  rewrite (omap_no_fetch f e)
                    by (assumption
                        || (let H := fresh in
                            intros [] H; first [reflexivity | discriminate H]))
              end.
  all: repeat match goal with
              | H : negb ?b = _ |- _ => destruct b; simpl in H; try discriminate H; clear H
              end.
  all: cbn [app orb].
  all: repeat split; first [reflexivity | apply sublist_nil_l].
Qed.

End Fetch.

(** The script fetches what it owns and nothing else. LLVM is downloaded
    once, into the LLVM folder, and updated once, but never with
    [--llvm-folder] or [--no-update]; the Linux source is prepared once,
    when BOLT or a kernel workload needs it, but never with
    [--linux-folder]. A construction that fails has made some of these
    calls, in this order, and no others; no stage operation fetches
    anything. *)
Theorem sources_fetched_as_owned (env : Environment) (a : Args.t) (root : string) :
  let r := main env a root in
  let src := src_folder_of root in
  sublist (llvm_downloads (run_events r)) (expected_downloads env a src)
  /\ sublist (llvm_updates (run_events r)) (expected_updates env a src)
  /\ sublist (lsm_prepares (run_events r))
             (expected_prepares env a src DEFAULT_KERNEL_FOR_PGO)
  /\ match run_stages r with
     | Some _ =>
         llvm_downloads (run_events r) = expected_downloads env a src
         /\ llvm_updates (run_events r) = expected_updates env a src
         /\ lsm_prepares (run_events r)
            = expected_prepares env a src DEFAULT_KERNEL_FOR_PGO
     | None => True
     end.
Proof.
  cbv zeta. unfold main.
  fold (src_folder_of root). fold (build_folder_of env a root).
  pose proof (init_fetches env a (src_folder_of root) (build_folder_of env a root)
                           DEFAULT_KERNEL_FOR_PGO) as [Hf].
  pose proof (init_shape env a (src_folder_of root) (build_folder_of env a root)
                         DEFAULT_KERNEL_FOR_PGO) as [Hi].
  unfold state_of, events_of, outcome_of in Hf, Hi.
  destruct (init env a (src_folder_of root) (build_folder_of env a root)
                 DEFAULT_KERNEL_FOR_PGO tt) as [[[] e0] [st|c|x]];
    simpl in Hf, Hi; destruct Hf as (H1 & H2 & H3 & H4); destruct Hi as [_ Hc].
  - destruct Hc as [Ha _].
    pose proof (dispatch_no_fetch env a st Ha) as [[HF _]].
    unfold state_of, events_of, outcome_of in HF.
    destruct (dispatch env st) as [[s' e1] o]. simpl in HF.
    unfold run_events, run_stages. simpl.
    unfold llvm_downloads, llvm_updates, lsm_prepares in *.
    rewrite !omap_app.
    rewrite !(omap_no_fetch _ e1)
      by (assumption
          || (let H := fresh in intros [] H; first [reflexivity | discriminate H])).
    rewrite !app_nil_r. tauto.
  - destruct Hc.
  - unfold run_events, run_stages. simpl. tauto.
Qed.

Section Instrumented.
Variable env : Environment.

Lemma instrumentation_retained (c : bool) (s : Stages.t) (l : list string) :
  Args.pgo (Stages.args s) = Some l ->
  wp (instrumentation env c) s (fun s' evs o =>
    exists b,
      retained_instrumented env c s l b
      /\ Stages.instrumented s' = Some b
      /\ builder_calls evs = [("configure", b); ("build", b)]
      /\ Stages.fresh s' = S (Stages.fresh s)).
Proof.
  intros Hpgo. wp_run.
  all: unfold retained_instrumented, fresh_instrumented, instrumentation_dir_of,
         builder_calls.
  all: subst; rec_simpl; cbn [omap list_omap]; rec_simpl.
  all: eexists; split; [|split; [reflexivity | split; reflexivity]].
  all: rec_simpl; repeat match goal with H : Py.mem _ _ = _ |- _ => rewrite H end.
  all: repeat split.
Qed.

Lemma profiling_llvm_workload (c : bool) (s : Stages.t) (l : list string) :
  Args.pgo (Stages.args s) = Some l ->
  wp (profiling env c) s (fun s' evs o =>
    Forall (llvm_workload_call c s) evs
    /\ length (workload_builders evs) = 2 * llvm_workloads l
    /\ Stages.host_tools s' = Stages.host_tools s
    /\ Stages.instrumented s' = Stages.instrumented s
    /\ Stages.final_targets s' = Stages.final_targets s
    /\ Stages.final_projects s' = Stages.final_projects s).
Proof.
  intros Hpgo. wp_run.
  all: unfold workload_builders, llvm_workloads.
  all: subst; rec_simpl.
  all: repeat match goal with H : Py.mem _ _ = _ |- _ => rewrite H end.
  all: omap_events.
  all: (split; [|repeat split; first [reflexivity | congruence]]).
  all: forall_tac ltac:(let v := fresh "v" in let Hv := fresh "Hv" in
                        unfold llvm_workload_call, llvm_workload_tools,
                          profiling_dir_of, instrumentation_dir_of;
                        intros v Hv;
                        first [ discriminate Hv
                              | injection Hv as <-; rec_simpl;
                                repeat match goal with
                                       | H : negb _ && _ = _ |- _ =>
                                           apply andb_prop in H; destruct H
                                       | H : negb ?b = _ |- _ =>
                                           destruct b; simpl in H; try discriminate H;
                                           clear H
                                       | H : negb ?b && true = false |- _ =>
                                           destruct b; simpl in H; try discriminate H;
                                           clear H
                                       end;
                                repeat split; reflexivity ]).
Qed.
(** [instrumentation(cspgo)] makes one builder, configures it, builds it
    and retains it: a new instrumented builder of the class the arguments
    select, for the folder of the instrumented stage, with the tools of the
    bootstrap stage and the resolved targets and projects; it builds [all]
    for a full toolchain and [distribution] otherwise, and it runs the
    requested tests only when the [llvm] workload is among the PGO
    workloads. *)
Theorem instrumentation_retains_its_builder (c : bool) (s : Stages.t) (l : list string) :
  Args.pgo (Stages.args s) = Some l ->
  let r := instrumentation env c s in
  exists b,
    retained_instrumented env c s l b
    /\ Stages.instrumented (state_of r) = Some b
    /\ builder_calls (events_of r) = [("configure", b); ("build", b)]
    /\ Stages.fresh (state_of r) = S (Stages.fresh s).
Proof.
  intros Hpgo. exact (proj1 (wp_eq _ _ _) (instrumentation_retained c s l Hpgo)).
Qed.

(** The LLVM workload of [profiling(cspgo)] is configured and built exactly
    when [llvm] is among the PGO workloads, on a builder of the default
    class, in the profiling folder, with the resolved targets and projects
    and the tools of the instrumented stage; unless the toolchain is a full
    one its table generators are those of the bootstrap stage. These are
    set on the builder's own tools: the host's tools, the retained
    instrumented builder and the resolved lists are as before. *)
Theorem profiling_llvm_workload_tools (c : bool) (s : Stages.t) (l : list string) :
  Args.pgo (Stages.args s) = Some l ->
  let r := profiling env c s in
  Forall (llvm_workload_call c s) (events_of r)
  /\ length (workload_builders (events_of r)) = 2 * llvm_workloads l
  /\ Stages.host_tools (state_of r) = Stages.host_tools s
  /\ Stages.instrumented (state_of r) = Stages.instrumented s
  /\ Stages.final_targets (state_of r) = Stages.final_targets s
  /\ Stages.final_projects (state_of r) = Stages.final_projects s.
Proof.
  intros Hpgo. exact (proj1 (wp_eq _ _ _) (profiling_llvm_workload c s l Hpgo)).
Qed.

Lemma full_split (X : string) :
  In X kernel_configs -> Py.split "-" X = [X].
Proof. intros [<-|[<-|[<-|[]]]]; reflexivity. Qed.

Lemma kernel_workloads_full (pgo : list string) (X : string) :
  Forall (fun c => In c pgo_choices) pgo ->
  In X kernel_configs ->
  In (full_choice X) pgo ->
  ~ In (slim_choice X) pgo ->
  In X (kernel_workloads pgo)
  /\ forall t, In t (kernel_workloads pgo) ->
               In t kernel_targets /\ t <> (X ++ "-slim")%string.
Proof.
  intros Hall HX Hfull Hslim. unfold kernel_workloads, reconcile.
  pose proof (kernel_pgo_targets_In pgo) as HT.
  destruct (slim_config_target X HX) as (Hs & Hhd & Hne & HXk & HXsk).
  split.
  - apply reconcile_loop_keeps.
    + intros u Hu Hsu E.
      destruct (slim_target u (proj1 (proj1 (HT u Hall) Hu)) Hsu) as (Y & HY & -> & HhdY).
      rewrite HhdY in E. subst Y. apply Hslim. apply (HT _ Hall) in Hu. apply Hu.
    + apply (HT _ Hall). split; [assumption|]. exact Hfull.
  - intros t Ht. apply reconcile_loop_In in Ht. apply (HT _ Hall) in Ht.
    split; [apply Ht|]. intros ->. apply Hslim, Ht.
Qed.

(** A kernel configuration requested in its full form only is built for
    every resolved target, or for the default targets of the LLVM source
    when the resolved targets are [all]: that is its row in the matrix of
    the kernel builder [profiling] builds. *)
Theorem full_kernel_workload_builds_all_targets (c : bool) (s : Stages.t)
    (pgo : list string) (X : string) :
  Args.pgo (Stages.args s) = Some pgo ->
  Forall (fun c => In c pgo_choices) pgo ->
  retained_targets s ->
  In X kernel_configs ->
  In (full_choice X) pgo ->
  ~ In (slim_choice X) pgo ->
  exists k,
    kernel_builders (events_of (profiling env c s)) = [k]
    /\ KernelBuilder.matrix k !! X
       = Some (if Py.mem "all" (Stages.final_targets s)
               then default_targets env (Stages.llvm_folder s)
               else Stages.final_targets s).
Proof.
  intros Hpgo Hall Hret HX Hfull Hslim.
  pose proof (proj1 (wp_eq _ _ _) (profiling_kernel_matrix env c s pgo Hpgo Hret)) as H.
  cbv beta in H.
  destruct (kernel_workloads_full pgo X Hall HX Hfull Hslim) as [Hin Hothers].
  destruct (kernel_workloads pgo) as [|w ws] eqn:Hw; [destruct Hin|].
  destruct H as (b & k & Hb & Hk & Hm).
  exists k. split; [exact Hk|]. rewrite Hm. unfold kernel_matrix.
  assert (Hrow : matrix_entry env s b X
                 = (X, if Py.mem "all" (Stages.final_targets s)
                       then default_targets env (Stages.llvm_folder s)
                       else Stages.final_targets s)).
  { unfold matrix_entry. rewrite (full_split X HX). reflexivity. }
  apply kernel_matrix_row.
  - intros item Hitem Hkey.
    destruct (Hothers item Hitem) as [Hkt HneX].
    destruct (kernel_target_key item X Hkt HX Hkey) as [->| ->]; [|congruence].
    now rewrite Hrow.
  - right. exists X. split; [exact Hin | now rewrite Hrow].
Qed.

End Instrumented.


Lemma instrumentation_retains_its_builder_witness :
  let pgo := ["kernel-defconfig"; "llvm"] in
  let s := sample_stages (Sample.args (Some pgo) true false false None) in
  let r := instrumentation Sample.env true s in
  Args.pgo (Stages.args s) = Some pgo
  /\ exists b,
       retained_instrumented Sample.env true s pgo b
       /\ Stages.instrumented (state_of r) = Some b
       /\ builder_calls (events_of r) = [("configure", b); ("build", b)]
       /\ Stages.fresh (state_of r) = S (Stages.fresh s).
Proof.
  split; [reflexivity|].
  apply (instrumentation_retains_its_builder Sample.env true
           (sample_stages (Sample.args (Some ["kernel-defconfig"; "llvm"])
                                       true false false None))
           ["kernel-defconfig"; "llvm"]).
  reflexivity.
Defined.

Lemma profiling_llvm_workload_tools_witness :
  let pgo := ["kernel-defconfig"; "llvm"] in
  let s := sample_stages (Sample.args (Some pgo) false false false None) in
  let r := profiling Sample.env false s in
  Args.pgo (Stages.args s) = Some pgo
  /\ Forall (llvm_workload_call false s) (events_of r)
  /\ length (workload_builders (events_of r)) = 2 * llvm_workloads pgo
  /\ Stages.host_tools (state_of r) = Stages.host_tools s
  /\ Stages.instrumented (state_of r) = Stages.instrumented s
  /\ Stages.final_targets (state_of r) = Stages.final_targets s
  /\ Stages.final_projects (state_of r) = Stages.final_projects s.
Proof.
  split; [reflexivity|].
  apply (profiling_llvm_workload_tools Sample.env false
           (sample_stages (Sample.args (Some ["kernel-defconfig"; "llvm"])
                                       false false false None))
           ["kernel-defconfig"; "llvm"]).
  reflexivity.
Defined.

Lemma full_kernel_workload_builds_all_targets_witness :
  let pgo := ["kernel-defconfig"; "kernel-allmodconfig-slim"] in
  let s := sample_stages (Sample.args (Some pgo) false false false None) in
  exists k,
    kernel_builders (events_of (profiling Sample.env false s)) = [k]
    /\ KernelBuilder.matrix k !! "defconfig"
       = Some (if Py.mem "all" (Stages.final_targets s)
               then default_targets Sample.env (Stages.llvm_folder s)
               else Stages.final_targets s).
Proof.
  apply (full_kernel_workload_builds_all_targets Sample.env false
           (sample_stages (Sample.args (Some ["kernel-defconfig"; "kernel-allmodconfig-slim"])
                                       false false false None))
           ["kernel-defconfig"; "kernel-allmodconfig-slim"] "defconfig").
  - reflexivity.
  - repeat constructor; simpl; tauto.
  - exact I.
  - simpl. tauto.
  - simpl. tauto.
  - simpl. intuition discriminate.
Defined.

Section Profile.
Variable env : Environment.
Variable a : Args.t.
Variable bf : string.

Ltac profiled_event :=
  let v := fresh "v" in let Hv := fresh "Hv" in let Ho := fresh "Ho" in
  intros v Hv Ho; cbn [final_call] in Hv;
  first [ discriminate Hv
        | injection Hv as <-; rec_simpl;
          first [ exfalso; lia
                | idtac ] ].

Ltac inv_leaf tac :=
  split; [ cbn [app]; forall_tac profiled_event
         | let E := fresh "E" in
           intros ? E; try (injection E as <-);
           first [ discriminate E | exact I | tac ] ].

Lemma bootstrap_profiled (s : Stages.t) :
  retained_inv a bf false s /\ Stages.instrumented s = None ->
  wp (bootstrap env) s
     (post (final_profiled (final_profile env a bf))
           (fun _ s' => retained_inv a bf false s' /\ Stages.instrumented s' = None)).
Proof.
  intros [[(Ha & Ho & Hf & H1 & H2) Hi] Hn]. wp_run.
  all: inv_leaf ltac:(unfold retained_inv, folders_inv; rec_simpl;
                      rewrite Hn; repeat split; auto; lia).
Qed.

Lemma instrumentation_profiled (c : bool) (s : Stages.t) (l : list string) :
  Args.pgo a = Some l ->
  folders_inv a bf s ->
  match Stages.instrumented s with Some i => 1 <= Builder.oid i | None => True end ->
  wp (instrumentation env c) s
     (post (final_profiled (final_profile env a bf)) (fun _ => retained_inv a bf c)).
Proof.
  intros Hpgo (Ha & Ho & Hf & H1 & H2) Hi.
  assert (Hp : Args.pgo (Stages.args s) = Some l) by now rewrite Ha.
  wp_run.
  all: inv_leaf ltac:(unfold retained_inv, folders_inv, instrumented_for; rec_simpl;
                      rewrite ?H1, ?H2; rewrite Ha in *;
                      destruct (Args.stage a); [discriminate|];
                      destruct c; repeat split; auto; lia).
Qed.

Lemma profiling_profiled (c c' : bool) (s : Stages.t) (l : list string) :
  Args.pgo a = Some l ->
  retained_inv a bf c' s ->
  wp (profiling env c) s
     (post (final_profiled (final_profile env a bf)) (fun _ => retained_inv a bf c')).
Proof.
  intros Hpgo [(Ha & Ho & Hf & H1 & H2) Hi].
  assert (Hp : Args.pgo (Stages.args s) = Some l) by now rewrite Ha.
  wp_run.
  all: try (lazymatch type of Hi with _ /\ _ => destruct Hi as [(Hb & Hc & Hoi) Hst] end).
  all: inv_leaf ltac:(unfold retained_inv, folders_inv, instrumented_for; rec_simpl;
                      repeat match goal with
                             | H : Stages.instrumented _ = _ |- _ => rewrite H
                             end;
                      repeat split; auto; lia).
Qed.

Lemma setup_instrumentation_profiled (s : Stages.t) (l : list string) :
  Args.pgo a = Some l ->
  folders_inv a bf s ->
  wp (setup_instrumentation env (Args.cspgo a)) s
     (post (final_profiled (final_profile env a bf))
           (fun b s' => profiled_inv a bf (Stages.set_instrumented (Some b) s'))).
Proof.
  intros Hpgo (Ha & Ho & Hf & H1 & H2).
  assert (Hp : Args.pgo (Stages.args s) = Some l) by now rewrite Ha.
  wp_run.
  all: inv_leaf ltac:(unfold profiled_inv, folders_inv, instrumented_for; rec_simpl;
                      rewrite ?H1, ?H2; rewrite Ha in *;
                      split; [repeat split; auto; lia|];
                      eexists; split; [reflexivity|]; rec_simpl;
                      rewrite ?H1, ?H2, ?Ha;
                      destruct (Args.cspgo a); repeat split; auto; lia).
Qed.

Lemma final_step_profiled (s : Stages.t) :
  truthy_list (Args.pgo a) = true ->
  profiled_inv a bf s ->
  wp (final_step env) s (post (final_profiled (final_profile env a bf)) (fun _ _ => True)).
Proof.
  intros Hpgo [(Ha & Ho & Hf & H1 & H2) (i & Hi & Hb & Hc & Hoi)].
  assert (Hp : truthy_list (Args.pgo (Stages.args s)) = true) by now rewrite Ha.
  wp_run.
  all: try congruence.
  all: split; [|intros; exact I].
  all: cbn [app];
    forall_tac ltac:(let v := fresh "v" in let Hv := fresh "Hv" in
                     let Ho' := fresh "Ho" in
                     intros v Hv Ho'; cbn [final_call] in Hv;
                     first [ discriminate Hv
                           | injection Hv as <-; rec_simpl;
                             rewrite lookup_insert_eq; unfold final_profile;
                             rewrite Hc; reflexivity ]).
Qed.

Lemma retained_oid (c : bool) (s : Stages.t) :
  retained_inv a bf c s ->
  match Stages.instrumented s with Some i => 1 <= Builder.oid i | None => True end.
Proof.
  intros [_ H]. destruct (Stages.instrumented s); [|exact I].
  destruct H as [(_ & _ & H) _]. exact H.
Qed.

Lemma retained_skipped (c c' : bool) (x : StageName) (s : Stages.t) :
  runs a x = false -> retained_inv a bf c s -> retained_inv a bf c' s.
Proof.
  intros Hr [Hf H]. split; [assumption|].
  destruct (Stages.instrumented s); [|exact I].
  destruct H as [_ Hst]. unfold runs in Hr. rewrite Hst in Hr. discriminate Hr.
Qed.

Lemma dispatch_profiled (s : Stages.t) (l : list string) :
  Args.pgo a = Some l ->
  truthy_list (Args.pgo a) = true ->
  retained_inv a bf false s /\ Stages.instrumented s = None ->
  wp (dispatch env) s (post (final_profiled (final_profile env a bf)) (fun _ _ => True)).
Proof.
  intros Hl Hpgo H0. unfold dispatch.
  set (phi := final_profiled (final_profile env a bf)).
  apply (post_bind phi _ _ _ (fun x s' => x = s /\ s' = s));
    [apply post_get; auto | intros ? ? [-> ->]].
  assert (Ha : Stages.args s = a) by apply H0.
  cbv zeta. rewrite Ha.
  apply (post_bind phi _ _ _
           (fun _ s' => retained_inv a bf false s' /\ Stages.instrumented s' = None)).
  { apply post_when; [|auto]. intros _. now apply bootstrap_profiled. }
  intros _ s1 H1.
  apply (post_bind phi _ _ _ (fun _ => retained_inv a bf false)).
  { apply post_modify. destruct H1 as [[Hf Hi] Hn].
    split; [exact Hf|]. rec_simpl. now rewrite Hn. }
  clear s1 H1. intros _ s1 H1.
  apply (post_bind phi _ _ _ (fun _ => retained_inv a bf (Args.cspgo a))).
  { apply post_when; [|congruence]. intros _.
    apply (post_bind phi _ _ _ (fun _ => retained_inv a bf false)).
    { apply post_when; [|auto]. intros _.
      apply (instrumentation_profiled false s1 l Hl); [apply H1|].
      now apply (retained_oid false). }
    clear s1 H1. intros _ s1 H1.
    apply (post_bind phi _ _ _ (fun _ => retained_inv a bf false)).
    { apply post_when; [|auto]. intros _. now apply (profiling_profiled false false s1 l). }
    clear s1 H1. intros _ s1 H1.
    destruct (Args.cspgo a) eqn:Hc; [|apply post_ret; assumption].
    cbn [when].
    apply (post_bind phi _ _ _ (fun _ => retained_inv a bf true)).
    { apply post_when.
      - intros _. apply (instrumentation_profiled true s1 l Hl); [apply H1|].
        now apply (retained_oid false).
      - intros Hr. now apply (retained_skipped false true stage_csinstrumentation). }
    clear s1 H1. intros _ s1 H1.
    apply post_when; [|auto]. intros _. now apply (profiling_profiled true true s1 l). }
  clear s1 H1. intros _ s1 H1.
  apply (post_bind phi _ _ _ (fun _ _ => True)).
  { apply post_when; [|auto]. intros _.
    apply (post_bind phi _ _ _ (fun x s' => x = s1 /\ s' = s1));
      [apply post_get; auto | intros ? ? [-> ->]].
    apply (post_bind phi _ _ _ (fun _ => profiled_inv a bf)).
    { apply post_when.
      - intros _.
        apply (post_bind phi _ _ _
                 (fun b s' => profiled_inv a bf (Stages.set_instrumented (Some b) s'))).
        + apply (setup_instrumentation_profiled s1 l Hl). apply H1.
        + intros b s2 H2. apply post_modify. assumption.
      - intros Hc. rewrite Hpgo in Hc. cbn [andb] in Hc. apply negb_false_iff in Hc.
        destruct H1 as [Hf Hi]. split; [exact Hf|].
        destruct (Stages.instrumented s1) as [i|]; [|discriminate Hc].
        exists i. split; [reflexivity | apply Hi]. }
    intros _ s2 H2. now apply final_step_profiled. }
  intros _ s2 _. apply post_emit; [|auto]. intros v Hv. discriminate Hv.
Qed.

End Profile.

Lemma init_folders (env : Environment) (a : Args.t) (src_folder build_folder : string)
    (kernel_version : list N) :
  wp (init env a src_folder build_folder kernel_version) tt
     (fun _ e o =>
        match o with
        | Normal st =>
            Stages.build_folder st = build_folder
            /\ Stages.bootstrap_dir st = Py.path_join build_folder "bootstrap"
            /\ Stages.instrumentation_dir st = Py.path_join build_folder "instrumentation"
            /\ Stages.cspgo_instrumentation_dir st
               = Py.path_join build_folder "cspgo_instrumentation"
            /\ Stages.profiling_dir st = Py.path_join build_folder "profiling"
            /\ Stages.cspgo_profiling_dir st = Py.path_join build_folder "cspgo_profiling"
            /\ Stages.final_dir st = Py.path_join build_folder "final"
        | _ => True
        end).
Proof.
  unfold init, prepare_linux_source.
  repeat first
    [ match goal with
      | |- wp (bind (bolt_warnings _ _ _) _) _ _ =>
          eapply wp_bind_with; [apply bolt_warnings_shape|];
          let e := fresh "e" in let o := fresh "o" in
          let Hq := fresh "Hq" in let Ho := fresh "Ho" in
          intros [] e o [Hq Ho]; subst o
      end
    | wp_step ]; cbv beta.
  all: first [exact I | repeat split].
Qed.

Lemma constructed_folders (env : Environment) (a : Args.t) (root : string) (st : Stages.t) :
  constructed_by env a root = Some st ->
  Stages.build_folder st = build_folder_of env a root
  /\ Stages.bootstrap_dir st = Py.path_join (build_folder_of env a root) "bootstrap"
  /\ Stages.instrumentation_dir st
     = Py.path_join (build_folder_of env a root) "instrumentation"
  /\ Stages.cspgo_instrumentation_dir st
     = Py.path_join (build_folder_of env a root) "cspgo_instrumentation"
  /\ Stages.profiling_dir st = Py.path_join (build_folder_of env a root) "profiling"
  /\ Stages.cspgo_profiling_dir st
     = Py.path_join (build_folder_of env a root) "cspgo_profiling"
  /\ Stages.final_dir st = Py.path_join (build_folder_of env a root) "final".
Proof.
  intros E.
  pose proof (init_folders env a (src_folder_of root) (build_folder_of env a root)
                           DEFAULT_KERNEL_FOR_PGO) as [Hi].
  unfold constructed_by in E. unfold outcome_of in Hi.
  destruct (init env a (src_folder_of root) (build_folder_of env a root)
                 DEFAULT_KERNEL_FOR_PGO tt) as [[[] e0] [st'|c|x]];
    try discriminate E.
  injection E as <-. exact Hi.
Qed.

Lemma final_profiled_quiet (P : string) (x : Event) :
  is_stage_work x = false -> final_profiled P x.
Proof. intros H v Hv. destruct x; simpl in *; congruence. Qed.

(** A PGO build ends with the profile of its last instrumented stage: every
    [configure], [build] and [show_install_info] call on the final builder
    finds [LLVM_PROFDATA_FILE] set to the profile of the context-sensitive
    instrumented stage with [--cspgo], and of the plain one without,
    whether the final stage follows the other stages or runs alone with
    [--stage final]. *)
Theorem final_built_with_last_profile (env : Environment) (a : Args.t) (root : string) :
  truthy_list (Args.pgo a) = true ->
  Forall (final_profiled (final_profile env a (build_folder_of env a root)))
         (run_events (main env a root)).
Proof.
  intros Hpgo.
  set (P := final_profile env a (build_folder_of env a root)).
  destruct (constructed_by env a root) as [st|] eqn:E.
  - destruct (main_constructed env a root st E) as [Hc (e0 & Hq & ->)].
    unfold run_events. simpl. apply Forall_app. split.
    + apply (Forall_no_stage_work _ _ (final_profiled_quiet P) Hq).
    + destruct (Args.pgo a) as [l|] eqn:Hl; [|discriminate Hpgo].
      destruct (constructed_folders env a root st E) as (_ & _ & H1 & H2 & _).
      destruct Hc as (Ha & Hi & Ho & Hf & _).
      assert (H0 : retained_inv a (build_folder_of env a root) false st
                   /\ Stages.instrumented st = None).
      { split; [|exact Hi]. split; [|now rewrite Hi].
        unfold folders_inv. repeat split; auto. lia. }
      assert (Hp : truthy_list (Args.pgo a) = true) by now rewrite Hl.
      pose proof (dispatch_profiled env a (build_folder_of env a root) st l Hl Hp H0)
        as [[HF _]].
      exact HF.
  - apply (Forall_no_stage_work _ _ (final_profiled_quiet P)).
    apply main_not_constructed. now apply main_not_constructed_by.
Qed.

Lemma final_built_with_last_profile_witness :
  let a := Sample.args (Some ["llvm"]) true false false None in
  Forall (final_profiled (final_profile Sample.env a (build_folder_of Sample.env a Sample.root)))
         (run_events (main Sample.env a Sample.root)).
Proof.
  apply (final_built_with_last_profile Sample.env
           (Sample.args (Some ["llvm"]) true false false None) Sample.root).
  reflexivity.
Defined.

(** The final builder of the sample host, with and without [--cspgo], and
    in a single-stage run of the final stage. *)
Example final_profile_cspgo :
  let a := Sample.args (Some ["llvm"]) true false false None in
  last (configured_with "LLVM_PROFDATA_FILE" (run_events (main Sample.env a Sample.root)))
  = Some (LLVMSlimBuilder,
          Some "/tc-build/build/llvm/cspgo_instrumentation/profiles/profdata.prof").
Proof. vm_compute. reflexivity. Qed.

Example final_profile_alone :
  let a := Sample.args (Some ["llvm"]) false false false (Some stage_final) in
  configured_with "LLVM_PROFDATA_FILE" (run_events (main Sample.env a Sample.root))
  = [(LLVMSlimBuilder,
      Some "/tc-build/build/llvm/instrumentation/profiles/profdata.prof")].
Proof. vm_compute. reflexivity. Qed.

(** The BOLT warnings of [__init__]: nothing is printed unless BOLT has to
    instrument and one of the two hazards is there; then three warnings are
    printed for each hazard, then the notice, and the script sleeps five
    seconds, once and last. It never sleeps without having warned, and it
    goes on in every case. *)
Theorem bolt_warnings_then_sleep (env : Environment) (a : Args.t) (llvm_folder : string) :
  let r := bolt_warnings env a llvm_folder tt in
  let warned := bolt_instruments env a
                && (bolt_crash_hazard env a llvm_folder || bolt_machine_hazard env) in
  outcome_of r = Normal tt
  /\ (if warned
      then exists ws,
             events_of r = (map print_warning ws ++ [sleep 5])%list
             /\ length ws = (if bolt_crash_hazard env a llvm_folder then 3 else 0)
                            + (if bolt_machine_hazard env then 3 else 0) + 1
      else events_of r = []).
Proof.
  cbv zeta. unfold bolt_warnings, bolt_instruments, bolt_crash_hazard, bolt_machine_hazard.
  destruct (Args.bolt a && negb (can_use_perf env)); [|split; reflexivity].
  cbn [andb].
  destruct (truthy_list (Args.pgo a) && negb (Args.assertions a)
            && negb (path_exists env _));
    destruct (negb (String.eqb (platform_machine env) "x86_64"));
    (split; [reflexivity|]); cbn [orb];
    first [ reflexivity
          | match goal with
            | |- exists ws, events_of ?r = _ /\ _ => exists (warnings (events_of r))
            end; split; reflexivity ].
Qed.

Section Placement.
Variable env : Environment.
Variable a : Args.t.
Variables bf src : string.

Ltac placed_tac :=
  unfold placed; rec_simpl;
  repeat match goal with
         | H : Stages.llvm_folder _ = _ |- _ => rewrite H
         | H : Stages.bootstrap_dir _ = _ |- _ => rewrite H
         | H : Stages.instrumentation_dir _ = _ |- _ => rewrite H
         | H : Stages.cspgo_instrumentation_dir _ = _ |- _ => rewrite H
         | H : Stages.profiling_dir _ = _ |- _ => rewrite H
         | H : Stages.cspgo_profiling_dir _ = _ |- _ => rewrite H
         | H : Stages.final_dir _ = _ |- _ => rewrite H
         | H : Builder.oid (Stages.final _) = _ |- _ => rewrite H
         end;
  first
    [ assumption
    | repeat match goal with
             | |- context [if ?c then _ else _] => destruct c
             end;
      repeat match goal with
             | |- context [instrumented_cls _ ?f] =>
                 lazymatch f with true => fail | false => fail | _ => destruct f end
             end;
      repeat match goal with
             | H : is_default_cls ?c = true |- context [stage_folders ?c _] =>
                 lazymatch c with
                 | LLVMBuilder => fail
                 | LLVMSlimBuilder => fail
                 | _ => destruct c; try discriminate H
                 end
             end;
      (split; [reflexivity|]);
      eexists; (split; [|reflexivity]);
      cbn [stage_folders instrumented_cls Nat.eqb];
      repeat match goal with
             | |- context [Nat.eqb ?n 0] =>
                 destruct n eqn:?; [exfalso; lia | cbn [Nat.eqb]]
             end;
      simpl; tauto ].

Ltac placed_event :=
  let v := fresh "v" in let Hv := fresh "Hv" in
  intros v Hv; cbn [method_view] in Hv;
  first [ discriminate Hv | injection Hv as <-; rec_simpl; placed_tac ].

Ltac placement_leaf :=
  split; [ cbn [app]; forall_tac placed_event
         | let E := fresh "E" in
           intros ? E; try (injection E as <-);
           first
             [ discriminate E
             | exact I
             | unfold placement_inv; rec_simpl;
               refine (conj _ (conj _ (conj _ (conj _ _))));
               [ congruence | congruence | repeat split; congruence
               | repeat split; first [congruence | lia | assumption]
               | repeat match goal with
                        | H : Stages.instrumented _ = _ |- _ => rewrite H
                        end;
                 first [exact I | placed_tac] ] ] ].

Lemma bootstrap_placed (s : Stages.t) :
  placement_inv a bf src s ->
  wp (bootstrap env) s (post (in_stage_folder bf src) (fun _ => placement_inv a bf src)).
Proof.
  intros (Ha & Hsrc & (D1 & D2 & D3 & D4 & D5 & D6) & (Ho & Hf & Hd & Hc) & Hi).
  wp_run; placement_leaf.
Qed.

Lemma instrumentation_placed (c : bool) (s : Stages.t) :
  placement_inv a bf src s ->
  wp (instrumentation env c) s
     (post (in_stage_folder bf src) (fun _ => placement_inv a bf src)).
Proof.
  intros (Ha & Hsrc & (D1 & D2 & D3 & D4 & D5 & D6) & (Ho & Hf & Hd & Hc) & Hi).
  wp_run; placement_leaf.
Qed.





Lemma setup_instrumentation_placed (c : bool) (s : Stages.t) :
  placement_inv a bf src s ->
  wp (setup_instrumentation env c) s
     (post (in_stage_folder bf src)
           (fun b s' => placement_inv a bf src (Stages.set_instrumented (Some b) s'))).
Proof.
  intros (Ha & Hsrc & (D1 & D2 & D3 & D4 & D5 & D6) & (Ho & Hf & Hd & Hc) & Hi).
  wp_run; placement_leaf.
Qed.

Lemma profiling_placed (c : bool) (s : Stages.t) :
  placement_inv a bf src s ->
  wp (profiling env c) s
     (post (in_stage_folder bf src) (fun _ => placement_inv a bf src)).
Proof.
  intros (Ha & Hsrc & (D1 & D2 & D3 & D4 & D5 & D6) & (Ho & Hf & Hd & Hc) & Hi).
  wp_run; placement_leaf.
Qed.

Lemma final_step_placed (s : Stages.t) :
  placement_inv a bf src s ->
  wp (final_step env) s (post (in_stage_folder bf src) (fun _ _ => True)).
Proof.
  intros (Ha & Hsrc & (D1 & D2 & D3 & D4 & D5 & D6) & (Ho & Hf & Hd & Hc) & Hi).
  wp_run; placement_leaf.
Qed.

Lemma dispatch_placed (s : Stages.t) :
  placement_inv a bf src s ->
  wp (dispatch env) s (post (in_stage_folder bf src) (fun _ _ => True)).
Proof.
  apply (dispatch_forall (in_stage_folder bf src) env a
                         (placement_inv a bf src) (placement_inv a bf src)).
  - intros s0 H. apply H.
  - intros _ s0 H. now apply bootstrap_placed.
  - intros s0 (Ha & Hsrc & Hd & Hid & Hi). repeat split; try apply Hd; try apply Hid; auto.
  - intros _ c s0 H. now apply instrumentation_placed.
  - intros _ c s0 H. now apply profiling_placed.
  - intros _ c s0 H _. now apply setup_instrumentation_placed.
  - intros s0 H. now apply final_step_placed.
  - intros v Hv. discriminate Hv.
Qed.

End Placement.

Lemma init_llvm_folder (env : Environment) (a : Args.t) (src_folder build_folder : string)
    (kernel_version : list N) :
  wp (init env a src_folder build_folder kernel_version) tt
     (fun _ e o =>
        match o with
        | Normal st => Stages.llvm_folder st = llvm_folder_of env a src_folder
        | _ => True
        end).
Proof.
  unfold init, prepare_linux_source, llvm_folder_of.
  repeat first
    [ match goal with
      | |- wp (bind (bolt_warnings _ _ _) _) _ _ =>
          eapply wp_bind_with; [apply bolt_warnings_shape|];
          let e := fresh "e" in let o := fresh "o" in
          let Hq := fresh "Hq" in let Ho := fresh "Ho" in
          intros [] e o [Hq Ho]; subst o
      end
    | wp_step ]; cbv beta.
  all: first [exact I | reflexivity].
Qed.

Lemma in_stage_folder_quiet (bf src : string) (x : Event) :
  is_stage_work x = false -> in_stage_folder bf src x.
Proof. intros H v Hv. destruct x; simpl in *; congruence. Qed.

(** Every builder of a run is built from the one LLVM source folder, in the
    subfolder of the build folder that belongs to its stage: [bootstrap],
    [instrumentation], [cspgo_instrumentation], [profiling] or
    [cspgo_profiling] for the LLVM workload, and [final] for the final
    builder; no builder of one stage is built in the folder of another. *)
Theorem builders_in_their_stage_folders (env : Environment) (a : Args.t) (root : string) :
  Forall (in_stage_folder (build_folder_of env a root)
                          (llvm_folder_of env a (src_folder_of root)))
         (run_events (main env a root)).
Proof.
  set (bf := build_folder_of env a root).
  set (src := llvm_folder_of env a (src_folder_of root)).
  destruct (constructed_by env a root) as [st|] eqn:E.
  - destruct (main_constructed env a root st E) as [Hc (e0 & Hq & ->)].
    unfold run_events. simpl. apply Forall_app. split.
    + apply (Forall_no_stage_work _ _ (in_stage_folder_quiet bf src) Hq).
    + assert (Hinv : placement_inv a bf src st).
      { destruct (constructed_folders env a root st E)
          as (_ & D1 & D2 & D3 & D4 & D5 & D6).
        pose proof (init_llvm_folder env a (src_folder_of root) (build_folder_of env a root)
                                     DEFAULT_KERNEL_FOR_PGO) as [Hi].
        unfold constructed_by in E. unfold outcome_of in Hi.
        destruct (init env a (src_folder_of root) (build_folder_of env a root)
                       DEFAULT_KERNEL_FOR_PGO tt) as [[[] e1] [st'|c|x]];
          try discriminate E.
        injection E as <-. simpl in Hi.
        destruct Hc as (Ha & Hn & Ho & Hf & _ & _ & _ & Hd & Hcls & _).
        unfold placement_inv. rewrite Hn, Hcls, Hd.
        repeat split; auto; try lia; destruct (Args.full_toolchain a); reflexivity. }
      pose proof (dispatch_placed env a bf src st Hinv) as [[HF _]].
      exact HF.
  - apply (Forall_no_stage_work _ _ (in_stage_folder_quiet bf src)).
    apply main_not_constructed. now apply main_not_constructed_by.
Qed.

Lemma past_bootstrap_defines_quiet (t : BuildType) (x : Event) :
  is_stage_work x = false -> past_bootstrap_defines t x.
Proof. intros H v Hv. destruct x; simpl in *; congruence. Qed.

Lemma update_defines_map_flags (a : Args.t) (C : gmap string string) (k : string) :
  In k ["CMAKE_C_FLAGS"; "CMAKE_CXX_FLAGS"] ->
  exists x, update_defines_map a C !! k = Some x.
Proof.
  intros Hk. unfold update_defines_map. cbn [fold_left].
  assert (H : exists x, default_empty "CMAKE_CXX_FLAGS" (default_empty "CMAKE_C_FLAGS" C) !! k
                        = Some x).
  { unfold default_empty.
    destruct Hk as [<-|[<-|[]]].
    - destruct (C !! "CMAKE_C_FLAGS") eqn:E1.
      + destruct (C !! "CMAKE_CXX_FLAGS") eqn:E2; [eauto|].
        rewrite lookup_insert_ne by discriminate. eauto.
      + destruct (<["CMAKE_C_FLAGS":=""]> C !! "CMAKE_CXX_FLAGS") eqn:E2.
        * rewrite lookup_insert_eq. eauto.
        * rewrite lookup_insert_ne by discriminate. rewrite lookup_insert_eq. eauto.
    - destruct (match C !! "CMAKE_C_FLAGS" with
                | Some _ => C
                | None => <["CMAKE_C_FLAGS":=""]> C
                end !! "CMAKE_CXX_FLAGS") eqn:E2; [eauto|].
      rewrite lookup_insert_eq. eauto. }
  destruct H as [x Hx].
  destruct (Args.build_type a); [|eauto].
  rewrite lookup_insert_ne; [eauto|].
  intros <-. simpl in Hk. intuition discriminate.
Qed.

(** [--build-type] and the compiler flags apply past the bootstrap stage:
    every method call on a builder other than the bootstrap builder finds
    [CMAKE_BUILD_TYPE] set to the requested build type, whatever [-D] says,
    and [CMAKE_C_FLAGS] and [CMAKE_CXX_FLAGS] defined, so that the flags of
    the environment are not taken. *)
Theorem build_type_applies_past_bootstrap (env : Environment) (a : Args.t)
    (root : string) (t : BuildType) :
  Args.build_type a = Some t ->
  Forall (past_bootstrap_defines t) (run_events (main env a root)).
Proof.
  intros Ht.
  destruct (constructed_by env a root) as [st|] eqn:E.
  - destruct (main_constructed env a root st E) as [Hc (e0 & Hq & ->)].
    unfold run_events. simpl. apply Forall_app. split.
    + apply (Forall_no_stage_work _ _ (past_bootstrap_defines_quiet t) Hq).
    + pose proof (dispatch_common env a _ _ eq_refl st (constructed_defines a st Hc))
        as [[HF _]].
      set (C1 := update_defines_map a (Stages.common_cmake_defines st)) in *.
      assert (Hb : C1 !! "CMAKE_BUILD_TYPE" = Some (build_type_str t)).
      { unfold C1, update_defines_map. rewrite Ht. apply lookup_insert_eq. }
      destruct (update_defines_map_flags a (Stages.common_cmake_defines st) "CMAKE_C_FLAGS")
        as [x1 H1]; [simpl; tauto|].
      destruct (update_defines_map_flags a (Stages.common_cmake_defines st) "CMAKE_CXX_FLAGS")
        as [x2 H2]; [simpl; tauto|].
      eapply Forall_impl; [exact HF|]. intros e He v Hv Hcls.
      specialize (He v Hv). rewrite Hcls in He.
      assert (Hl : forall k, In k ["CMAKE_C_FLAGS"; "CMAKE_CXX_FLAGS"; "CMAKE_BUILD_TYPE"] ->
                             ~ In k stage_local_keys)
        by (intros k Hk Hin; simpl in *; intuition (subst; discriminate)).
      split; [|split].
      * exists x1. apply He; [exact H1 | apply Hl; simpl; tauto].
      * exists x2. apply He; [exact H2 | apply Hl; simpl; tauto].
      * apply He; [exact Hb | apply Hl; simpl; tauto].
  - apply (Forall_no_stage_work _ _ (past_bootstrap_defines_quiet t)).
    apply main_not_constructed. now apply main_not_constructed_by.
Qed.

Lemma build_type_applies_past_bootstrap_witness :
  let a := Sample.with_defines ["CMAKE_BUILD_TYPE=Debug"] (Some Release)
             (Sample.args (Some ["llvm"]) false false false None) in
  Forall (past_bootstrap_defines Release) (run_events (main Sample.env a Sample.root)).
Proof.
  apply (build_type_applies_past_bootstrap Sample.env
           (Sample.with_defines ["CMAKE_BUILD_TYPE=Debug"] (Some Release)
              (Sample.args (Some ["llvm"]) false false false None))
           Sample.root Release).
  reflexivity.
Defined.
